(** * Instagram Auto Session Manager: consent-gated delivery pipeline

    A shallow embedding of the three scripts of the extension
    (background service worker, content script, consent page) and the
    properties of the pipeline that binds them.

    Conventions of the embedding.
    - A JavaScript string is a [string] of bytes (UTF-8).  Every pattern the
      code searches for is ASCII, and no byte of a multi-byte UTF-8 sequence
      is an ASCII byte, so searching and replacing agree with the UTF-16
      view of the engine.
      Lengths are counted in bytes, which is the length the engine sees
      for the ASCII text of a session id.  A display text that is measured
      and cut by position is held as the list of its UTF-16 code units
      instead.
    - [null]/[undefined] fields are [option]s; a string is falsy exactly
      when it is empty.
    - An [async] handler is run to completion: every [await] is a call
      whose outcome (a network reply, a storage write that resolves or
      rejects) is read from the environment record of the context.
    - Each context keeps its state in one global object; the record of a
      context holds the fields its modelled handlers read or write, and a
      handler leaves every other field alone.
    - [console.*] calls have no model. *)

From Stdlib Require Import ZArith String Ascii List Bool Lia.
From stdpp Require Import base option list gmap strings fin_maps pretty.

Local Open Scope string_scope.
Local Open Scope list_scope.
Local Open Scope Z_scope.

(* ===================================================================== *)
(** * JavaScript strings                                                  *)
(* ===================================================================== *)

Module JS.

(** [!!s] for a string. *)
Definition truthy (s : string) : bool := negb (String.eqb s "").

(** [!!v] for a value that is a string, [null] or [undefined]. *)
Definition truthyO (o : option string) : bool :=
  match o with Some s => truthy s | None => false end.

(** [v || d] where [d] is a string. *)
Definition orElse (o : option string) (d : string) : string :=
  match o with
  | Some s => if truthy s then s else d
  | None => d
  end.

(** [s.substring(0, n)]. *)
Definition substring0 (n : nat) (s : string) : string := String.substring 0 n s.

(** [s.split(sep)] for a one-character separator. *)
Fixpoint split (sep : ascii) (s : string) : list string :=
  match s with
  | EmptyString => [EmptyString]
  | String c tl =>
      if Ascii.eqb c sep then EmptyString :: split sep tl
      else match split sep tl with
           | hd :: rest => String c hd :: rest
           | [] => [String c EmptyString]
           end
  end.

(** White space of [String.prototype.trim] within the ASCII range. *)
Definition isWhite (c : ascii) : bool :=
  let n := nat_of_ascii c in
  (Nat.eqb n 32 || Nat.eqb n 9 || Nat.eqb n 10 || Nat.eqb n 11
   || Nat.eqb n 12 || Nat.eqb n 13)%bool.

Fixpoint trimStart (s : string) : string :=
  match s with
  | String c tl => if isWhite c then trimStart tl else s
  | EmptyString => EmptyString
  end.

Definition trim (s : string) : string :=
  String.rev (trimStart (String.rev (trimStart s))).

(** [s.includes(p)]: some suffix of [s] starts with [p]. *)
Fixpoint includes (p s : string) : bool :=
  String.prefix p s
  || match s with
     | String _ tl => includes p tl
     | EmptyString => false
     end.

(** The replacement text of one match, [GetSubstitution] of the language
    standard for a pattern without capture groups: [$$] is a dollar sign,
    [$&] the match, [$`] the text before it, [$'] the text after it; any
    other use of [$] stands for itself. *)
Fixpoint getSubstitution (matched before after rep : string) : string :=
  match rep with
  | EmptyString => EmptyString
  | String a tl =>
      if Ascii.eqb a "$" then
        match tl with
        | String b rest =>
            if Ascii.eqb b "$" then String "$" (getSubstitution matched before after rest)
            else if Ascii.eqb b "&" then matched +:+ getSubstitution matched before after rest
            else if Ascii.eqb b "`" then before +:+ getSubstitution matched before after rest
            else if Ascii.eqb b "'" then after +:+ getSubstitution matched before after rest
            else String a (getSubstitution matched before after tl)
        | EmptyString => String a EmptyString
        end
      else String a (getSubstitution matched before after tl)
  end.

Fixpoint drop (n : nat) (s : string) : string :=
  match n, s with
  | S k, String _ tl => drop k tl
  | _, _ => s
  end.

(** The scan of [s.replace(/pat/g, rep)] for a literal, non-empty [pat]:
    matches are taken leftmost first and do not overlap.  [before] is the
    text already scanned; [skip] counts the characters of the current
    match still to be passed over. *)
Fixpoint replaceScan (pat rep before : string) (skip : nat) (s : string) : string :=
  match s with
  | EmptyString => EmptyString
  | String c tl =>
      let before' := before +:+ String c EmptyString in
      match skip with
      | S k => replaceScan pat rep before' k tl
      | O =>
          if String.prefix pat s
          then getSubstitution pat before (drop (String.length pat) s) rep
                 +:+ replaceScan pat rep before' (String.length pat - 1) tl
          else String c (replaceScan pat rep before' O tl)
      end
  end.

(** [s.replace(/pat/g, rep)]. *)
Definition replaceAll (pat rep s : string) : string :=
  replaceScan pat rep EmptyString O s.

End JS.

(* ===================================================================== *)
(** * Handlers: state, exceptions and the host environment                *)
(* ===================================================================== *)

(** A thrown [Error]; only its [message] is ever read. *)
Record JsError := mkError { message : string }.

Inductive Res (A : Type) : Type :=
| Done (a : A)
| Threw (e : JsError).
Arguments Done {A} a.
Arguments Threw {A} e.

(** A handler reads the host environment [E], updates the state [S] of its
    context and either returns or throws. *)
Definition M (E S A : Type) : Type := E -> S -> Res A * S.

Definition ret {E S A} (a : A) : M E S A := fun _ s => (Done a, s).

Definition bind {E S A B} (m : M E S A) (k : A -> M E S B) : M E S B :=
  fun e s =>
    match m e s with
    | (Done a, s') => k a e s'
    | (Threw err, s') => (Threw err, s')
    end.

Definition throw {E S A} (msg : string) : M E S A :=
  fun _ s => (Threw (mkError msg), s).

(** [try { body } catch (error) { handler }]. *)
Definition tryCatch {E S A} (body : M E S A) (handler : JsError -> M E S A) : M E S A :=
  fun e s =>
    match body e s with
    | (Done a, s') => (Done a, s')
    | (Threw err, s') => handler err e s'
    end.

(** [try { body } finally { fin }]. *)
Definition tryFinally {E S A} (body : M E S A) (fin : M E S unit) : M E S A :=
  fun e s =>
    match body e s with
    | (r, s') =>
        match fin e s' with
        | (Done _, s'') => (r, s'')
        | (Threw err, s'') => (Threw err, s'')
        end
    end.

Definition ask {E S} : M E S E := fun e s => (Done e, s).
Definition get {E S} : M E S S := fun _ s => (Done s, s).
Definition modify {E S} (f : S -> S) : M E S unit := fun _ s => (Done tt, f s).

Definition when {E S} (b : bool) (m : M E S unit) : M E S unit :=
  if b then m else ret tt.

(** The state a handler leaves behind. *)
Definition exec {E S A} (m : M E S A) (e : E) (s : S) : S := snd (m e s).
Definition result {E S A} (m : M E S A) (e : E) (s : S) : Res A := fst (m e s).

Declare Scope js_scope.
Delimit Scope js_scope with js.
Notation "x <- c ;; k" := (bind c (fun x => k))
  (at level 100, c at next level, right associativity) : js_scope.
Notation "c ;; k" := (bind c (fun _ => k))
  (at level 100, right associativity) : js_scope.
Local Open Scope js_scope.


(* ===================================================================== *)
(** * The persistent store                                                *)
(* ===================================================================== *)

(** [chrome.storage.local] is a map from keys to values; [set] writes
    every item of its argument and [remove] deletes every key of its
    argument. *)
Definition putAll {V} (items : list (string * V)) (m : gmap string V) : gmap string V :=
  foldr (fun kv acc => <[kv.1 := kv.2]> acc) m items.

Definition removeAll {V} (keys : list string) (m : gmap string V) : gmap string V :=
  foldr (fun k acc => delete k acc) m keys.
(* ===================================================================== *)
(** * Data shared by the three contexts                                   *)
(* ===================================================================== *)

(** The artifact built by [extractSessionData] and
    [extractInstagramSessionData] and carried by messages.  [extractedAt]
    holds the text of [new Date().toISOString()]. *)
Record SessionData := mkSessionData {
  sessionId : option string;
  userId : option string;
  username : option string;
  extractedAt : option string;
  url : option string
}.

(** Values stored under the keys of a log entry's [data] object. *)
Inductive JsVal :=
| JUndefined
| JStr (s : string)
| JNum (z : Z)
| JBool (b : bool).

Definition optStr (o : option string) : JsVal :=
  match o with Some s => JStr s | None => JUndefined end.

(** The reply to [fetch(.../sendMessage)] followed by [response.json()]. *)
Inductive FetchOutcome :=
| NetFail (msg : string)                  (* either promise rejects with Error(msg) *)
| ApiOk (message_id : Z)                  (* { ok: true, result: { message_id } } *)
| ApiErr (description : option string).   (* { ok: false, description? } *)

(** [sessionId.substring(0, 10) + '...'], the redacted form written to logs. *)
Definition redact (s : string) : string := JS.substring0 10 s +:+ "...".

(* ===================================================================== *)
(** * The Coordinator: background service worker                          *)
(* ===================================================================== *)

Module Background.

(** ** BACKGROUND_CONFIG *)

Definition TELEGRAM_API_BASE : string := "https://api.telegram.org/bot".
Definition MAX_SESSION_HISTORY : nat := 100.
Definition SESSION_CLEANUP_INTERVAL : Z := 3600000.
Definition MAX_LOG_ENTRIES : nat := 1000.
Definition LOG_CLEANUP_INTERVAL : Z := 86400000.
Definition EXTENSION_VERSION : string := "2.0.0".

Definition SESSION_HISTORY : string := "sessionHistory".
Definition ACTIVITY_LOGS : string := "activityLogs".
Definition ERROR_LOGS : string := "errorLogs".

(** ** Records of [backgroundState] *)

(** [generateUniqueId()] concatenates the base-36 renderings of the clock
    and of a random draw; the two components are kept apart. *)
Record UniqueId := mkId { id_time : Z; id_random : string }.

(** Time stamps written by [new Date().toISOString()] and read back by
    [new Date(...).getTime()] are kept as the millisecond count itself. *)
Record HistoryEntry := mkHistory {
  h_sessionId : option string;
  h_userId : option string;
  h_username : option string;
  h_url : option string;
  h_tabId : Z;
  h_detectedAt : Z;
  h_processed : bool;
  h_processedAt : option Z;
  h_id : UniqueId
}.

Record ActivityLogEntry := mkActivity {
  a_id : UniqueId;
  a_timestamp : Z;
  a_activity : string;
  a_data : list (string * JsVal)
}.

Record ErrorLogEntry := mkErrorEntry {
  e_id : UniqueId;
  e_timestamp : Z;
  e_type : string;
  e_message : string;
  e_extensionVersion : string
}.

Record ActiveSession := mkActive {
  s_sessionData : SessionData;
  s_tabId : Z;
  s_detectedAt : Z;
  s_processed : bool
}.

Record Telegram := mkTelegram {
  botToken : string;
  chatId : string;
  messageTemplate : string
}.

Record Privacy := mkPrivacy {
  autoClearData : bool;
  clearOnClose : bool;
  showNotifications : bool;
  consentReminders : bool;
  requireConfirmation : bool;
  logActivities : bool
}.

Record ExtensionSettings := mkSettings {
  telegram : Telegram;
  privacy : Privacy
}.

(** What [chrome.storage.local] holds under a key. *)
Inductive Stored :=
| SvHistory (h : list HistoryEntry)
| SvActivity (l : list ActivityLogEntry)
| SvErrors (l : list ErrorLogEntry)
| SvSession (d : SessionData)
| SvNum (z : Z).

Inductive Response :=
| RespOk (messageId : Z)                  (* { success: true, messageId } *)
| RespFail (error : string).              (* { success: false, error } *)

(** Effects that leave the service worker. *)
Inductive Event :=
| Fetch (url chat_id text : string)       (* POST to the sink *)
| StorageSet (items : list (string * Stored))
| StorageRemove (keys : list string)
| SendResponse (r : Response)
| TabsSendMessage (tabId : Z) (r : Response).  (* action 'consentProcessed' *)

(** [backgroundState] (the fields the modelled handlers touch), the
    persistent store, the effects issued so far, newest first, and the
    number of draws made from the environment. *)
Record World := mkWorld {
  extensionSettings : option ExtensionSettings;
  activeSessions : gmap string ActiveSession;
  sessionHistory : list HistoryEntry;
  activityLogs : list ActivityLogEntry;
  errorLogs : list ErrorLogEntry;
  errorCount : Z;
  storage : gmap string Stored;
  trace : list Event;
  draws : nat
}.

(** The host: clock, random source, storage and network outcomes. *)
Record Env := mkEnv {
  now : Z;
  random : nat -> string;
  storageRejects : nat -> option string;   (* [Some msg]: the call rejects *)
  sink : string -> string -> string -> FetchOutcome;
  toLocaleString : option string -> string (* new Date(v).toLocaleString() *)
}.

Definition set_activeSessions (v : gmap string ActiveSession) (w : World) : World :=
  mkWorld (extensionSettings w) v (sessionHistory w) (activityLogs w) (errorLogs w)
          (errorCount w) (storage w) (trace w) (draws w).
Definition set_sessionHistory (v : list HistoryEntry) (w : World) : World :=
  mkWorld (extensionSettings w) (activeSessions w) v (activityLogs w) (errorLogs w)
          (errorCount w) (storage w) (trace w) (draws w).
Definition set_activityLogs (v : list ActivityLogEntry) (w : World) : World :=
  mkWorld (extensionSettings w) (activeSessions w) (sessionHistory w) v (errorLogs w)
          (errorCount w) (storage w) (trace w) (draws w).
Definition set_errorLogs (v : list ErrorLogEntry) (w : World) : World :=
  mkWorld (extensionSettings w) (activeSessions w) (sessionHistory w) (activityLogs w) v
          (errorCount w) (storage w) (trace w) (draws w).
Definition set_errorCount (v : Z) (w : World) : World :=
  mkWorld (extensionSettings w) (activeSessions w) (sessionHistory w) (activityLogs w)
          (errorLogs w) v (storage w) (trace w) (draws w).
Definition set_storage (v : gmap string Stored) (w : World) : World :=
  mkWorld (extensionSettings w) (activeSessions w) (sessionHistory w) (activityLogs w)
          (errorLogs w) (errorCount w) v (trace w) (draws w).
Definition emit (ev : Event) (w : World) : World :=
  mkWorld (extensionSettings w) (activeSessions w) (sessionHistory w) (activityLogs w)
          (errorLogs w) (errorCount w) (storage w) (ev :: trace w) (draws w).
Definition tick (w : World) : World :=
  mkWorld (extensionSettings w) (activeSessions w) (sessionHistory w) (activityLogs w)
          (errorLogs w) (errorCount w) (storage w) (trace w) (S (draws w)).

Abbreviation Handler := (M Env World).

(** ** Host calls *)

(** [chrome.storage.local.set(items)]: the write is issued, and lands in
    the store unless the call rejects. *)
Definition storageSet (items : list (string * Stored)) : Handler unit :=
  fun e w =>
    let w1 := tick (emit (StorageSet items) w) in
    match storageRejects e (draws w) with
    | Some msg => (Threw (mkError msg), w1)
    | None =>
        (Done tt,
         set_storage (putAll items (storage w1)) w1)
    end.

(** [chrome.storage.local.remove(keys)]. *)
Definition storageRemove (keys : list string) : Handler unit :=
  fun e w =>
    let w1 := tick (emit (StorageRemove keys) w) in
    match storageRejects e (draws w) with
    | Some msg => (Threw (mkError msg), w1)
    | None => (Done tt, set_storage (removeAll keys (storage w1)) w1)
    end.

(** [fetch(url, { method: 'POST', body: { chat_id, text, parse_mode } })]
    and [response.json()]. *)
Definition fetchJson (target chat text : string) : Handler FetchOutcome :=
  fun e w =>
    let w1 := emit (Fetch target chat text) w in
    match sink e target chat text with
    | NetFail msg => (Threw (mkError msg), w1)
    | reply => (Done reply, w1)
    end.

Definition sendResponse (r : Response) : Handler unit :=
  modify (emit (SendResponse r)).

(** [if (sender.tab) chrome.tabs.sendMessage(sender.tab.id, ...)]. *)
Definition notifyTab (tab : option Z) (r : Response) : Handler unit :=
  match tab with
  | Some id => modify (emit (TabsSendMessage id r))
  | None => ret tt
  end.

(** ** Utility functions *)

Definition validateSessionData (sessionData : option SessionData) : bool :=
  match sessionData with
  | None => false
  | Some d =>
      if negb (JS.truthyO (sessionId d)) || negb (JS.truthyO (extractedAt d)) then false
      else match sessionId d with
           | Some s => negb (String.length s <? 20)%nat
           | None => false
           end
  end.

Definition generateUniqueId : Handler UniqueId :=
  fun e w => (Done (mkId (now e) (random e (draws w))), tick w).

(** ** Logging *)

Definition loggingEnabled (w : World) : bool :=
  match extensionSettings w with
  | Some s => logActivities (privacy s)
  | None => false
  end.

Definition logActivity (activity : string) (data : list (string * JsVal)) : Handler unit :=
  tryCatch
    (id <- generateUniqueId ;;
     e <- ask ;;
     let logEntry := mkActivity id (now e) activity data in
     modify (fun w => set_activityLogs (logEntry :: activityLogs w) w) ;;
     w <- get ;;
     when (MAX_LOG_ENTRIES <? length (activityLogs w))%nat
          (modify (set_activityLogs (take MAX_LOG_ENTRIES (activityLogs w)))) ;;
     w <- get ;;
     when (loggingEnabled w)
          (storageSet [(ACTIVITY_LOGS, SvActivity (activityLogs w))]))
    (fun _ => ret tt).

Definition logError (errorType : string) (error : JsError) : Handler unit :=
  tryCatch
    (modify (fun w => set_errorCount (errorCount w + 1) w) ;;
     id <- generateUniqueId ;;
     e <- ask ;;
     let errorEntry := mkErrorEntry id (now e) errorType (message error) EXTENSION_VERSION in
     modify (fun w => set_errorLogs (errorEntry :: errorLogs w) w) ;;
     w <- get ;;
     when (MAX_LOG_ENTRIES <? length (errorLogs w))%nat
          (modify (set_errorLogs (take MAX_LOG_ENTRIES (errorLogs w)))) ;;
     w <- get ;;
     storageSet [(ERROR_LOGS, SvErrors (errorLogs w))])
    (fun _ => ret tt).

Definition performLogCleanup : Handler unit :=
  tryCatch
    (e <- ask ;;
     let cleanupThreshold := now e - LOG_CLEANUP_INTERVAL in
     modify (fun w => set_activityLogs
               (filter (fun entry => cleanupThreshold < a_timestamp entry) (activityLogs w)) w) ;;
     modify (fun w => set_errorLogs
               (filter (fun entry => cleanupThreshold < e_timestamp entry) (errorLogs w)) w) ;;
     w <- get ;;
     storageSet [(ACTIVITY_LOGS, SvActivity (activityLogs w));
                 (ERROR_LOGS, SvErrors (errorLogs w))])
    (fun error => logError "log_cleanup_error" error).

(** ** Session management *)

Definition addToSessionHistory (sessionData : SessionData) (tabId : Z) : Handler unit :=
  tryCatch
    (e <- ask ;;
     id <- generateUniqueId ;;
     let historyEntry :=
       mkHistory (sessionId sessionData) (userId sessionData) (username sessionData)
                 (url sessionData) tabId (now e) false None id in
     modify (fun w => set_sessionHistory (historyEntry :: sessionHistory w) w) ;;
     w <- get ;;
     when (MAX_SESSION_HISTORY <? length (sessionHistory w))%nat
          (modify (set_sessionHistory (take MAX_SESSION_HISTORY (sessionHistory w)))) ;;
     w <- get ;;
     storageSet [(SESSION_HISTORY, SvHistory (sessionHistory w))])
    (fun error => logError "session_history_error" error).

(** [entry.processed = ...; entry.processedAt = ...] on the first entry
    found by [sessionHistory.find(h => h.sessionId === sessionId)]. *)
Fixpoint markFirst (sid : string) (processed : bool) (at_ : Z) (h : list HistoryEntry)
  : option (list HistoryEntry) :=
  match h with
  | [] => None
  | entry :: rest =>
      if decide (h_sessionId entry = Some sid)
      then Some (mkHistory (h_sessionId entry) (h_userId entry) (h_username entry)
                           (h_url entry) (h_tabId entry) (h_detectedAt entry)
                           processed (Some at_) (h_id entry) :: rest)
      else cons entry <$> markFirst sid processed at_ rest
  end.

Definition updateSessionHistory (sid : string) (status : string) : Handler unit :=
  tryCatch
    (e <- ask ;;
     w <- get ;;
     match markFirst sid (String.eqb status "processed") (now e) (sessionHistory w) with
     | Some h =>
         modify (set_sessionHistory h) ;;
         storageSet [(SESSION_HISTORY, SvHistory h)]
     | None => ret tt
     end)
    (fun error => logError "session_history_update_error" error).

(** The loop [for (const [key, session] of activeSessions.entries())
    if (doomed(session)) activeSessions.delete(key)].  Deleting the entry
    being visited does not disturb the iteration, and the outcome does not
    depend on the order of the visit. *)
Definition deleteStep (doomed : ActiveSession -> bool)
    (m : gmap string ActiveSession) (kv : string * ActiveSession)
  : gmap string ActiveSession :=
  if doomed kv.2 then delete kv.1 m else m.

Definition deleteWhere (doomed : ActiveSession -> bool)
    (sessions : gmap string ActiveSession) : gmap string ActiveSession :=
  foldl (deleteStep doomed) sessions (map_to_list sessions).

Definition cleanupTabSessions (tabId : Z) : Handler unit :=
  tryCatch
    (modify (fun w =>
       set_activeSessions
         (deleteWhere (fun session => Z.eqb (s_tabId session) tabId) (activeSessions w)) w))
    (fun _ => ret tt).

Definition clearSessionData (sid : string) : Handler unit :=
  tryCatch
    (modify (fun w =>
       set_activeSessions
         (deleteWhere (fun session =>
                         bool_decide (sessionId (s_sessionData session) = Some sid))
                      (activeSessions w)) w) ;;
     storageRemove ["pendingSessionData"; "consentRequestTime"])
    (fun error => logError "session_clear_error" error).

(** [handleTabRemoved(tabId, removeInfo)]. *)
Definition handleTabRemoved (tabId : Z) : Handler unit := cleanupTabSessions tabId.

(** ** Telegram *)

(** [DEFAULT_SETTINGS.telegram.messageTemplate]. *)
Definition DEFAULT_TEMPLATE : string :=
"🔐 Instagram Session Data Detected

📱 **Account Information:**
• Session ID: {sessionId}
• User ID: {userId}
• Username: {username}

⏰ **Timestamp:** {timestamp}
🌐 **URL:** {url}

✅ Data extracted with user consent via Instagram Auto Session Manager".

(** The chain of five [replace] calls shared by both copies of
    [formatTelegramMessage]; they differ in the fall-back template and in
    what stands for a missing [url]. *)
Definition substitute (sid uid uname stamp link template : string) : string :=
  JS.replaceAll "{url}" link
    (JS.replaceAll "{timestamp}" stamp
      (JS.replaceAll "{username}" uname
        (JS.replaceAll "{userId}" uid
          (JS.replaceAll "{sessionId}" sid template)))).

Definition formatTelegramMessage (locale : option string -> string)
    (sessionData : SessionData) (template : string) : string :=
  let template := if JS.truthy template then template else DEFAULT_TEMPLATE in
  substitute (JS.orElse (sessionId sessionData) "Not found")
             (JS.orElse (userId sessionData) "Not found")
             (JS.orElse (username sessionData) "Not found")
             (locale (extractedAt sessionData))
             (JS.orElse (url sessionData) "Unknown")
             template.

Inductive SendResult :=
| Success (messageId : Z)                 (* { success: true, messageId } *)
| Failure (error : string).               (* { success: false, error } *)

Definition sendTelegramMessage (token chat text : string) : Handler SendResult :=
  tryCatch
    (reply <- fetchJson (TELEGRAM_API_BASE +:+ token +:+ "/sendMessage") chat text ;;
     match reply with
     | ApiOk message_id => ret (Success message_id)
     | ApiErr description => throw (JS.orElse description "Failed to send message")
     | NetFail msg => throw msg
     end)
    (fun error => ret (Failure (message error))).

(** Reading [backgroundState.extensionSettings.x] throws a [TypeError]
    while the settings are still [null]. *)
Definition settingsOrThrow (field : string) : Handler ExtensionSettings :=
  w <- get ;;
  match extensionSettings w with
  | Some s => ret s
  | None => throw ("Cannot read properties of null (reading '" +:+ field +:+ "')")
  end.

(** [const { field } = backgroundState.extensionSettings] throws another
    [TypeError] while the settings are [null]. *)
Definition destructureSettings (field : string) : Handler ExtensionSettings :=
  w <- get ;;
  match extensionSettings w with
  | Some s => ret s
  | None =>
      throw ("Cannot destructure property '" +:+ field
             +:+ "' of 'backgroundState.extensionSettings' as it is null.")
  end.

Definition configured (t : Telegram) : bool :=
  JS.truthy (botToken t) && JS.truthy (chatId t).

Definition sendToTelegram (sessionData : SessionData) : Handler SendResult :=
  tryCatch
    (s <- destructureSettings "telegram" ;;
     if negb (configured (telegram s)) then throw "Telegram bot not configured"
     else
       e <- ask ;;
       let text := formatTelegramMessage (toLocaleString e) sessionData
                                        (messageTemplate (telegram s)) in
       r <- sendTelegramMessage (botToken (telegram s)) (chatId (telegram s)) text ;;
       match r with
       | Success messageId => ret (Success messageId)
       | Failure error => throw error
       end)
    (fun error => ret (Failure (message error))).

(** ** The delivery request *)

(** The sender of a message: [sender.tab.id] when it comes from a tab. *)
Record Sender := mkSender { tab : option Z }.

(** A ['processSessionData'] message. *)
Record ProcessMessage := mkProcess {
  msg_sessionData : option SessionData;
  msg_consentType : option string
}.

Definition handleProcessSessionData (msg : ProcessMessage) (sender : Sender)
  : Handler unit :=
  tryCatch
    (match msg_sessionData msg with
     | Some sessionData =>
         if negb (validateSessionData (Some sessionData)) then throw "Invalid session data"
         else
           s <- settingsOrThrow "telegram" ;;
           if negb (configured (telegram s)) then throw "Telegram bot not configured"
           else
             r <- sendToTelegram sessionData ;;
             match r with
             | Success messageId =>
                 e <- ask ;;
                 let sid := default "" (sessionId sessionData) in
                 logActivity "session_processed"
                   [("sessionId", JStr (redact sid));
                    ("consentType", optStr (msg_consentType msg));
                    ("telegramMessageId", JNum messageId);
                    ("timestamp", JNum (now e))] ;;
                 updateSessionHistory sid "processed" ;;
                 s' <- settingsOrThrow "privacy" ;;
                 when (autoClearData (privacy s')) (clearSessionData sid) ;;
                 sendResponse (RespOk messageId) ;;
                 notifyTab (tab sender) (RespOk messageId)
             | Failure error =>
                 throw (JS.orElse (Some error) "Failed to send to Telegram")
             end
     | None => throw "Invalid session data"
     end)
    (fun error =>
       logError "session_processing_error" error ;;
       sendResponse (RespFail (message error)) ;;
       notifyTab (tab sender) (RespFail (message error))).

(** [handleAlarm] for the alarm named ['logCleanup']. *)
Definition handleLogCleanupAlarm : Handler unit :=
  tryCatch performLogCleanup (fun error => logError "alarm_handler_error" error).

(** ** Observations on a run *)

(** The number of requests made to the sink. *)
Definition sends (t : list Event) : nat :=
  length (List.filter (fun ev => match ev with Fetch _ _ _ => true | _ => false end) t).

(** The replies given through [sendResponse], newest first. *)
Definition responses (t : list Event) : list Response :=
  omap (fun ev => match ev with SendResponse r => Some r | _ => None end) t.

(** The ['consentProcessed'] notices sent to tabs, newest first. *)
Definition tabNotices (t : list Event) : list (Z * Response) :=
  omap (fun ev => match ev with TabsSendMessage id r => Some (id, r) | _ => None end) t.

(** The keys of the storage writes issued, newest first. *)
Definition writes (t : list Event) : list (list string) :=
  omap (fun ev => match ev with StorageSet items => Some (items.*1) | _ => None end) t.

(** The request [sendToTelegram] makes for an artifact under given settings,
    and the error the delivery handler reports when the sink fails it. *)
Definition sinkReply (e : Env) (s : ExtensionSettings) (d : SessionData) : FetchOutcome :=
  sink e (TELEGRAM_API_BASE +:+ botToken (telegram s) +:+ "/sendMessage")
         (chatId (telegram s))
         (formatTelegramMessage (toLocaleString e) d (messageTemplate (telegram s))).

Definition deliveryFailure (e : Env) (s : ExtensionSettings) (d : SessionData)
  : option string :=
  match sinkReply e s d with
  | NetFail msg => Some (JS.orElse (Some msg) "Failed to send to Telegram")
  | ApiErr description =>
      Some (JS.orElse (Some (JS.orElse description "Failed to send message"))
                      "Failed to send to Telegram")
  | ApiOk _ => None
  end.

(** A handler that leaves an observation of the world as it found it. *)
Definition preserves {A X} (obs : World -> X) (m : Handler A) : Prop :=
  forall e w, obs (exec m e w) = obs w.

(** What the book-keeping handlers leave alone: the requests made to the
    sink, the replies given, the notices sent and the settings. *)
Definition quietView (w : World) :=
  (sends (trace w), responses (trace w), tabNotices (trace w), extensionSettings w).

(** The same without the replies and notices. *)
Definition sinkView (w : World) := (sends (trace w), extensionSettings w).

Definition total {A} (m : Handler A) : Prop :=
  forall e w, exists a, result m e w = Done a.

(** The entry [addToSessionHistory] builds. *)
Definition historyEntryOf (e : Env) (w : World) (d : SessionData) (tabId : Z) : HistoryEntry :=
  mkHistory (sessionId d) (userId d) (username d) (url d) tabId (now e) false None
            (mkId (now e) (random e (draws w))).

(** The entry [logError] writes when the sweep cannot persist its result. *)
Definition sweepFailureEntry (e : Env) (w : World) (msg : string) : ErrorLogEntry :=
  mkErrorEntry (mkId (now e) (random e (S (draws w)))) (now e)
               "log_cleanup_error" msg EXTENSION_VERSION.

(** Whether a delivery request gets as far as the sink: the artifact is
    valid and the sink configured. *)
Definition reachesSink (w : World) (msg : ProcessMessage) : bool :=
  validateSessionData (msg_sessionData msg)
  && match extensionSettings w with
     | Some s => configured (telegram s)
     | None => false
     end.

(** ** Detection events and the session sweep *)

(** The key of an active session, [`${sender.tab.id}_${sessionData.sessionId}`];
    a [null] session id is spelled out by the template. *)
Definition sessionKey (tabId : Z) (d : SessionData) : string :=
  pretty tabId +:+ "_" +:+ default "null" (sessionId d).

(** [handleSessionDetected(sessionData, sender)]; [data] is the [data]
    field of the message, which may be missing, and so may [sender.tab]. *)
Definition handleSessionDetected (data : option SessionData) (sender : Sender)
  : Handler unit :=
  tryCatch
    (match tab sender with
     | None => throw "Cannot read properties of undefined (reading 'id')"
     | Some tabId =>
         match data with
         | None => throw "Cannot read properties of undefined (reading 'sessionId')"
         | Some sessionData =>
             e <- ask ;;
             modify (fun w =>
               set_activeSessions
                 (<[sessionKey tabId sessionData
                      := mkActive sessionData tabId (now e) false]> (activeSessions w)) w) ;;
             addToSessionHistory sessionData tabId ;;
             match sessionId sessionData with
             | None => throw "Cannot read properties of null (reading 'substring')"
             | Some sid =>
                 logActivity "session_detected"
                   [("sessionId", JStr (redact sid));
                    ("userId", optStr (userId sessionData));
                    ("username", optStr (username sessionData));
                    ("url", optStr (url sessionData));
                    ("tabId", JNum tabId);
                    ("timestamp", JNum (now e))]
             end
         end
     end)
    (fun error => logError "session_detection_error" error).

Definition performSessionCleanup : Handler unit :=
  tryCatch
    (e <- ask ;;
     let cleanupThreshold := now e - SESSION_CLEANUP_INTERVAL in
     modify (fun w =>
       set_activeSessions
         (deleteWhere (fun session => s_detectedAt session <? cleanupThreshold)
                      (activeSessions w)) w) ;;
     modify (fun w =>
       set_sessionHistory
         (filter (fun entry => cleanupThreshold < h_detectedAt entry) (sessionHistory w)) w) ;;
     w <- get ;;
     storageSet [(SESSION_HISTORY, SvHistory (sessionHistory w))])
    (fun error => logError "session_cleanup_error" error).

(** The entries written by [logActivity] and [logError]. *)
Definition activityEntryOf (e : Env) (w : World) (activity : string)
    (data : list (string * JsVal)) : ActivityLogEntry :=
  mkActivity (mkId (now e) (random e (draws w))) (now e) activity data.

Definition errorEntryOf (e : Env) (w : World) (errorType : string) (error : JsError)
  : ErrorLogEntry :=
  mkErrorEntry (mkId (now e) (random e (draws w))) (now e) errorType (message error)
               EXTENSION_VERSION.

(** What [updateSessionHistory] writes into the entry it finds. *)
Definition markProcessed (processed : bool) (at_ : Z) (entry : HistoryEntry) : HistoryEntry :=
  mkHistory (h_sessionId entry) (h_userId entry) (h_username entry) (h_url entry)
            (h_tabId entry) (h_detectedAt entry) processed (Some at_) (h_id entry).
End Background.
(* ===================================================================== *)
(** * The popup                                                           *)
(* ===================================================================== *)

Module Popup.

(** [Number.MAX_SAFE_INTEGER]. *)
Definition MAX_SAFE_INTEGER : Z := 9007199254740991.

(** [formatDuration(duration)] for a whole number of milliseconds among
    the safe integers.  There the quotient by 1000 computed in double
    precision lies within 2^-10 of the exact one, which is a whole number
    or at least 1/1000 away from one, so [Math.floor] of it is the floor
    quotient; the quotients by 60 are smaller still.  [%] is the remainder
    of the truncated division.  Beyond the safe integers the doubles round
    and the embedding gives no result.  Nothing in the [try] block can
    throw. *)
Definition formatDuration (duration : Z) : option string :=
  if Z.abs duration <=? MAX_SAFE_INTEGER then
    let seconds := duration / 1000 in
    let minutes := seconds / 60 in
    let hours := minutes / 60 in
    Some (if 0 <? hours then pretty hours +:+ "h " +:+ pretty (Z.rem minutes 60) +:+ "m"
          else if 0 <? minutes
               then pretty minutes +:+ "m " +:+ pretty (Z.rem seconds 60) +:+ "s"
               else pretty seconds +:+ "s")
  else None.

End Popup.


(* ===================================================================== *)
(** * The Detector: content script                                        *)
(* ===================================================================== *)

Module Detector.

(** ** CONTENT_CONFIG *)

Definition CONSENT_COOLDOWN_DURATION : Z := 300000.
Definition SESSION_REMEMBER_DURATION : Z := 3600000.
Definition SESSION_ID_MIN_LENGTH : nat := 20.

(** [contentState.userChoice]: written by [handleConsentProcessed], or
    copied from the [userConsent] record of the store. *)
Record UserChoice := mkChoice {
  consent : string;
  timestamp : option Z;
  choiceSessionId : option string
}.

(** [contentState.extensionSettings]: the stored records, whose fields may
    be missing. *)
Record Settings := mkSettings {
  botToken : option string;
  chatId : option string;
  requireConfirmation : option bool;
  autoClearData : bool
}.

Inductive Stored :=
| SvSession (d : option SessionData)
| SvNum (z : Z).

(** Messages sent to the Coordinator with [chrome.runtime.sendMessage]. *)
Inductive Outgoing :=
| ProcessSessionData (sessionData : option SessionData) (consentType : string)
| OpenConsentPage (target : string) (sessionData : option SessionData)
| LogActivity (activity : string) (data : list (string * JsVal))
| ReportError (errorType msg : string).

Inductive Event :=
| RuntimeSendMessage (m : Outgoing)
| StorageSet (items : list (string * Stored))
| StorageRemove (keys : list string)
| WindowOpen (target : string)
| Notification (text kind : string).

(** [contentState], whether the notification container exists
    ([uiElements]), the persistent store, the effects issued so far, newest
    first, and the number of draws made from the environment. *)
Record World := mkWorld {
  sessionDetected : bool;
  sessionData : option SessionData;
  consentRequested : bool;
  lastConsentRequest : Z;
  userChoice : option UserChoice;
  extensionSettings : option Settings;
  isProcessing : bool;
  notificationContainer : bool;
  storage : gmap string Stored;
  trace : list Event;
  draws : nat
}.

Record Env := mkEnv {
  now : Z;
  href : string;                           (* window.location.href *)
  consentUrl : string;                     (* chrome.runtime.getURL('consent.html') *)
  sendRejects : nat -> option string;      (* [Some msg]: sendMessage rejects *)
  storageRejects : nat -> option string
}.

Abbreviation Handler := (M Env World).

Definition set_session (detected : bool) (d : option SessionData) (w : World) : World :=
  mkWorld detected d (consentRequested w) (lastConsentRequest w) (userChoice w)
          (extensionSettings w) (isProcessing w) (notificationContainer w)
          (storage w) (trace w) (draws w).
Definition set_consentRequested (v : bool) (w : World) : World :=
  mkWorld (sessionDetected w) (sessionData w) v (lastConsentRequest w) (userChoice w)
          (extensionSettings w) (isProcessing w) (notificationContainer w)
          (storage w) (trace w) (draws w).
Definition set_lastConsentRequest (v : Z) (w : World) : World :=
  mkWorld (sessionDetected w) (sessionData w) (consentRequested w) v (userChoice w)
          (extensionSettings w) (isProcessing w) (notificationContainer w)
          (storage w) (trace w) (draws w).
Definition set_userChoice (v : option UserChoice) (w : World) : World :=
  mkWorld (sessionDetected w) (sessionData w) (consentRequested w) (lastConsentRequest w) v
          (extensionSettings w) (isProcessing w) (notificationContainer w)
          (storage w) (trace w) (draws w).
Definition set_isProcessing (v : bool) (w : World) : World :=
  mkWorld (sessionDetected w) (sessionData w) (consentRequested w) (lastConsentRequest w)
          (userChoice w) (extensionSettings w) v (notificationContainer w)
          (storage w) (trace w) (draws w).
Definition set_notificationContainer (v : bool) (w : World) : World :=
  mkWorld (sessionDetected w) (sessionData w) (consentRequested w) (lastConsentRequest w)
          (userChoice w) (extensionSettings w) (isProcessing w) v
          (storage w) (trace w) (draws w).
Definition set_storage (v : gmap string Stored) (w : World) : World :=
  mkWorld (sessionDetected w) (sessionData w) (consentRequested w) (lastConsentRequest w)
          (userChoice w) (extensionSettings w) (isProcessing w) (notificationContainer w)
          v (trace w) (draws w).
Definition emit (ev : Event) (w : World) : World :=
  mkWorld (sessionDetected w) (sessionData w) (consentRequested w) (lastConsentRequest w)
          (userChoice w) (extensionSettings w) (isProcessing w) (notificationContainer w)
          (storage w) (ev :: trace w) (draws w).
Definition tick (w : World) : World :=
  mkWorld (sessionDetected w) (sessionData w) (consentRequested w) (lastConsentRequest w)
          (userChoice w) (extensionSettings w) (isProcessing w) (notificationContainer w)
          (storage w) (trace w) (S (draws w)).

(** ** Host calls *)

(** [await chrome.runtime.sendMessage(m)]. *)
Definition sendMessage (m : Outgoing) : Handler unit :=
  fun e w =>
    let w1 := tick (emit (RuntimeSendMessage m) w) in
    match sendRejects e (draws w) with
    | Some msg => (Threw (mkError msg), w1)
    | None => (Done tt, w1)
    end.

(** [await chrome.storage.local.set(items)]. *)
Definition storageSet (items : list (string * Stored)) : Handler unit :=
  fun e w =>
    let w1 := tick (emit (StorageSet items) w) in
    match storageRejects e (draws w) with
    | Some msg => (Threw (mkError msg), w1)
    | None =>
        (Done tt,
         set_storage (putAll items (storage w1)) w1)
    end.

(** [chrome.storage.local.remove(keys)] without [await]: a rejection is not
    seen by the caller. *)
Definition storageRemoveDetached (keys : list string) : Handler unit :=
  fun e w =>
    let w1 := tick (emit (StorageRemove keys) w) in
    match storageRejects e (draws w) with
    | Some _ => (Done tt, w1)
    | None => (Done tt, set_storage (removeAll keys (storage w1)) w1)
    end.

(** ** Utility functions *)

(** [showNotification(message, type)]: the container is created on first
    use and the notification appended to it. *)
Definition showNotification (text kind : string) : Handler unit :=
  tryCatch
    (modify (set_notificationContainer true) ;;
     modify (emit (Notification text kind)))
    (fun _ => ret tt).

Definition logActivity (activity : string) (data : list (string * JsVal)) : Handler unit :=
  tryCatch (sendMessage (LogActivity activity data)) (fun _ => ret tt).

Definition reportError (errorType : string) (error : JsError) : Handler unit :=
  tryCatch (sendMessage (ReportError errorType (message error))) (fun _ => ret tt).

(** The character class of [/^[a-zA-Z0-9%]+$/]. *)
Definition isIdChar (c : ascii) : bool :=
  let n := nat_of_ascii c in
  ((97 <=? n) && (n <=? 122) || (65 <=? n) && (n <=? 90)
   || (48 <=? n) && (n <=? 57) || (n =? 37))%nat.

Definition validateSessionData (d : option SessionData) : bool :=
  match d with
  | None => false
  | Some d =>
      if negb (JS.truthyO (sessionId d)) || negb (JS.truthyO (extractedAt d)) then false
      else match sessionId d with
           | Some s =>
               if (String.length s <? SESSION_ID_MIN_LENGTH)%nat then false
               else forallb isIdChar (list_ascii_of_string s)
           | None => false
           end
  end.

Definition clearSessionData : Handler unit :=
  modify (set_session false None) ;;
  modify (set_consentRequested false) ;;
  modify (set_userChoice None) ;;
  storageRemoveDetached ["pendingSessionData"; "consentRequestTime"].

Definition handleClearSessionData : Handler unit :=
  clearSessionData ;;
  showNotification "Session data cleared" "info".

(** ** Consent flow *)

Definition shouldRequestConsent (w : World) : bool :=
  match extensionSettings w with
  | None => false
  | Some s =>
      if negb (JS.truthyO (botToken s)) || negb (JS.truthyO (chatId s)) then false
      else if bool_decide (requireConfirmation s = Some false) then false
      else if isProcessing w then false
      else if consentRequested w then false
      else true
  end.

(** [contentState.sessionData.sessionId.substring(0, 10) + '...']; a
    [TypeError] when either is [null]. *)
Definition redactedSessionId : Handler string :=
  w <- get ;;
  match sessionData w with
  | Some d =>
      match sessionId d with
      | Some s => ret (redact s)
      | None => throw "Cannot read properties of null (reading 'substring')"
      end
  | None => throw "Cannot read properties of null (reading 'sessionId')"
  end.

Definition requestUserConsent : Handler unit :=
  tryCatch
    (e <- ask ;;
     modify (set_consentRequested true) ;;
     modify (set_lastConsentRequest (now e)) ;;
     showNotification "Instagram session detected. Opening consent page..." "info" ;;
     w <- get ;;
     storageSet [("pendingSessionData", SvSession (sessionData w));
                 ("consentRequestTime", SvNum (now e))] ;;
     tryCatch (sendMessage (OpenConsentPage (consentUrl e) (sessionData w)))
              (fun _ => modify (emit (WindowOpen (consentUrl e)))) ;;
     sid <- redactedSessionId ;;
     logActivity "consent_requested"
       [("sessionId", JStr sid); ("url", JStr (href e)); ("timestamp", JNum (now e))])
    (fun error =>
       reportError "consent_request_error" error ;;
       modify (set_consentRequested false)).

Definition processAutomaticConsent : Handler unit :=
  tryFinally
    (tryCatch
       (e <- ask ;;
        modify (set_isProcessing true) ;;
        showNotification "Processing with previous consent..." "info" ;;
        w <- get ;;
        sendMessage (ProcessSessionData (sessionData w) "automatic") ;;
        sid <- redactedSessionId ;;
        logActivity "automatic_processing"
          [("sessionId", JStr sid); ("url", JStr (href e)); ("timestamp", JNum (now e))])
       (fun error => reportError "automatic_consent_error" error))
    (modify (set_isProcessing false)).

(** The remembered choice, when [userChoice && userChoice.timestamp]. *)
Definition rememberedAt (w : World) : option (UserChoice * Z) :=
  match userChoice w with
  | Some choice =>
      match timestamp choice with
      | Some t => if t =? 0 then None else Some (choice, t)
      | None => None
      end
  | None => None
  end.

Definition evaluateConsentRequest : Handler unit :=
  tryCatch
    (w <- get ;;
     if negb (shouldRequestConsent w) then ret tt
     else
       e <- ask ;;
       let timeSinceLastRequest := now e - lastConsentRequest w in
       if timeSinceLastRequest <? CONSENT_COOLDOWN_DURATION then ret tt
       else
         match rememberedAt w with
         | Some (choice, t) =>
             let choiceAge := now e - t in
             if choiceAge <? SESSION_REMEMBER_DURATION then
               if String.eqb (consent choice) "granted" then processAutomaticConsent
               else ret tt
             else requestUserConsent
         | None => requestUserConsent
         end)
    (fun error => reportError "consent_evaluation_error" error).

(** The result carried by a ['consentProcessed'] message. *)
Inductive Processed :=
| ProcessedOk
| ProcessedFail (error : string).

Definition handleConsentProcessed (data : Processed) : Handler unit :=
  match data with
  | ProcessedOk =>
      e <- ask ;;
      modify (fun w => set_userChoice
                (Some (mkChoice "granted" (Some (now e))
                                (match sessionData w with
                                 | Some d => sessionId d
                                 | None => None
                                 end))) w) ;;
      showNotification "Session data sent successfully!" "success" ;;
      w <- get ;;
      when (match extensionSettings w with
            | Some s => autoClearData s
            | None => false
            end) clearSessionData
  | ProcessedFail error => showNotification ("Error: " +:+ error) "error"
  end ;;
  modify (set_isProcessing false) ;;
  modify (set_consentRequested false).

(** [handleStorageChange] for a change of the [userConsent] record. *)
Definition handleUserConsentChange (newValue : option UserChoice) : Handler unit :=
  match newValue with
  | Some choice => modify (set_userChoice (Some choice))
  | None => ret tt
  end.

(** ** Observations on a run *)

(** [contentState] and [uiElements]: the state of the Detector proper,
    apart from the store it shares and the effects it has issued. *)
Definition detectorState (w : World) :=
  (sessionDetected w, sessionData w, consentRequested w, lastConsentRequest w,
   userChoice w, extensionSettings w, isProcessing w, notificationContainer w).



(** ** Further observations on a run *)

(** The delivery requests sent to the Coordinator, newest first. *)
Definition deliveries (t : list Event) : list (option SessionData * string) :=
  omap (fun ev => match ev with
                  | RuntimeSendMessage (ProcessSessionData d c) => Some (d, c)
                  | _ => None
                  end) t.

(** The requests to open the consent page sent to the Coordinator, and the
    windows opened directly, newest first. *)
Definition pageRequests (t : list Event) : list (string * option SessionData) :=
  omap (fun ev => match ev with
                  | RuntimeSendMessage (OpenConsentPage target d) => Some (target, d)
                  | _ => None
                  end) t.

Definition windowOpens (t : list Event) : list string :=
  omap (fun ev => match ev with WindowOpen target => Some target | _ => None end) t.

(** The notifications shown, newest first. *)
Definition notifications (t : list Event) : list (string * string) :=
  omap (fun ev => match ev with Notification text kind => Some (text, kind) | _ => None end) t.

(** Whether the artifact held carries a session id, which the redacted
    log entries need. *)
Definition hasSessionId (w : World) : bool :=
  match sessionData w with
  | Some d => match sessionId d with Some _ => true | None => false end
  | None => false
  end.

End Detector.


(* ===================================================================== *)
(** * The Consent Surface: consent page                                   *)
(* ===================================================================== *)

Module ConsentSurface.

(** The fall-back template of the page's [formatTelegramMessage], as the
    script spells it. *)
Definition DEFAULT_TEMPLATE : string :=
"üîê Instagram Session Data Detected

üì± **Account Information:**
‚Ä¢ Session ID: {sessionId}
‚Ä¢ User ID: {userId}
‚Ä¢ Username: {username}

‚è∞ **Timestamp:** {timestamp}
üåê **URL:** {url}

‚úÖ Data extracted with user consent via Instagram Auto Session Manager".

(** What the two regular expressions capture in one [<script>] element. *)
Record ScriptMatches := mkScript {
  userIdMatch : option string;             (* group 1 of the viewerId pattern *)
  usernameMatch : option string            (* group 1 of the username pattern *)
}.

(** The document at the time of an extraction. *)
Record Page := mkPage {
  cookie : string;                         (* document.cookie *)
  sharedViewerId : option string;          (* window._sharedData.config.viewerId *)
  scripts : list ScriptMatches;            (* document.querySelectorAll('script') *)
  pathMatch : option string;               (* group 1 of the pathname pattern *)
  ogTitle : option (option string);        (* the og:title element; group 1 on its content *)
  href : string                            (* window.location.href *)
}.

Record TelegramSettings := mkTelegram {
  botToken : option string;
  chatId : option string;
  messageTemplate : option string
}.

Record Settings := mkSettings {
  telegramSettings : TelegramSettings;
  autoClearData : bool;                    (* privacySettings.autoClearData *)
  logActivities : bool                     (* privacySettings.logActivities *)
}.

Inductive Step := Initial | Configured | Processing | Completed | Failed.

Inductive Event :=
| Fetch (target chat_id text : string)     (* POST to the sink *)
| RuntimeSendMessage (action : string)     (* 'logUserActivity' entries *)
| StorageRemove (keys : list string)
| StatusIndicator (step : Step)            (* updateUIState *)
| LoadingOverlay (text : option string)    (* shown with a text, or hidden *)
| SuccessOverlay (text : string)
| ErrorOverlay (text : string).

(** [appState], the effects issued so far, newest first, and the number of
    draws made from the environment. *)
Record World := mkWorld {
  sessionData : option SessionData;        (* the preview *)
  extensionSettings : option Settings;
  isProcessing : bool;
  rememberChoice : bool;
  currentStep : Step;
  trace : list Event;
  draws : nat
}.

Record Env := mkEnv {
  now : Z;
  toISOString : Z -> string;
  toLocaleString : option string -> string;
  page : Page;
  sink : string -> string -> string -> FetchOutcome;
  sendRejects : nat -> option string;
  storageRejects : nat -> option string
}.

Abbreviation Handler := (M Env World).

Definition set_sessionData (v : option SessionData) (w : World) : World :=
  mkWorld v (extensionSettings w) (isProcessing w) (rememberChoice w) (currentStep w)
          (trace w) (draws w).
Definition set_isProcessing (v : bool) (w : World) : World :=
  mkWorld (sessionData w) (extensionSettings w) v (rememberChoice w) (currentStep w)
          (trace w) (draws w).
Definition set_currentStep (v : Step) (w : World) : World :=
  mkWorld (sessionData w) (extensionSettings w) (isProcessing w) (rememberChoice w) v
          (trace w) (draws w).
Definition emit (ev : Event) (w : World) : World :=
  mkWorld (sessionData w) (extensionSettings w) (isProcessing w) (rememberChoice w)
          (currentStep w) (ev :: trace w) (draws w).
Definition tick (w : World) : World :=
  mkWorld (sessionData w) (extensionSettings w) (isProcessing w) (rememberChoice w)
          (currentStep w) (trace w) (S (draws w)).

(** ** Extraction *)

(** [const [name, value] = cookie.trim().split('=')]. *)
Definition nameValue (entry : string) : string * option string :=
  match JS.split "=" (JS.trim entry) with
  | name :: value :: _ => (name, Some value)
  | [name] => (name, None)
  | [] => (EmptyString, None)
  end.

(** The loop over [document.cookie.split(';')]: the value of the first
    cookie named [sessionid], and [break]. *)
Fixpoint findSessionCookie (cookies : list string) : option string :=
  match cookies with
  | [] => None
  | entry :: rest =>
      let (name, value) := nameValue entry in
      if String.eqb name "sessionid" then value else findSessionCookie rest
  end.

(** The loop over the script elements: each field is taken from a match
    only while it is still unset. *)
Fixpoint scanScripts (l : list ScriptMatches) (uid uname : option string)
  : option string * option string :=
  match l with
  | [] => (uid, uname)
  | s :: rest =>
      let uid' := match userIdMatch s with
                  | Some m => if negb (JS.truthyO uid) then Some m else uid
                  | None => uid
                  end in
      let uname' := match usernameMatch s with
                    | Some m => if negb (JS.truthyO uname) then Some m else uname
                    | None => uname
                    end in
      scanScripts rest uid' uname'
  end.

(** The profile-path and [og:title] heuristics, tried when no script gave
    a username. *)
Definition usernameFromPage (p : Page) (uname : option string) : option string :=
  if JS.truthyO uname then uname
  else
    let fromPath :=
      match pathMatch p with
      | Some seg =>
          if negb (String.eqb seg "explore") && negb (String.eqb seg "reels")
          then Some seg else uname
      | None => uname
      end in
    match ogTitle p with
    | Some (Some m) => Some (JS.trim m)
    | _ => fromPath
    end.

Definition extractInstagramSessionData : Handler (option SessionData) :=
  tryCatch
    (e <- ask ;;
     let p := page e in
     let sid := findSessionCookie (JS.split ";" (cookie p)) in
     let uid0 := if JS.truthyO (sharedViewerId p) then sharedViewerId p else None in
     let (uid, uname0) := scanScripts (scripts p) uid0 None in
     let uname := usernameFromPage p uname0 in
     if negb (JS.truthyO sid) then throw "Could not find Instagram session ID"
     else ret (Some (mkSessionData sid uid uname (Some (toISOString e (now e)))
                                   (Some (href p)))))
    (fun _ => ret None).

(** [extractSessionDataForPreview], run once when the page has loaded. *)
Definition extractSessionDataForPreview : Handler unit :=
  tryCatch
    (d <- extractInstagramSessionData ;;
     match d with
     | Some d => modify (set_sessionData (Some d))
     | None => throw "No session data found"
     end)
    (fun _ => ret tt).

(** ** Delivery *)

Definition formatTelegramMessage (locale : option string -> string) (here : string)
    (d : SessionData) (template : option string) : string :=
  let template := if JS.truthyO template then default EmptyString template
                  else DEFAULT_TEMPLATE in
  Background.substitute (JS.orElse (sessionId d) "Not found")
                        (JS.orElse (userId d) "Not found")
                        (JS.orElse (username d) "Not found")
                        (locale (extractedAt d))
                        (JS.orElse (url d) here)
                        template.

Definition settingsOrThrow (field : string) : Handler Settings :=
  w <- get ;;
  match extensionSettings w with
  | Some s => ret s
  | None => throw ("Cannot read properties of null (reading '" +:+ field +:+ "')")
  end.

(** [const { field } = appState.extensionSettings] throws another
    [TypeError] while the settings are [null]. *)
Definition destructureSettings (field : string) : Handler Settings :=
  w <- get ;;
  match extensionSettings w with
  | Some s => ret s
  | None =>
      throw ("Cannot destructure property '" +:+ field
             +:+ "' of 'appState.extensionSettings' as it is null.")
  end.

Definition sendDataToTelegram (d : SessionData) : Handler unit :=
  s <- destructureSettings "telegramSettings" ;;
  let t := telegramSettings s in
  if negb (JS.truthyO (botToken t)) || negb (JS.truthyO (chatId t))
  then throw "Telegram bot not configured"
  else
    e <- ask ;;
    let text := formatTelegramMessage (toLocaleString e) (href (page e)) d
                                      (messageTemplate t) in
    let target := "https://api.telegram.org/bot" +:+ default EmptyString (botToken t)
                  +:+ "/sendMessage" in
    let chat := default EmptyString (chatId t) in
    modify (emit (Fetch target chat text)) ;;
    match sink e target chat text with
    | NetFail msg => throw msg
    | ApiOk _ => ret tt
    | ApiErr description =>
        throw (JS.orElse description "Failed to send message to Telegram")
    end.

(** [logUserAction]: the entry is sent to the Coordinator only when
    activity logging is on; nothing it does can throw. *)
Definition logUserAction (action : string) : Handler unit :=
  fun e w =>
    match extensionSettings w with
    | Some s =>
        if logActivities s
        then (Done tt, tick (emit (RuntimeSendMessage "logUserActivity") w))
        else (Done tt, w)
    | None => (Done tt, w)
    end.

Definition clearLocalData : Handler unit :=
  fun e w =>
    let w1 := tick (emit (StorageRemove ["tempSessionData"; "tempConsentData"])
                         (set_sessionData None w)) in
    (Done tt, w1).

Definition updateUIState : Handler unit :=
  modify (fun w => emit (StatusIndicator (currentStep w)) w).

Definition showLoadingOverlay (text : string) : Handler unit :=
  modify (emit (LoadingOverlay (Some text))).

Definition handleConsentAction : Handler unit :=
  w <- get ;;
  if isProcessing w then ret tt
  else
    tryFinally
      (tryCatch
         (modify (set_isProcessing true) ;;
          modify (set_currentStep Processing) ;;
          updateUIState ;;
          showLoadingOverlay "Processing your consent..." ;;
          logUserAction "consent_given" ;;
          showLoadingOverlay "Extracting session data..." ;;
          fresh <- extractInstagramSessionData ;;
          match fresh with
          | None => throw "Failed to extract session data"
          | Some d =>
              showLoadingOverlay "Sending data to Telegram..." ;;
              sendDataToTelegram d ;;
              s <- settingsOrThrow "privacySettings" ;;
              when (autoClearData s) clearLocalData ;;
              logUserAction "data_sent_successfully" ;;
              modify (set_currentStep Completed) ;;
              updateUIState ;;
              modify (emit (SuccessOverlay
                "Your Instagram session data has been successfully sent to your Telegram bot!"))
          end)
         (fun error =>
            modify (set_currentStep Failed) ;;
            updateUIState ;;
            modify (emit (ErrorOverlay ("Error processing your request: " +:+ message error))) ;;
            logUserAction "processing_error"))
      (modify (set_isProcessing false) ;;
       modify (emit (LoadingOverlay None))).

(** [handleErrorRetry], the retry button of the error screen. *)
Definition handleErrorRetry : Handler unit :=
  modify (set_isProcessing false) ;;
  modify (set_currentStep Configured) ;;
  updateUIState ;;
  handleConsentAction.

(** ** Observations on a run *)

(** The requests made to the sink, newest first. *)
Definition fetches (t : list Event) : list (string * string * string) :=
  omap (fun ev => match ev with
                  | Fetch target chat text => Some (target, chat, text)
                  | _ => None
                  end) t.

(** The texts of the error screens shown, newest first. *)
Definition errorScreens (t : list Event) : list string :=
  omap (fun ev => match ev with ErrorOverlay text => Some text | _ => None end) t.

Definition blank : World := mkWorld None None false false Initial [] 0.

(** What [extractInstagramSessionData] returns on the page as it is now. *)
Definition freshArtifact (e : Env) : option SessionData :=
  match fst (extractInstagramSessionData e blank) with
  | Done d => d
  | Threw _ => None
  end.

(** The request [sendDataToTelegram] makes for an artifact, if the sink is
    configured. *)
Definition requestFor (e : Env) (w : World) (d : SessionData)
  : option (string * string * string) :=
  match extensionSettings w with
  | Some s =>
      let t := telegramSettings s in
      if negb (JS.truthyO (botToken t)) || negb (JS.truthyO (chatId t)) then None
      else Some ("https://api.telegram.org/bot" +:+ default EmptyString (botToken t)
                   +:+ "/sendMessage",
                 default EmptyString (chatId t),
                 formatTelegramMessage (toLocaleString e) (href (page e)) d
                                       (messageTemplate t))
  | None => None
  end.

(** ** Utility functions of the page *)

(** [validateSessionData(sessionData)] of the consent page. *)
Definition validateSessionData (d : option SessionData) : bool :=
  match d with
  | None => false
  | Some d =>
      if negb (JS.truthyO (sessionId d)) || negb (JS.truthyO (extractedAt d)) then false
      else match sessionId d with
           | Some s => negb (String.length s <? 10)%nat
           | None => false
           end
  end.

(** [truncateText(text, maxLength)] for a string [text], held as its
    UTF-16 code units: these are what [text.length] counts and
    [text.substring] cuts.  46 is the code unit of the full stop. *)
Definition truncateText (text : list N) (maxLength : nat) : list N :=
  if match text with [] => true | _ => false end || (length text <=? maxLength)%nat
  then text
  else take maxLength text ++ [46; 46; 46]%N.

(** ** Further observations on a run *)

(** The success screens shown, newest first. *)
Definition successScreens (t : list Event) : list string :=
  omap (fun ev => match ev with SuccessOverlay text => Some text | _ => None end) t.

(** The message of the error that ends an approval, if one does: the
    extraction finds no credential, the settings are missing, the sink is
    not configured, or the sink fails the request. *)
Definition approvalFailure (e : Env) (w : World) : option string :=
  match freshArtifact e with
  | None => Some "Failed to extract session data"
  | Some d =>
      match extensionSettings w with
      | None =>
          Some "Cannot destructure property 'telegramSettings' of 'appState.extensionSettings' as it is null."
      | Some _ =>
          match requestFor e w d with
          | None => Some "Telegram bot not configured"
          | Some (target, chat, text) =>
              match sink e target chat text with
              | NetFail msg => Some msg
              | ApiOk _ => None
              | ApiErr description =>
                  Some (JS.orElse description "Failed to send message to Telegram")
              end
          end
      end
  end.

End ConsentSurface.


(* ===================================================================== *)
(** * Message templates                                                   *)
(* ===================================================================== *)

Module Template.

(** The five placeholders, in the order in which [formatTelegramMessage]
    replaces them. *)
Definition placeholders : list string :=
  ["{sessionId}"; "{userId}"; "{username}"; "{timestamp}"; "{url}"].

(** A message in which no placeholder is left. *)
Definition resolved (text : string) : bool :=
  forallb (fun p => negb (JS.includes p text)) placeholders.

Definition noBrace (s : string) : bool :=
  forallb (fun c => negb (Ascii.eqb c "{")) (list_ascii_of_string s).

Definition noDollar (s : string) : bool :=
  forallb (fun c => negb (Ascii.eqb c "$")) (list_ascii_of_string s).

(** A value that neither opens a placeholder nor uses a replacement
    pattern. *)
Definition plain (s : string) : bool := noBrace s && noDollar s.

Definition plainO (o : option string) : bool :=
  match o with Some s => plain s | None => true end.

(** A text in which every opening brace opens one of the given tokens. *)
Fixpoint wellBraced (tokens : list string) (s : string) : bool :=
  match s with
  | EmptyString => true
  | String c tl =>
      (if Ascii.eqb c "{" then existsb (fun p => String.prefix p s) tokens else true)
      && wellBraced tokens tl
  end.

(** A token is an opening brace followed by a text without one. *)
Definition isToken (p : string) : bool :=
  match p with
  | String c body => Ascii.eqb c "{" && noBrace body
  | EmptyString => false
  end.

(** The scan of [s.replace(/pat/g, rep)] when [rep] is taken literally. *)
Fixpoint replaceLit (pat rep : string) (skip : nat) (s : string) : string :=
  match s with
  | EmptyString => EmptyString
  | String c tl =>
      match skip with
      | S k => replaceLit pat rep k tl
      | O =>
          if String.prefix pat s
          then rep +:+ replaceLit pat rep (String.length pat - 1) tl
          else String c (replaceLit pat rep O tl)
      end
  end.

(** The artifact with every missing or empty field spelled out the way
    [formatTelegramMessage] renders it; [link] stands for a missing [url]. *)
Definition filled (link : string) (d : SessionData) : SessionData :=
  mkSessionData (Some (JS.orElse (sessionId d) "Not found"))
                (Some (JS.orElse (userId d) "Not found"))
                (Some (JS.orElse (username d) "Not found"))
                (extractedAt d)
                (Some (JS.orElse (url d) link)).

(** ** What a template stands for *)

(** The fields of an artifact a template can name. *)
Inductive Field := FSessionId | FUserId | FUsername | FTimestamp | FUrl.

Definition fields : list Field := [FSessionId; FUserId; FUsername; FTimestamp; FUrl].

Definition fieldName (f : Field) : string :=
  match f with
  | FSessionId => "sessionId"
  | FUserId => "userId"
  | FUsername => "username"
  | FTimestamp => "timestamp"
  | FUrl => "url"
  end.

(** The placeholder of a field: its name between braces. *)
Definition token (f : Field) : string := String "{" (fieldName f +:+ "}").

Definition Field_eqb (f g : Field) : bool :=
  match f, g with
  | FSessionId, FSessionId | FUserId, FUserId | FUsername, FUsername
  | FTimestamp, FTimestamp | FUrl, FUrl => true
  | _, _ => false
  end.

(** A template read from left to right: the placeholders, and the
    characters between them. *)
Inductive Segment :=
| Text (c : ascii)
| Hole (f : Field).

(** The placeholder a text starts with, if any. *)
Definition holeAt (s : string) : option Field :=
  List.find (fun f => String.prefix (token f) s) fields.

(** [skip] counts the characters of the current placeholder still to be
    passed over. *)
Fixpoint segments (skip : nat) (s : string) : list Segment :=
  match s with
  | EmptyString => []
  | String c tl =>
      match skip with
      | S k => segments k tl
      | O =>
          match holeAt s with
          | Some f => Hole f :: segments (String.length (token f) - 1) tl
          | None => Text c :: segments 0 tl
          end
      end
  end.

(** The text of a list of segments: a character stands for itself, and a
    hole for the value given for its field, or for its own placeholder
    where none is given. *)
Fixpoint render (value : Field -> option string) (segs : list Segment) : string :=
  match segs with
  | [] => EmptyString
  | Text c :: rest => String c (render value rest)
  | Hole f :: rest => default (token f) (value f) +:+ render value rest
  end.

(** What stands for each field of an artifact in a message: the field
    itself, [Not found] for a missing or empty session id, user id or
    username, the local rendering of the extraction time, and [link] for a
    missing or empty address. *)
Definition fieldText (locale : option string -> string) (link : string)
    (d : SessionData) (f : Field) : string :=
  match f with
  | FSessionId => JS.orElse (sessionId d) "Not found"
  | FUserId => JS.orElse (userId d) "Not found"
  | FUsername => JS.orElse (username d) "Not found"
  | FTimestamp => locale (extractedAt d)
  | FUrl => JS.orElse (url d) link
  end.

(** The message a template stands for: every placeholder replaced, in one
    pass, by the text of its field. *)
Definition message (locale : option string -> string) (link : string)
    (d : SessionData) (template : string) : string :=
  render (fun f => Some (fieldText locale link d f)) (segments 0 template).

End Template.


(* ===================================================================== *)
(** * Concrete runs                                                       *)
(* ===================================================================== *)

Module Examples.

Definition artifact : SessionData :=
  mkSessionData (Some "abc123def456ghi789jkl012mno") (Some "4242") (Some "alice")
                (Some "2025-01-01T10:00:00.000Z")
                (Some "https://www.instagram.com/alice/").

(** A credential string shorter than the 20 characters validation asks for. *)
Definition shortArtifact : SessionData :=
  mkSessionData (Some "tooshort") None None (Some "2025-01-01T10:00:00.000Z") None.

Definition privacyDefault : Background.Privacy :=
  Background.mkPrivacy true false true true true false.

Definition settingsOn : Background.ExtensionSettings :=
  Background.mkSettings (Background.mkTelegram "123456:TOKEN" "987654" "") privacyDefault.

Definition settingsOff : Background.ExtensionSettings :=
  Background.mkSettings (Background.mkTelegram "" "" "") privacyDefault.

Definition coordinator (s : Background.ExtensionSettings) : Background.World :=
  Background.mkWorld (Some s) ∅ [] [] [] 0 ∅ [] 0.

Definition clock : Z := 1735725600000.

Definition localTime (stamp : option string) : string :=
  match stamp with
  | Some _ => "1/1/2025, 10:00:00 AM"
  | None => "Invalid Date"
  end.

Definition hostUp : Background.Env :=
  Background.mkEnv clock (fun _ => "k3x9") (fun _ => None)
                   (fun _ _ _ => ApiOk 77) localTime.

Definition hostSinkDown : Background.Env :=
  Background.mkEnv clock (fun _ => "k3x9") (fun _ => None)
                   (fun _ _ _ => NetFail "Failed to fetch") localTime.

(** An activity logged twenty-five hours ago, alone in the log. *)
Definition staleEntry : Background.ActivityLogEntry :=
  Background.mkActivity (Background.mkId (clock - 90000000) "k3x9") (clock - 90000000)
                        "session_detected" [].

Definition coordinatorWithStaleLog : Background.World :=
  Background.set_activityLogs [staleEntry] (coordinator settingsOn).

Definition request (d : SessionData) : Background.ProcessMessage :=
  Background.mkProcess (Some d) (Some "automatic").

Definition fromTab : Background.Sender := Background.mkSender (Some 5).

(** An artifact for which the page gave no identity and no address. *)
Definition bareArtifact : SessionData :=
  mkSessionData (Some "abc123def456ghi789jkl012mno") None None
                (Some "2025-01-01T10:00:00.000Z") None.

(** An artifact taken on a page whose address carries a brace pair in its
    query, and one whose username is a replacement pattern. *)
Definition artifactWithBracedUrl : SessionData :=
  mkSessionData (Some "abc123def456ghi789jkl012mno") (Some "4242") (Some "alice")
                (Some "2025-01-01T10:00:00.000Z")
                (Some "https://www.instagram.com/?next={userId}").

Definition artifactWithDollarName : SessionData :=
  mkSessionData (Some "abc123def456ghi789jkl012mno") (Some "4242") (Some "$&")
                (Some "2025-01-01T10:00:00.000Z")
                (Some "https://www.instagram.com/").

(** A second credential, as after a new login under another account. *)
Definition otherArtifact : SessionData :=
  mkSessionData (Some "zzz999yyy888xxx777www666vvv") (Some "7001") (Some "bob")
                (Some "2025-01-01T10:00:00.000Z")
                (Some "https://www.instagram.com/bob/").

Definition detectorSettings : Detector.Settings :=
  Detector.mkSettings (Some "123456:TOKEN") (Some "987654") (Some true) false.

(** A grant given half an hour ago for the first credential. *)
Definition grantForFirst : Detector.UserChoice :=
  Detector.mkChoice "granted" (Some (clock - 1800000)) (sessionId artifact).

(** The Detector on a page where the second credential has just been
    detected, the last prompt being half an hour old. *)
Definition detectorAfterRelogin : Detector.World :=
  Detector.mkWorld true (Some otherArtifact) false (clock - 1800000)
                   (Some grantForFirst) (Some detectorSettings) false false ∅ [] 0.

Definition detectorHost : Detector.Env :=
  Detector.mkEnv clock "https://www.instagram.com/bob/"
                 "chrome-extension://abcdefgh/consent.html"
                 (fun _ => None) (fun _ => None).

(** The document when the consent page loads, and when the user approves
    after the credential has changed. *)
Definition pageAtLoad : ConsentSurface.Page :=
  ConsentSurface.mkPage "csrftoken=tok; sessionid=abc123def456ghi789jkl012mno; ds_user_id=4242"
                        (Some "4242") [] None None
                        "chrome-extension://abcdefgh/consent.html".

Definition pageAtApproval : ConsentSurface.Page :=
  ConsentSurface.mkPage "csrftoken=tok; sessionid=zzz999yyy888xxx777www666vvv; ds_user_id=7001"
                        (Some "7001") [] None None
                        "chrome-extension://abcdefgh/consent.html".

Definition consentHost (p : ConsentSurface.Page) : ConsentSurface.Env :=
  ConsentSurface.mkEnv clock (fun _ => "2025-01-01T10:00:00.000Z") localTime p
                       (fun _ _ _ => ApiOk 77) (fun _ => None) (fun _ => None).

Definition consentSettings : ConsentSurface.Settings :=
  ConsentSurface.mkSettings
    (ConsentSurface.mkTelegram (Some "123456:TOKEN") (Some "987654")
                               (Some "id={sessionId} user={userId}"))
    true false.

Definition consentPageOpened : ConsentSurface.World :=
  ConsentSurface.mkWorld None (Some consentSettings) false false
                         ConsentSurface.Configured [] 0.

(** The consent page once the preview has been extracted at load time. *)
Definition consentPageWithPreview : ConsentSurface.World :=
  exec ConsentSurface.extractSessionDataForPreview (consentHost pageAtLoad)
       consentPageOpened.

(** The same page one minute later. *)
Definition detectorHostLater : Detector.Env :=
  Detector.mkEnv (clock + 60000) "https://www.instagram.com/bob/"
                 "chrome-extension://abcdefgh/consent.html"
                 (fun _ => None) (fun _ => None).

(** The Detector of a user who asked for the data to be cleared after each
    delivery, while a delivery is under way. *)
Definition detectorSettingsAutoClear : Detector.Settings :=
  Detector.mkSettings (Some "123456:TOKEN") (Some "987654") (Some true) true.

Definition detectorDelivering : Detector.World :=
  Detector.mkWorld true (Some artifact) true (clock - 1800000)
                   None (Some detectorSettingsAutoClear) true false ∅ [] 0.

End Examples.


(* ===================================================================== *)
(** * Properties of the Coordinator                                       *)
(* ===================================================================== *)

Module BackgroundProofs.
Import Background.

(** Unfolding of the handler combinators. *)
Ltac unfold_monad :=
  unfold exec, result, bind, tryCatch, tryFinally, when, ret, throw, modify, get, ask in *.

#[local] Arguments Nat.ltb : simpl never.
#[local] Arguments take : simpl never.
#[local] Arguments putAll : simpl never.
#[local] Arguments removeAll : simpl never.

Ltac case_ltb :=
  match goal with
  | |- context [Nat.ltb ?a ?b] => destruct (Nat.ltb a b) eqn:Hcap
  end.

(** ** Session history *)

Lemma take_cap {A} (n : nat) (l : list A) :
  (if (n <? length l)%nat then take n l else l) = take n l.
Proof.
  destruct (Nat.ltb_spec n (length l)) as [Hlt | Hge]; [reflexivity|].
  symmetry. apply take_ge. lia.
Qed.

Lemma logError_sessionHistory e w ty err :
  sessionHistory (snd (logError ty err e w)) = sessionHistory w.
Proof.
  unfold logError, generateUniqueId, storageSet. unfold_monad. cbn.
  case_ltb; cbn; destruct (storageRejects e (S (draws w))); reflexivity.
Qed.

Lemma addToSessionHistory_history e w d tabId :
  sessionHistory (exec (addToSessionHistory d tabId) e w)
  = take MAX_SESSION_HISTORY (historyEntryOf e w d tabId :: sessionHistory w).
Proof.
  rewrite <- take_cap.
  unfold addToSessionHistory, generateUniqueId, storageSet. unfold_monad. cbn.
  case_ltb; cbn; destruct (storageRejects e (S (draws w))) eqn:Hst; cbn; try reflexivity.
  all: rewrite logError_sessionHistory; reflexivity.
Qed.

(** C6. After every call of [addToSessionHistory] the history holds at
    most 100 entries, the entry just added is at index 0, the entries that
    were there follow it in their order, and what exceeds the cap is cut
    from the end (the oldest entries). *)
Theorem addToSessionHistory_capped_newest_first e w d tabId :
  let entry := historyEntryOf e w d tabId in
  let h' := sessionHistory (exec (addToSessionHistory d tabId) e w) in
  MAX_SESSION_HISTORY = 100%nat
  /\ (length h' <= MAX_SESSION_HISTORY)%nat
  /\ h' !! 0%nat = Some entry
  /\ h' = entry :: take 99 (sessionHistory w)
  /\ exists dropped,
       entry :: sessionHistory w = h' ++ dropped
       /\ length dropped = (length (sessionHistory w) + 1 - 100)%nat.
Proof.
  cbv zeta. rewrite addToSessionHistory_history.
  split; [reflexivity|]. split; [|split; [|split]].
  - rewrite length_take. lia.
  - reflexivity.
  - reflexivity.
  - exists (drop MAX_SESSION_HISTORY (historyEntryOf e w d tabId :: sessionHistory w)).
    split.
    + symmetry. apply take_drop.
    + rewrite length_drop. unfold MAX_SESSION_HISTORY. cbn [length]. lia.
Qed.

(** ** Active sessions *)

Section DeleteWhere.
Variable doomed : ActiveSession -> bool.


Lemma fold_delete_none (l : list (string * ActiveSession)) m k :
  m !! k = None -> foldl (deleteStep doomed) m l !! k = None.
Proof.
  revert m. induction l as [|[k' s'] l IH]; intros m Hm; cbn; [exact Hm|].
  apply IH. unfold deleteStep; cbn. destruct (doomed s'); [|exact Hm].
  destruct (decide (k' = k)) as [->|Hne].
  - apply lookup_delete_eq.
  - rewrite lookup_delete_ne by exact Hne. exact Hm.
Qed.

Lemma fold_delete_doomed (l : list (string * ActiveSession)) m k s :
  (k, s) ∈ l -> doomed s = true -> foldl (deleteStep doomed) m l !! k = None.
Proof.
  revert m. induction l as [|[k' s'] l IH]; intros m Hin Hd.
  - inversion Hin.
  - cbn. apply elem_of_cons in Hin as [Heq | Hin].
    + inversion Heq; subst k' s'. apply fold_delete_none.
      unfold deleteStep; cbn. rewrite Hd. apply lookup_delete_eq.
    + eapply IH; eassumption.
Qed.

Lemma fold_delete_kept (l : list (string * ActiveSession)) m k :
  (forall s, (k, s) ∈ l -> doomed s = false) -> foldl (deleteStep doomed) m l !! k = m !! k.
Proof.
  revert m. induction l as [|[k' s'] l IH]; intros m Hall; cbn; [reflexivity|].
  rewrite IH.
  - unfold deleteStep; cbn. destruct (doomed s') eqn:Hd; [|reflexivity].
    destruct (decide (k' = k)) as [->|Hne].
    + rewrite (Hall s') in Hd; [discriminate | left].
    + apply lookup_delete_ne. exact Hne.
  - intros s Hs. apply Hall. right. exact Hs.
Qed.

Lemma deleteWhere_lookup (m : gmap string ActiveSession) k :
  deleteWhere doomed m !! k
  = match m !! k with
    | Some s => if doomed s then None else Some s
    | None => None
    end.
Proof.
  unfold deleteWhere.
  destruct (m !! k) as [s|] eqn:Hk.
  - destruct (doomed s) eqn:Hd.
    + eapply fold_delete_doomed; [|exact Hd]. apply elem_of_map_to_list. exact Hk.
    + rewrite fold_delete_kept; [exact Hk|].
      intros s0 Hs0. apply elem_of_map_to_list in Hs0. congruence.
  - apply fold_delete_none. exact Hk.
Qed.

End DeleteWhere.

(** C10. [cleanupTabSessions(tabId)] removes from the active sessions
    exactly the entries recorded for that tab; every other active session,
    the history, both logs, the settings and the store stay as they were,
    and the call returns normally. *)
Theorem cleanupTabSessions_frame e w tabId :
  let w' := exec (cleanupTabSessions tabId) e w in
  (forall key,
      activeSessions w' !! key
      = match activeSessions w !! key with
        | Some s => if Z.eqb (s_tabId s) tabId then None else Some s
        | None => None
        end)
  /\ sessionHistory w' = sessionHistory w
  /\ activityLogs w' = activityLogs w
  /\ errorLogs w' = errorLogs w
  /\ errorCount w' = errorCount w
  /\ extensionSettings w' = extensionSettings w
  /\ storage w' = storage w
  /\ trace w' = trace w
  /\ result (cleanupTabSessions tabId) e w = Done tt.
Proof.
  cbv zeta. unfold cleanupTabSessions. unfold_monad. cbn.
  split; [|repeat split].
  intros key. apply deleteWhere_lookup.
Qed.

(** ** Log sweep *)

(** C8, as the sweep behaves.  [performLogCleanup] keeps, in their order,
    exactly the activity and error entries stamped strictly later than 24
    hours before the sweep, and purges every other entry whatever its rank
    in the log; when the swept logs cannot be persisted, the failure is
    recorded as one new entry at the head of the error log. *)
Theorem performLogCleanup_filters_by_age e w :
  let w' := exec performLogCleanup e w in
  let horizon := now e - LOG_CLEANUP_INTERVAL in
  LOG_CLEANUP_INTERVAL = 86400000
  /\ activityLogs w' = filter (fun x => horizon < a_timestamp x) (activityLogs w)
  /\ (forall x, x ∈ activityLogs w' <-> x ∈ activityLogs w /\ horizon < a_timestamp x)
  /\ match storageRejects e (draws w) with
     | None => errorLogs w' = filter (fun x => horizon < e_timestamp x) (errorLogs w)
     | Some msg =>
         errorLogs w'
         = take MAX_LOG_ENTRIES
             (sweepFailureEntry e w msg
                :: filter (fun x => horizon < e_timestamp x) (errorLogs w))
     end.
Proof.
  cbv zeta. split; [reflexivity|].
  unfold performLogCleanup, storageSet. unfold_monad. cbn.
  destruct (storageRejects e (draws w)) as [msg|] eqn:Hst; cbn.
  - unfold logError, generateUniqueId, storageSet. unfold_monad. cbn.
    case_ltb; cbn; destruct (storageRejects e (S (S (draws w)))); cbn.
    all: split; [reflexivity|]; split;
      [intros x; rewrite list_elem_of_filter; tauto|].
    all: rewrite <- (take_cap MAX_LOG_ENTRIES); unfold sweepFailureEntry;
      cbn [length]; rewrite Hcap; reflexivity.
  - split; [reflexivity|]. split; [|reflexivity].
    intros x. rewrite list_elem_of_filter. tauto.
Qed.

(** ** Handlers that stay away from the sink *)

Section Preserves.
Context {X : Type} (obs : World -> X).

Lemma exec_bind_preserved {A B} (m : Handler A) (k : A -> Handler B) e w :
  (forall a, preserves obs (k a)) -> obs (exec (bind m k) e w) = obs (exec m e w).
Proof.
  intros Hk. unfold exec, bind.
  destruct (m e w) as [[a|err] w1]; cbn; [apply (Hk a e w1) | reflexivity].
Qed.

Lemma exec_tryCatch_preserved {A} (m : Handler A) (h : JsError -> Handler A) e w :
  (forall err, preserves obs (h err)) -> obs (exec (tryCatch m h) e w) = obs (exec m e w).
Proof.
  intros Hh. unfold exec, tryCatch.
  destruct (m e w) as [[a|err] w1]; cbn; [reflexivity | apply (Hh err e w1)].
Qed.

Lemma preserves_bind {A B} (m : Handler A) (k : A -> Handler B) :
  preserves obs m -> (forall a, preserves obs (k a)) -> preserves obs (bind m k).
Proof. intros Hm Hk e w. rewrite exec_bind_preserved by exact Hk. apply Hm. Qed.

Lemma preserves_tryCatch {A} (m : Handler A) (h : JsError -> Handler A) :
  preserves obs m -> (forall err, preserves obs (h err)) -> preserves obs (tryCatch m h).
Proof. intros Hm Hh e w. rewrite exec_tryCatch_preserved by exact Hh. apply Hm. Qed.

Lemma preserves_when b (m : Handler unit) : preserves obs m -> preserves obs (when b m).
Proof. intros Hm. destruct b; [exact Hm | intros e w; reflexivity]. Qed.

End Preserves.

(** Leaves of a handler: host calls and state updates. *)
Ltac preserves_leaf :=
  solve [ intros ? ?;
          unfold exec, storageSet, storageRemove, generateUniqueId, sendResponse,
                 notifyTab, settingsOrThrow, destructureSettings, bind, modify, get, ask, ret, throw;
          cbn;
          repeat match goal with
                 | |- context [match ?x with _ => _ end] => destruct x; cbn
                 end;
          reflexivity ].

Ltac preserves_tac :=
  repeat first
    [ apply preserves_bind; [|intros]
    | apply preserves_tryCatch; [|intros]
    | apply preserves_when
    | preserves_leaf ].

Lemma quiet_logActivity activity data : preserves quietView (logActivity activity data).
Proof. unfold logActivity. preserves_tac. Qed.

Lemma quiet_logError ty err : preserves quietView (logError ty err).
Proof. unfold logError. preserves_tac. Qed.

Lemma quiet_updateSessionHistory sid status :
  preserves quietView (updateSessionHistory sid status).
Proof.
  unfold updateSessionHistory. preserves_tac.
Qed.

Lemma quiet_clearSessionData sid : preserves quietView (clearSessionData sid).
Proof. unfold clearSessionData. preserves_tac. Qed.

(** None of the book-keeping handlers lets an exception escape. *)
Lemma total_tryCatch {A} (m : Handler A) (h : JsError -> Handler A) :
  (forall err, total (h err)) -> total (tryCatch m h).
Proof.
  intros Hh e w. unfold result, tryCatch.
  destruct (m e w) as [[a|err] w1]; cbn; [eauto|]. apply Hh.
Qed.

Lemma total_ret {A} (a : A) : total (@ret Env World A a).
Proof. intros e w. eexists. reflexivity. Qed.

Lemma total_logActivity activity data : total (logActivity activity data).
Proof. apply total_tryCatch. intros. apply total_ret. Qed.

Lemma total_logError ty err : total (logError ty err).
Proof. apply total_tryCatch. intros. apply total_ret. Qed.

Lemma total_updateSessionHistory sid status : total (updateSessionHistory sid status).
Proof. apply total_tryCatch. intros. apply total_logError. Qed.

Lemma total_clearSessionData sid : total (clearSessionData sid).
Proof. apply total_tryCatch. intros. apply total_logError. Qed.

(** ** Delivery *)

#[local] Arguments formatTelegramMessage : simpl never.
#[local] Arguments String.append : simpl never.

Lemma run_bind {A B} (m : Handler A) (k : A -> Handler B) e w a w1 :
  m e w = (Done a, w1) -> bind m k e w = k a e w1.
Proof. intros H. unfold bind. rewrite H. reflexivity. Qed.

Lemma run_tryCatch_threw {A} (m : Handler A) (h : JsError -> Handler A) e w err w1 :
  m e w = (Threw err, w1) -> tryCatch m h e w = h err e w1.
Proof. intros H. unfold tryCatch. rewrite H. reflexivity. Qed.

Lemma settingsOrThrow_some field e w s :
  extensionSettings w = Some s -> settingsOrThrow field e w = (Done s, w).
Proof. intros H. unfold settingsOrThrow. unfold_monad. rewrite H. reflexivity. Qed.

(** With the sink configured, [sendToTelegram] makes exactly one request
    and turns the reply into a result; it never throws. *)
Lemma sendToTelegram_configured e w s d :
  extensionSettings w = Some s -> configured (telegram s) = true ->
  sendToTelegram d e w
  = (Done (match sinkReply e s d with
           | ApiOk message_id => Success message_id
           | NetFail msg => Failure msg
           | ApiErr description => Failure (JS.orElse description "Failed to send message")
           end),
     emit (Fetch (TELEGRAM_API_BASE +:+ botToken (telegram s) +:+ "/sendMessage")
                 (chatId (telegram s))
                 (formatTelegramMessage (toLocaleString e) d (messageTemplate (telegram s))))
          w).
Proof.
  intros Hs Hc.
  unfold sendToTelegram, sendTelegramMessage, fetchJson, destructureSettings, sinkReply.
  unfold_monad. rewrite Hs. cbn. rewrite Hc. cbn.
  destruct (sink e _ _ _); reflexivity.
Qed.

(** Without a configured sink, or before the settings are loaded, it makes
    no request at all. *)
Lemma sendToTelegram_unconfigured d :
  forall e w,
    match extensionSettings w with
    | Some s => configured (telegram s) = false
    | None => True
    end ->
    exec (sendToTelegram d) e w = w.
Proof.
  intros e w H. unfold sendToTelegram, destructureSettings. unfold_monad.
  destruct (extensionSettings w) as [s|]; cbn; [rewrite H|]; reflexivity.
Qed.

(** What follows the attempt, in either branch, makes no request. *)
Lemma catch_clause_sinkView sender err :
  preserves sinkView
    (logError "session_processing_error" err ;;
     sendResponse (RespFail (message err)) ;;
     notifyTab (tab sender) (RespFail (message err))).
Proof. preserves_tac. Qed.

Lemma sinkView_of_quietView {A} (m : Handler A) :
  preserves quietView m -> preserves sinkView m.
Proof.
  intros H e w. specialize (H e w). unfold quietView, sinkView in *. congruence.
Qed.

(** The book-keeping handlers return normally, whatever they meet. *)
Lemma run_total {A} (m : Handler A) e w :
  total m -> exists a, m e w = (Done a, exec m e w).
Proof.
  intros H. destruct (H e w) as [a Ha]. exists a.
  unfold result, exec in *. destruct (m e w) as [r w1]. cbn in *. congruence.
Qed.

Lemma catch_clause_run sender err e w :
  let w' := exec (logError "session_processing_error" err ;;
                  sendResponse (RespFail (message err)) ;;
                  notifyTab (tab sender) (RespFail (message err))) e w in
  sends (trace w') = sends (trace w)
  /\ responses (trace w') = RespFail (message err) :: responses (trace w)
  /\ tabNotices (trace w')
     = match tab sender with
       | Some id => (id, RespFail (message err)) :: tabNotices (trace w)
       | None => tabNotices (trace w)
       end.
Proof.
  cbv zeta.
  destruct (run_total (logError "session_processing_error" err) e w
              (total_logError _ _)) as [[] Hrun].
  pose proof (quiet_logError "session_processing_error" err e w) as Hq.
  unfold quietView in Hq. injection Hq as Hs Hr Ht _.
  set (w1 := exec (logError "session_processing_error" err) e w) in *.
  unfold exec. rewrite (run_bind _ _ _ _ _ _ Hrun).
  unfold sendResponse, notifyTab. unfold_monad. cbn.
  destruct (tab sender); cbn; rewrite <- ?Hs, <- ?Hr, <- ?Ht; repeat split; reflexivity.
Qed.

(** What the handler does once the sink has accepted the message makes no
    further request. *)
Lemma delivered_clause_sinkView msg sender d messageId :
  preserves sinkView
    (e <- ask ;;
     let sid := default "" (sessionId d) in
     logActivity "session_processed"
       [("sessionId", JStr (redact sid));
        ("consentType", optStr (msg_consentType msg));
        ("telegramMessageId", JNum messageId);
        ("timestamp", JNum (now e))] ;;
     updateSessionHistory sid "processed" ;;
     s' <- settingsOrThrow "privacy" ;;
     when (autoClearData (privacy s')) (clearSessionData sid) ;;
     sendResponse (RespOk messageId) ;;
     notifyTab (tab sender) (RespOk messageId)).
Proof.
  apply preserves_bind; [preserves_leaf | intros e].
  apply preserves_bind; [apply sinkView_of_quietView, quiet_logActivity | intros _].
  apply preserves_bind; [apply sinkView_of_quietView, quiet_updateSessionHistory | intros _].
  apply preserves_bind; [preserves_leaf | intros s'].
  apply preserves_bind;
    [apply preserves_when, sinkView_of_quietView, quiet_clearSessionData | intros _].
  preserves_tac.
Qed.

Lemma handleProcessSessionData_sinkView e w msg sender :
  sinkView (exec (handleProcessSessionData msg sender) e w)
  = ((sends (trace w) + if reachesSink w msg then 1 else 0)%nat, extensionSettings w).
Proof.
  unfold handleProcessSessionData, reachesSink.
  rewrite exec_tryCatch_preserved by (intros err; apply catch_clause_sinkView).
  destruct (msg_sessionData msg) as [d|];
    [|unfold sinkView, exec, throw; cbn; rewrite Nat.add_0_r; reflexivity].
  destruct (validateSessionData (Some d)) eqn:Hv; cbn [negb andb];
    [|unfold sinkView, exec, throw; cbn; rewrite Nat.add_0_r; reflexivity].
  destruct (extensionSettings w) as [s|] eqn:Hs.
  - unfold exec. rewrite (run_bind _ _ _ _ _ _ (settingsOrThrow_some _ e w s Hs)).
    destruct (configured (telegram s)) eqn:Hc; cbn [negb].
    + rewrite (run_bind _ _ _ _ _ _ (sendToTelegram_configured e w s d Hs Hc)).
      destruct (sinkReply e s d) as [m|mid|dsc].
      * unfold sinkView, throw, sends; cbn. rewrite Hs. f_equal. lia.
      * pose proof (delivered_clause_sinkView msg sender d mid e
                      (emit (Fetch (TELEGRAM_API_BASE +:+ botToken (telegram s) +:+ "/sendMessage")
                                   (chatId (telegram s))
                                   (formatTelegramMessage (toLocaleString e) d
                                      (messageTemplate (telegram s)))) w)) as H.
        unfold exec in H. rewrite H. unfold sinkView, sends; cbn. rewrite Hs. f_equal. lia.
      * unfold sinkView, throw, sends; cbn. rewrite Hs. f_equal. lia.
    + unfold sinkView, throw; cbn. rewrite Hs, Nat.add_0_r. reflexivity.
  - unfold sinkView, exec, settingsOrThrow. unfold_monad. rewrite Hs. cbn.
    rewrite Hs, Nat.add_0_r. reflexivity.
Qed.

(** A request the sink fails ends in the [catch] clause, after the one
    request made. *)
Lemma handleProcessSessionData_failed e w msg sender d s reason :
  msg_sessionData msg = Some d ->
  validateSessionData (Some d) = true ->
  extensionSettings w = Some s ->
  configured (telegram s) = true ->
  deliveryFailure e s d = Some reason ->
  handleProcessSessionData msg sender e w
  = (logError "session_processing_error" (mkError reason) ;;
     sendResponse (RespFail reason) ;;
     notifyTab (tab sender) (RespFail reason))
      e
      (emit (Fetch (TELEGRAM_API_BASE +:+ botToken (telegram s) +:+ "/sendMessage")
                   (chatId (telegram s))
                   (formatTelegramMessage (toLocaleString e) d
                      (messageTemplate (telegram s)))) w).
Proof.
  intros Hd Hv Hs Hc Hf. unfold handleProcessSessionData. rewrite Hd, Hv. cbn [negb].
  unfold tryCatch at 1.
  rewrite (run_bind _ _ _ _ _ _ (settingsOrThrow_some _ e w s Hs)).
  rewrite Hc. cbn [negb].
  rewrite (run_bind _ _ _ _ _ _ (sendToTelegram_configured e w s d Hs Hc)).
  unfold deliveryFailure in Hf.
  destruct (sinkReply e s d) as [m|mid|dsc]; [| discriminate |];
    injection Hf as <-; reflexivity.
Qed.

(** A request that does not reach the sink ends in the [catch] clause at
    once. *)
Lemma handleProcessSessionData_refused e w msg sender s :
  extensionSettings w = Some s ->
  configured (telegram s) = false ->
  let reason := if validateSessionData (msg_sessionData msg)
                then "Telegram bot not configured" else "Invalid session data" in
  handleProcessSessionData msg sender e w
  = (logError "session_processing_error" (mkError reason) ;;
     sendResponse (RespFail reason) ;;
     notifyTab (tab sender) (RespFail reason)) e w.
Proof.
  intros Hs Hc. cbv zeta. unfold handleProcessSessionData.
  unfold tryCatch at 1.
  destruct (msg_sessionData msg) as [d|]; [|reflexivity].
  destruct (validateSessionData (Some d)) eqn:Hv; cbn [negb]; [|reflexivity].
  rewrite (run_bind _ _ _ _ _ _ (settingsOrThrow_some _ e w s Hs)).
  rewrite Hc. reflexivity.
Qed.

(** C1. One ['processSessionData'] request makes at most one request to
    the sink.  When the sink fails that request, the handler answers
    [{ success: false, error }], tells the tab the same, and has made
    exactly that one request. *)
Theorem handleProcessSessionData_at_most_one_send e w msg sender :
  let w' := exec (handleProcessSessionData msg sender) e w in
  (sends (trace w') <= sends (trace w) + 1)%nat
  /\ forall d s reason,
       msg_sessionData msg = Some d ->
       validateSessionData (Some d) = true ->
       extensionSettings w = Some s ->
       configured (telegram s) = true ->
       deliveryFailure e s d = Some reason ->
       sends (trace w') = (sends (trace w) + 1)%nat
       /\ responses (trace w') = RespFail reason :: responses (trace w)
       /\ tabNotices (trace w')
          = match tab sender with
            | Some id => (id, RespFail reason) :: tabNotices (trace w)
            | None => tabNotices (trace w)
            end.
Proof.
  cbv zeta. split.
  - pose proof (handleProcessSessionData_sinkView e w msg sender) as H.
    unfold sinkView in H. injection H as H _. rewrite H.
    destruct (reachesSink w msg); lia.
  - intros d s reason Hd Hv Hs Hc Hf. unfold exec.
    rewrite (handleProcessSessionData_failed e w msg sender d s reason Hd Hv Hs Hc Hf).
    match goal with
    | |- context [snd (?m e ?w1)] =>
        pose proof (catch_clause_run sender (mkError reason) e w1) as H
    end.
    cbv zeta in H. unfold exec in H. cbn [message] in H.
    destruct H as (H1 & H2 & H3). rewrite H1, H2, H3.
    unfold sends; cbn. split; [lia|]. split; [reflexivity|].
    destruct (tab sender); reflexivity.
Qed.

(** C1 at a request whose delivery meets an unreachable sink. *)
Lemma handleProcessSessionData_at_most_one_send_witness :
  let e := Examples.hostSinkDown in
  let w := Examples.coordinator Examples.settingsOn in
  let msg := Examples.request Examples.artifact in
  let w' := exec (handleProcessSessionData msg Examples.fromTab) e w in
  (msg_sessionData msg = Some Examples.artifact
   /\ validateSessionData (Some Examples.artifact) = true
   /\ extensionSettings w = Some Examples.settingsOn
   /\ configured (telegram Examples.settingsOn) = true
   /\ deliveryFailure e Examples.settingsOn Examples.artifact = Some "Failed to fetch")
  /\ (sends (trace w') <= sends (trace w) + 1)%nat
  /\ sends (trace w') = (sends (trace w) + 1)%nat
  /\ responses (trace w') = RespFail "Failed to fetch" :: responses (trace w)
  /\ tabNotices (trace w')
     = match tab Examples.fromTab with
       | Some id => (id, RespFail "Failed to fetch") :: tabNotices (trace w)
       | None => tabNotices (trace w)
       end.
Proof.
  cbv zeta.
  split; [repeat split|].
  split.
  - apply (proj1 (handleProcessSessionData_at_most_one_send
                    Examples.hostSinkDown (Examples.coordinator Examples.settingsOn)
                    (Examples.request Examples.artifact) Examples.fromTab)).
  - apply (proj2 (handleProcessSessionData_at_most_one_send
                    Examples.hostSinkDown (Examples.coordinator Examples.settingsOn)
                    (Examples.request Examples.artifact) Examples.fromTab)
                 Examples.artifact Examples.settingsOn "Failed to fetch");
      reflexivity.
Defined.

(** C4, as the handler orders its checks.  With the bot token or the chat
    destination empty, every delivery request is answered
    [{ success: false, error }] and no request is made to the sink; the
    error is the not-configured one when the artifact passes validation,
    and the validation error otherwise, since validation comes first. *)
Theorem unconfigured_sink_fails_fast e w msg sender s :
  extensionSettings w = Some s ->
  botToken (telegram s) = "" \/ chatId (telegram s) = "" ->
  let w' := exec (handleProcessSessionData msg sender) e w in
  sends (trace w') = sends (trace w)
  /\ responses (trace w')
     = RespFail (if validateSessionData (msg_sessionData msg)
                 then "Telegram bot not configured" else "Invalid session data")
         :: responses (trace w)
  /\ tabNotices (trace w')
     = match tab sender with
       | Some id =>
           (id, RespFail (if validateSessionData (msg_sessionData msg)
                          then "Telegram bot not configured" else "Invalid session data"))
             :: tabNotices (trace w)
       | None => tabNotices (trace w)
       end.
Proof.
  intros Hs Hempty. cbv zeta.
  assert (Hc : configured (telegram s) = false).
  { unfold configured. destruct Hempty as [-> | ->]; cbn; [reflexivity|].
    apply andb_false_r. }
  unfold exec. rewrite (handleProcessSessionData_refused e w msg sender s Hs Hc).
  apply (catch_clause_run sender (mkError _) e w).
Qed.

(** C4 at a valid artifact and empty sink settings. *)
Lemma unconfigured_sink_fails_fast_witness :
  let e := Examples.hostUp in
  let w := Examples.coordinator Examples.settingsOff in
  let msg := Examples.request Examples.artifact in
  let sender := Examples.fromTab in
  let w' := exec (handleProcessSessionData msg sender) e w in
  (extensionSettings w = Some Examples.settingsOff
   /\ (botToken (telegram Examples.settingsOff) = ""
       \/ chatId (telegram Examples.settingsOff) = ""))
  /\ sends (trace w') = sends (trace w)
  /\ responses (trace w')
     = RespFail (if validateSessionData (msg_sessionData msg)
                 then "Telegram bot not configured" else "Invalid session data")
         :: responses (trace w)
  /\ tabNotices (trace w')
     = match tab sender with
       | Some id =>
           (id, RespFail (if validateSessionData (msg_sessionData msg)
                          then "Telegram bot not configured" else "Invalid session data"))
             :: tabNotices (trace w)
       | None => tabNotices (trace w)
       end.
Proof.
  cbv zeta. split; [split; [reflexivity | left; reflexivity]|].
  apply (unconfigured_sink_fails_fast Examples.hostUp
           (Examples.coordinator Examples.settingsOff)
           (Examples.request Examples.artifact) Examples.fromTab Examples.settingsOff);
    [reflexivity | left; reflexivity].
Defined.

(** The same run, spelled out. *)
Example unconfigured_sink_run :
  let w' := exec (handleProcessSessionData (Examples.request Examples.artifact)
                                           Examples.fromTab)
                 Examples.hostUp (Examples.coordinator Examples.settingsOff) in
  sends (trace w') = 0%nat
  /\ responses (trace w') = [RespFail "Telegram bot not configured"]
  /\ tabNotices (trace w') = [(5, RespFail "Telegram bot not configured")].
Proof. cbv zeta. repeat split; vm_compute; reflexivity. Qed.

(** C4 as first stated fails where the artifact itself is invalid: the
    sink is unconfigured, yet the error returned is the validation error,
    not the not-configured one. *)
Lemma invalid_artifact_refused_before_configuration_check :
  let w := Examples.coordinator Examples.settingsOff in
  let w' := exec (handleProcessSessionData (Examples.request Examples.shortArtifact)
                                           Examples.fromTab) Examples.hostUp w in
  botToken (telegram Examples.settingsOff) = ""
  /\ responses (trace w') = [RespFail "Invalid session data"]
  /\ responses (trace w') <> [RespFail "Telegram bot not configured"].
Proof.
  cbv zeta. split; [reflexivity|]. split; [reflexivity|]. discriminate.
Qed.

(** ** Logs *)

(** C8 as first stated fails: an entry within the cap, here the only and
    hence the most recent one, is purged once it is older than the
    horizon. *)
Lemma log_sweep_purges_recent_entry_past_horizon :
  let w := Examples.coordinatorWithStaleLog in
  let w' := exec performLogCleanup Examples.hostUp w in
  activityLogs w = [Examples.staleEntry]
  /\ a_timestamp Examples.staleEntry = now Examples.hostUp - 25 * 3600000
  /\ Examples.staleEntry ∈ take MAX_LOG_ENTRIES (activityLogs w)
  /\ activityLogs w' = []
  /\ ~ (forall e w0 x,
          x ∈ take MAX_LOG_ENTRIES (activityLogs w0) ->
          x ∈ activityLogs (exec performLogCleanup e w0)).
Proof.
  cbv zeta.
  assert (Hin : Examples.staleEntry
                ∈ take MAX_LOG_ENTRIES (activityLogs Examples.coordinatorWithStaleLog))
    by (vm_compute; left).
  assert (Hout : activityLogs (exec performLogCleanup Examples.hostUp
                                    Examples.coordinatorWithStaleLog) = [])
    by (vm_compute; reflexivity).
  split; [reflexivity|]. split; [reflexivity|]. split; [exact Hin|]. split; [exact Hout|].
  intros H. specialize (H Examples.hostUp _ _ Hin). rewrite Hout in H. inversion H.
Qed.

(** [logError] issues a write of the error log on every call, and the
    store holds the log afterwards unless the write is rejected. *)
Lemma logError_always_persists e w ty err :
  let w' := exec (logError ty err) e w in
  writes (trace w') = [ERROR_LOGS] :: writes (trace w)
  /\ match storageRejects e (S (draws w)) with
     | None => storage w' !! ERROR_LOGS = Some (SvErrors (errorLogs w'))
     | Some _ => storage w' = storage w
     end.
Proof.
  cbv zeta. unfold logError, generateUniqueId, storageSet. unfold_monad. cbn.
  case_ltb; cbn; destruct (storageRejects e (S (draws w))); cbn;
    (split; [reflexivity|]); try reflexivity; apply lookup_insert_eq.
Qed.

(** [logActivity] issues a write of the activity log exactly when the
    [logActivities] setting is on; with the setting off it leaves the store
    alone, though the entry is still added to the log in memory. *)
Lemma logActivity_persists_iff_enabled e w activity data :
  let w' := exec (logActivity activity data) e w in
  writes (trace w')
  = (if loggingEnabled w then [[ACTIVITY_LOGS]] else []) ++ writes (trace w)
  /\ (loggingEnabled w = false -> storage w' = storage w)
  /\ activityLogs w'
     = take MAX_LOG_ENTRIES
         (mkActivity (mkId (now e) (random e (draws w))) (now e) activity data
            :: activityLogs w).
Proof.
  cbv zeta. rewrite <- (take_cap MAX_LOG_ENTRIES).
  unfold logActivity, generateUniqueId, storageSet, loggingEnabled. unfold_monad. cbn.
  cbn [length]. case_ltb; cbn;
    destruct (extensionSettings w) as [s|]; cbn;
    try destruct (logActivities (privacy s)); cbn;
    try destruct (storageRejects e (S (draws w))); cbn;
    repeat split; try reflexivity; try discriminate.
Qed.

(** C7 fails on the sweep.  With [logActivities] off, an activity is
    logged: nothing is written to the store.  The next ['logCleanup'] alarm
    then writes the whole activity log, that entry included, under the
    [activityLogs] key. *)
Theorem log_sweep_persists_activity_with_logging_off :
  let w0 := Examples.coordinator Examples.settingsOn in
  let w1 := exec (logActivity "session_detected" [("tabId", JNum 5)]) Examples.hostUp w0 in
  let w2 := exec handleLogCleanupAlarm Examples.hostUp w1 in
  let entry := mkActivity (mkId Examples.clock "k3x9") Examples.clock
                          "session_detected" [("tabId", JNum 5)] in
  loggingEnabled w0 = false
  /\ loggingEnabled w2 = false
  /\ storage w1 !! ACTIVITY_LOGS = None
  /\ activityLogs w1 = [entry]
  /\ storage w2 !! ACTIVITY_LOGS = Some (SvActivity [entry]).
Proof.
  cbv zeta. repeat split; vm_compute; reflexivity.
Qed.

End BackgroundProofs.

(* ===================================================================== *)
(** * Properties of the Detector                                          *)
(* ===================================================================== *)

Module DetectorProofs.
Import Detector.

Ltac unfold_monad :=
  unfold exec, result, bind, tryCatch, tryFinally, when, ret, throw, modify, get, ask in *.

(** Projections of a world built by the setters. *)
Ltac world_simpl :=
  cbv beta iota delta
    [detectorState tick emit set_session set_consentRequested set_lastConsentRequest
     set_userChoice set_isProcessing set_notificationContainer set_storage
     sessionDetected sessionData consentRequested lastConsentRequest userChoice
     extensionSettings isProcessing notificationContainer storage trace draws].

(** Case analysis on a scrutinee that holds no further case analysis. *)
Ltac destruct_inner :=
  match goal with
  | |- context [match ?x with _ => _ end] =>
      lazymatch x with
      | context [match _ with _ => _ end] => fail
      | _ => destruct x eqn:?
      end
  end.

#[local] Arguments putAll : simpl never.
#[local] Arguments removeAll : simpl never.

Lemma lookup_removeAll {V} (keys : list string) (m : gmap string V) k :
  removeAll keys m !! k = if decide (k ∈ keys) then None else m !! k.
Proof.
  induction keys as [|k0 keys IH].
  - unfold removeAll; cbn [foldr]. case_decide as H; [inversion H | reflexivity].
  - unfold removeAll; cbn [foldr]. fold (removeAll keys m).
    rewrite lookup_delete, IH.
    destruct (decide (k0 = k)) as [->|Hne].
    + rewrite decide_True by left. reflexivity.
    + destruct (decide (k ∈ keys)) as [Hin|Hout].
      * rewrite decide_True by (right; exact Hin). reflexivity.
      * rewrite decide_False; [reflexivity|].
        intros Hc. apply elem_of_cons in Hc as [->|Hc]; [apply Hne; reflexivity | contradiction].
Qed.

(** Removing the same keys a second time changes nothing. *)
Lemma removeAll_twice {V} (keys : list string) (m : gmap string V) :
  removeAll keys (removeAll keys m) = removeAll keys m.
Proof.
  apply map_eq. intros k. rewrite !lookup_removeAll. case_decide; reflexivity.
Qed.

(** C9. [clearSessionData], and [handleClearSessionData] which wraps it,
    return normally from every state; called a second time they leave the
    state of the Detector as the first call left it, and the store too
    once the first removal has gone through. *)
Theorem clearSessionData_idempotent e1 e2 w :
  let w1 := exec clearSessionData e1 w in
  let w2 := exec clearSessionData e2 w1 in
  let h1 := exec handleClearSessionData e1 w in
  let h2 := exec handleClearSessionData e2 h1 in
  detectorState w2 = detectorState w1
  /\ detectorState h2 = detectorState h1
  /\ result clearSessionData e1 w = Done tt
  /\ result clearSessionData e2 w1 = Done tt
  /\ result handleClearSessionData e1 w = Done tt
  /\ result handleClearSessionData e2 h1 = Done tt
  /\ match storageRejects e1 (draws w) with
     | None => storage w2 = storage w1 /\ storage h2 = storage h1
     | Some _ => storage w1 = storage w /\ storage h1 = storage w
     end.
Proof.
  cbv zeta.
  unfold handleClearSessionData, showNotification, clearSessionData, storageRemoveDetached.
  unfold_monad. cbn.
  destruct (storageRejects e1 (draws w)); cbn;
    destruct (storageRejects e2 (S (draws w))); cbn;
    world_simpl;
    do 6 (split; [reflexivity|]);
    (split; [try apply removeAll_twice | try apply removeAll_twice]); reflexivity.
Qed.

(** Neither branch of the decision lets an exception escape, and neither
    reads the remembered choice. *)
Lemma processAutomaticConsent_returns e w : fst (processAutomaticConsent e w) = Done tt.
Proof.
  unfold processAutomaticConsent, redactedSessionId, logActivity, reportError,
    showNotification, sendMessage.
  unfold_monad. cbn.
  repeat (destruct_inner; cbn); reflexivity.
Qed.

Lemma requestUserConsent_returns e w : fst (requestUserConsent e w) = Done tt.
Proof.
  unfold requestUserConsent, redactedSessionId, logActivity, reportError,
    showNotification, sendMessage, storageSet.
  unfold_monad. cbn.
  repeat (destruct_inner; cbn); reflexivity.
Qed.



(** What [processAutomaticConsent] sends: one delivery request for the
    artifact held, no request for the consent page, no window. *)
Lemma processAutomaticConsent_outbox e w :
  deliveries (trace (snd (processAutomaticConsent e w)))
  = (sessionData w, "automatic") :: deliveries (trace w)
  /\ pageRequests (trace (snd (processAutomaticConsent e w))) = pageRequests (trace w)
  /\ windowOpens (trace (snd (processAutomaticConsent e w))) = windowOpens (trace w).
Proof.
  unfold processAutomaticConsent, redactedSessionId, logActivity, reportError,
    showNotification, sendMessage.
  unfold_monad. cbn.
  repeat (destruct_inner; cbn);
    (split; [reflexivity|]; split; reflexivity).
Qed.

#[local] Arguments processAutomaticConsent : simpl never.
#[local] Arguments requestUserConsent : simpl never.

Lemma caught_returns {A} (m : Handler A) (h : JsError -> Handler A) e w a :
  fst (m e w) = Done a -> snd (tryCatch m h e w) = snd (m e w).
Proof.
  unfold tryCatch. destruct (m e w) as [[a'|err] w1]; cbn; [reflexivity | discriminate].
Qed.

(** The decision of [evaluateConsentRequest], branch by branch. *)
Lemma evaluateConsentRequest_decision e w :
  exec evaluateConsentRequest e w
  = if negb (shouldRequestConsent w) then w
    else if now e - lastConsentRequest w <? CONSENT_COOLDOWN_DURATION then w
    else match rememberedAt w with
         | Some (choice, t) =>
             if now e - t <? SESSION_REMEMBER_DURATION then
               if String.eqb (consent choice) "granted"
               then snd (processAutomaticConsent e w)
               else w
             else snd (requestUserConsent e w)
         | None => snd (requestUserConsent e w)
         end.
Proof.
  unfold exec, evaluateConsentRequest.
  destruct (negb (shouldRequestConsent w)) eqn:Hs.
  - unfold tryCatch, bind, get, ret. rewrite Hs. reflexivity.
  - destruct (now e - lastConsentRequest w <? CONSENT_COOLDOWN_DURATION) eqn:Hc.
    + unfold tryCatch, bind, get, ask, ret. rewrite Hs. cbn. rewrite Hc. reflexivity.
    + destruct (rememberedAt w) as [[choice t]|] eqn:Hr.
      * destruct (now e - t <? SESSION_REMEMBER_DURATION) eqn:Ha.
        -- destruct (String.eqb (consent choice) "granted") eqn:Hg.
           ++ rewrite <- (caught_returns _ (reportError "consent_evaluation_error") e w tt
                           (processAutomaticConsent_returns e w)).
              unfold tryCatch, bind, get, ask, ret. rewrite Hs. cbn. rewrite Hc, Hr, Ha, Hg.
              reflexivity.
           ++ unfold tryCatch, bind, get, ask, ret. rewrite Hs. cbn. rewrite Hc, Hr, Ha, Hg.
              reflexivity.
        -- rewrite <- (caught_returns _ (reportError "consent_evaluation_error") e w tt
                         (requestUserConsent_returns e w)).
           unfold tryCatch, bind, get, ask, ret. rewrite Hs. cbn. rewrite Hc, Hr, Ha.
           reflexivity.
      * rewrite <- (caught_returns _ (reportError "consent_evaluation_error") e w tt
                      (requestUserConsent_returns e w)).
        unfold tryCatch, bind, get, ask, ret. rewrite Hs. cbn. rewrite Hc, Hr.
        reflexivity.
Qed.





End DetectorProofs.

(* ===================================================================== *)
(** * Properties of the Consent Surface                                   *)
(* ===================================================================== *)

Module ConsentProofs.
Import ConsentSurface.

Ltac unfold_monad :=
  unfold exec, result, bind, tryCatch, tryFinally, when, ret, throw, modify, get, ask in *.

Ltac destruct_inner :=
  match goal with
  | |- context [match ?x with _ => _ end] =>
      lazymatch x with
      | context [match _ with _ => _ end] => fail
      | _ => destruct x eqn:?
      end
  end.

(** Reading the settings again after each step of a run. *)
Ltac settle Hs Hl := repeat progress (rewrite ?Hs, ?Hl; cbn).

(** The extraction reads the page and the clock only: it returns the same
    artifact from every state, leaves the state alone and never throws. *)
Lemma extractInstagramSessionData_run e w :
  extractInstagramSessionData e w = (Done (freshArtifact e), w).
Proof.
  unfold freshArtifact, extractInstagramSessionData. unfold_monad.
  destruct (scanScripts _ _ _) as [uid uname0].
  destruct (negb (JS.truthyO _)); reflexivity.
Qed.

#[local] Arguments extractInstagramSessionData : simpl never.
#[local] Arguments formatTelegramMessage : simpl never.
#[local] Arguments String.append : simpl never.

(** The requests an accepted approval makes. *)
Lemma handleConsentAction_fetches e w :
  isProcessing w = false ->
  fetches (trace (exec handleConsentAction e w))
  = match freshArtifact e with
    | Some d =>
        match requestFor e w d with
        | Some r => r :: fetches (trace w)
        | None => fetches (trace w)
        end
    | None => fetches (trace w)
    end.
Proof.
  intros Hp.
  unfold handleConsentAction, sendDataToTelegram, settingsOrThrow, destructureSettings,
    logUserAction,
    clearLocalData, updateUIState, showLoadingOverlay, requestFor.
  unfold_monad. rewrite Hp. cbn.
  destruct (extensionSettings w) as [s|] eqn:Hs; cbn.
  - destruct (logActivities s) eqn:Hl; cbn;
      rewrite extractInstagramSessionData_run; cbn;
      (destruct (freshArtifact e) as [d|]; cbn; rewrite ?Hs, ?Hl; cbn;
       [|reflexivity]);
      (destruct (negb (JS.truthyO (botToken (telegramSettings s)))
                 || negb (JS.truthyO (chatId (telegramSettings s)))); cbn;
       rewrite ?Hs, ?Hl; cbn; [reflexivity|]);
      (destruct (sink e _ _ _); cbn; rewrite ?Hs, ?Hl; cbn; try reflexivity);
      destruct (autoClearData s); cbn; rewrite ?Hs, ?Hl; reflexivity.
  - rewrite extractInstagramSessionData_run; cbn.
    destruct (freshArtifact e) as [d|]; cbn; settle Hs Hs; reflexivity.
Qed.

(** An approval on a page where no credential can be extracted ends on the
    error screen. *)
Lemma handleConsentAction_no_artifact e w :
  isProcessing w = false ->
  freshArtifact e = None ->
  currentStep (exec handleConsentAction e w) = Failed
  /\ errorScreens (trace (exec handleConsentAction e w))
     = "Error processing your request: Failed to extract session data"
         :: errorScreens (trace w).
Proof.
  intros Hp Hf.
  unfold handleConsentAction, logUserAction, updateUIState, showLoadingOverlay.
  unfold_monad. rewrite Hp. cbn.
  destruct (extensionSettings w) as [s|] eqn:Hs; cbn.
  - destruct (logActivities s) eqn:Hl; cbn;
      rewrite extractInstagramSessionData_run, Hf; cbn; settle Hs Hl;
      split; reflexivity.
  - rewrite extractInstagramSessionData_run, Hf; cbn; settle Hs Hs.
    split; reflexivity.
Qed.

(** An approval clicked while another is being processed does nothing. *)
Lemma handleConsentAction_busy e w :
  isProcessing w = true -> exec handleConsentAction e w = w.
Proof.
  intros Hp. unfold handleConsentAction. unfold_monad. rewrite Hp. reflexivity.
Qed.

(** C2. The only request an approval makes to the sink carries the
    message formatted from the artifact extracted during the approval
    itself; the preview held in [appState.sessionData] has no part in it,
    whatever it is.  When that extraction finds no credential nothing is
    sent and the flow ends on the error screen.  (An approval clicked
    while another is being processed is ignored.) *)
Theorem handleConsentAction_sends_fresh_extraction e w :
  let w' := exec handleConsentAction e w in
  (if isProcessing w then w' = w
   else
     match freshArtifact e with
     | Some d =>
         fetches (trace w')
         = match requestFor e w d with
           | Some r => r :: fetches (trace w)
           | None => fetches (trace w)
           end
     | None =>
         fetches (trace w') = fetches (trace w)
         /\ currentStep w' = Failed
         /\ errorScreens (trace w')
            = "Error processing your request: Failed to extract session data"
                :: errorScreens (trace w)
     end)
  /\ forall preview,
       fetches (trace (exec handleConsentAction e (set_sessionData preview w)))
       = fetches (trace w').
Proof.
  cbv zeta. destruct (isProcessing w) eqn:Hp.
  - split; [apply handleConsentAction_busy; exact Hp|].
    intros preview. rewrite !handleConsentAction_busy by exact Hp. reflexivity.
  - split.
    + pose proof (handleConsentAction_fetches e w Hp) as H.
      destruct (freshArtifact e) as [d|] eqn:Hf; [exact H|].
      split; [exact H|]. apply handleConsentAction_no_artifact; assumption.
    + intros preview.
      rewrite (handleConsentAction_fetches e w Hp).
      rewrite (handleConsentAction_fetches e (set_sessionData preview w) Hp).
      reflexivity.
Qed.

(** The same run, spelled out: the preview shows the first credential, the
    message sent carries the second. *)
Example approval_after_credential_change :
  let w := Examples.consentPageWithPreview in
  let w' := exec handleConsentAction (Examples.consentHost Examples.pageAtApproval) w in
  (sessionId <$> sessionData w) = Some (Some "abc123def456ghi789jkl012mno")
  /\ fetches (trace w')
     = [("https://api.telegram.org/bot123456:TOKEN/sendMessage", "987654",
         "id=zzz999yyy888xxx777www666vvv user=7001")].
Proof.
  cbv zeta. split; vm_compute; reflexivity.
Qed.

End ConsentProofs.

(* ===================================================================== *)
(** * Properties of message formatting                                    *)
(* ===================================================================== *)

Module TemplateProofs.
Import Template.

#[local] Arguments String.append : simpl nomatch.



(** ** Replacement texts without a dollar sign are taken literally *)

Lemma getSubstitution_literal matched before after rep :
  noDollar rep = true -> JS.getSubstitution matched before after rep = rep.
Proof.
  induction rep as [|a tl IH]; intros H; [reflexivity|].
  unfold noDollar in H. cbn in H. apply andb_prop in H as [Ha Htl].
  apply negb_true_iff in Ha.
  cbn [JS.getSubstitution]. rewrite Ha. f_equal. apply IH. exact Htl.
Qed.

Lemma replaceScan_literal pat rep :
  noDollar rep = true ->
  forall s before skip, JS.replaceScan pat rep before skip s = replaceLit pat rep skip s.
Proof.
  intros Hrep. induction s as [|c tl IH]; intros before skip; [reflexivity|].
  cbn [JS.replaceScan replaceLit]. destruct skip as [|k].
  - destruct (String.prefix pat (String c tl)).
    + rewrite getSubstitution_literal by exact Hrep. rewrite IH. reflexivity.
    + rewrite IH. reflexivity.
  - apply IH.
Qed.

(** ** The literal scan *)

Lemma replaceLit_skip pat rep s :
  forall k, replaceLit pat rep k s = replaceLit pat rep 0 (JS.drop k s).
Proof.
  induction s as [|c tl IH]; intros [|k]; try reflexivity.
  cbn [replaceLit JS.drop]. apply IH.
Qed.

Lemma prefix_split p :
  forall s, String.prefix p s = true -> s = p +:+ JS.drop (String.length p) s.
Proof.
  induction p as [|a p IH]; intros s H.
  - destruct s; reflexivity.
  - destruct s as [|b s]; cbn [String.prefix] in H; [discriminate|].
    destruct (ascii_dec a b) as [->|]; [|discriminate].
    cbn [String.length JS.drop String.append]. f_equal. apply IH. exact H.
Qed.

Lemma prefix_append p rest : String.prefix p (p +:+ rest) = true.
Proof.
  induction p as [|a p IH]; cbn [String.append String.prefix];
    [destruct rest; reflexivity|].
  destruct (ascii_dec a a); [exact IH | contradiction].
Qed.

Lemma drop_length_le k :
  forall s, (String.length (JS.drop k s) <= String.length s)%nat.
Proof.
  induction k as [|k IH]; intros [|c s]; cbn; try lia.
  specialize (IH s). lia.
Qed.

(** A run of characters without a brace is copied as it is, when the
    pattern starts with a brace. *)
Lemma replaceLit_copy pb rep body rest :
  noBrace body = true ->
  replaceLit (String "{" pb) rep 0 (body +:+ rest)
  = body +:+ replaceLit (String "{" pb) rep 0 rest.
Proof.
  induction body as [|c body IH]; intros H; [reflexivity|].
  unfold noBrace in H. cbn in H. apply andb_prop in H as [Hc Hb].
  apply negb_true_iff in Hc.
  cbn [String.append replaceLit].
  replace (String.prefix (String "{" pb) (String c (body +:+ rest))) with false.
  - f_equal. apply IH. exact Hb.
  - cbn [String.prefix]. destruct (ascii_dec "{" c) as [<-|]; [discriminate | reflexivity].
Qed.

(** ** Well-braced texts *)

Lemma wellBraced_tail tokens c tl :
  wellBraced tokens (String c tl) = true -> wellBraced tokens tl = true.
Proof. cbn [wellBraced]. intros H. apply andb_prop in H as [_ H]. exact H. Qed.

Lemma wellBraced_drop tokens k :
  forall s, wellBraced tokens s = true -> wellBraced tokens (JS.drop k s) = true.
Proof.
  induction k as [|k IH]; intros [|c s] H; cbn [JS.drop]; try exact H.
  apply IH. eapply wellBraced_tail. exact H.
Qed.

Lemma wellBraced_app_plain tokens rep x :
  noBrace rep = true -> wellBraced tokens x = true -> wellBraced tokens (rep +:+ x) = true.
Proof.
  induction rep as [|c rep IH]; intros Hr Hx; [exact Hx|].
  unfold noBrace in Hr. cbn in Hr. apply andb_prop in Hr as [Hc Hr].
  apply negb_true_iff in Hc.
  cbn [String.append wellBraced]. rewrite Hc. cbn. apply IH; assumption.
Qed.

(** Replacing one token by a text without a brace leaves a text that is
    well-braced for the remaining tokens. *)
Lemma wellBraced_replace pat tokens rep :
  isToken pat = true ->
  forallb isToken tokens = true ->
  noBrace rep = true ->
  forall n s, (String.length s <= n)%nat ->
    wellBraced (pat :: tokens) s = true ->
    wellBraced tokens (replaceLit pat rep 0 s) = true.
Proof.
  intros Hpat Htok Hrep.
  destruct pat as [|p0 pb]; [discriminate|].
  cbn in Hpat. apply andb_prop in Hpat as [Hp0 Hpb].
  apply Ascii.eqb_eq in Hp0. subst p0.
  induction n as [|n IH]; intros s Hlen Hwb.
  - destruct s; [reflexivity | cbn in Hlen; lia].
  - destruct s as [|c tl]; [reflexivity|].
    cbn [replaceLit].
    destruct (String.prefix (String "{" pb) (String c tl)) eqn:Hpre.
    + rewrite replaceLit_skip. apply wellBraced_app_plain; [exact Hrep|].
      apply IH.
      * pose proof (drop_length_le (String.length (String "{" pb) - 1) tl).
        cbn in Hlen. lia.
      * apply wellBraced_drop. eapply wellBraced_tail. exact Hwb.
    + cbn [wellBraced]. apply andb_true_intro. split.
      * destruct (Ascii.eqb c "{") eqn:Hc; [|reflexivity].
        cbn [wellBraced] in Hwb. rewrite Hc in Hwb.
        apply andb_prop in Hwb as [Hex _].
        cbn [existsb] in Hex. rewrite Hpre in Hex. cbn in Hex.
        apply existsb_exists in Hex as (q & Hq & Hqpre).
        apply existsb_exists. exists q. split; [exact Hq|].
        pose proof (proj1 (forallb_forall _ _) Htok q Hq) as Hqtok.
        destruct q as [|q0 body]; [discriminate|].
        cbn in Hqtok. apply andb_prop in Hqtok as [_ Hbody].
        cbn [String.prefix] in Hqpre.
        destruct (ascii_dec q0 c) as [->|]; [|discriminate].
        rewrite (prefix_split body tl Hqpre).
        rewrite replaceLit_copy by exact Hbody.
        cbn [String.prefix]. destruct (ascii_dec c c); [|contradiction].
        apply prefix_append.
      * apply IH; [cbn in Hlen; lia|]. eapply wellBraced_tail. exact Hwb.
Qed.

Lemma wellBraced_nil s : wellBraced [] s = true -> noBrace s = true.
Proof.
  induction s as [|c tl IH]; intros H; [reflexivity|].
  cbn [wellBraced existsb] in H. apply andb_prop in H as [Hc Htl].
  unfold noBrace. cbn. apply andb_true_intro. split.
  - destruct (Ascii.eqb c "{"); [discriminate | reflexivity].
  - apply IH. exact Htl.
Qed.

Lemma noBrace_includes p s :
  isToken p = true -> noBrace s = true -> JS.includes p s = false.
Proof.
  intros Hp. destruct p as [|p0 pb]; [discriminate|].
  cbn in Hp. apply andb_prop in Hp as [Hp0 _]. apply Ascii.eqb_eq in Hp0. subst p0.
  induction s as [|c tl IH]; intros Hs; [reflexivity|].
  unfold noBrace in Hs. cbn in Hs. apply andb_prop in Hs as [Hc Htl].
  apply negb_true_iff in Hc.
  cbn [JS.includes]. rewrite IH by exact Htl.
  cbn [String.prefix]. destruct (ascii_dec "{" c) as [<-|]; [discriminate | reflexivity].
Qed.

(** One step of the chain. *)
Lemma replaceAll_step pat tokens rep s :
  isToken pat = true ->
  forallb isToken tokens = true ->
  plain rep = true ->
  wellBraced (pat :: tokens) s = true ->
  wellBraced tokens (JS.replaceAll pat rep s) = true.
Proof.
  intros Hpat Htok Hrep Hwb.
  unfold plain in Hrep. apply andb_prop in Hrep as [Hb Hd].
  unfold JS.replaceAll. rewrite replaceScan_literal by exact Hd.
  eapply wellBraced_replace; eauto.
Qed.

(** The chain of five replacements resolves every placeholder of a
    well-braced template when the five values are plain. *)
Lemma substitute_resolved sid uid uname stamp link template :
  plain sid = true -> plain uid = true -> plain uname = true ->
  plain stamp = true -> plain link = true ->
  wellBraced placeholders template = true ->
  resolved (Background.substitute sid uid uname stamp link template) = true.
Proof.
  intros H1 H2 H3 H4 H5 Hwb. unfold Background.substitute.
  assert (Hnb : noBrace
                  (JS.replaceAll "{url}" link
                     (JS.replaceAll "{timestamp}" stamp
                        (JS.replaceAll "{username}" uname
                           (JS.replaceAll "{userId}" uid
                              (JS.replaceAll "{sessionId}" sid template))))) = true).
  { apply wellBraced_nil.
    repeat (apply replaceAll_step; [reflexivity | reflexivity | assumption |]).
    exact Hwb. }
  unfold resolved, placeholders. cbn [forallb].
  rewrite !noBrace_includes by (reflexivity || exact Hnb). reflexivity.
Qed.

(** ** The chain of replacements against the one-pass reading *)

Lemma prefix_brace_mismatch pb c tl :
  Ascii.eqb c "{" = false -> String.prefix (String "{" pb) (String c tl) = false.
Proof.
  intros Hc. cbn [String.prefix].
  destruct (ascii_dec "{" c) as [<-|_]; [discriminate | reflexivity].
Qed.


Lemma segments_skip s :
  forall k, segments k s = segments 0 (JS.drop k s).
Proof.
  induction s as [|c tl IH]; intros [|k]; try reflexivity.
  cbn [segments JS.drop]. apply IH.
Qed.

Lemma holeAt_prefix s f : holeAt s = Some f -> String.prefix (token f) s = true.
Proof. intros H. apply find_some in H as [_ H]. exact H. Qed.

Lemma holeAt_none s :
  holeAt s = None -> existsb (fun p => String.prefix p s) placeholders = false.
Proof.
  intros H. pose proof (find_none _ _ H) as Hn.
  change (existsb (fun p => String.prefix p s) placeholders)
    with (String.prefix (token FSessionId) s
          || (String.prefix (token FUserId) s
              || (String.prefix (token FUsername) s
                  || (String.prefix (token FTimestamp) s
                      || (String.prefix (token FUrl) s || false))))).
  rewrite (Hn FSessionId), (Hn FUserId), (Hn FUsername), (Hn FTimestamp), (Hn FUrl)
    by (cbn; tauto).
  reflexivity.
Qed.

Lemma token_length f : exists n, String.length (token f) = S n.
Proof. eexists. reflexivity. Qed.

Lemma drop_token f c tl :
  JS.drop (String.length (token f)) (String c tl)
  = JS.drop (String.length (token f) - 1) tl.
Proof. destruct f; reflexivity. Qed.

(** The segments of a well-braced template spell the template, and none
    of their characters is an opening brace. *)
Lemma segments_wellBraced n :
  forall s, (String.length s <= n)%nat ->
    wellBraced placeholders s = true ->
    render (fun _ => None) (segments 0 s) = s
    /\ Forall (fun seg => match seg with
                          | Text c => Ascii.eqb c "{" = false
                          | Hole _ => True
                          end) (segments 0 s).
Proof.
  induction n as [|n IH]; intros s Hlen Hwb.
  - destruct s; [split; [reflexivity | constructor] | cbn in Hlen; lia].
  - destruct s as [|c tl]; [split; [reflexivity | constructor]|].
    cbn [segments]. destruct (holeAt (String c tl)) as [f|] eqn:Hh.
    + apply holeAt_prefix in Hh.
      rewrite segments_skip.
      destruct (IH (JS.drop (String.length (token f) - 1) tl)) as [Hr Hok].
      * pose proof (drop_length_le (String.length (token f) - 1) tl).
        cbn in Hlen. lia.
      * apply wellBraced_drop. eapply wellBraced_tail. exact Hwb.
      * split; [|constructor; [exact I | exact Hok]].
        cbn [render default from_option id]. rewrite Hr, <- (drop_token f c tl).
        symmetry. apply prefix_split. exact Hh.
    + apply holeAt_none in Hh.
      cbn [wellBraced] in Hwb. apply andb_prop in Hwb as [Hc Hwb].
      rewrite Hh in Hc.
      destruct (IH tl) as [Hr Hok]; [cbn in Hlen; lia | exact Hwb |].
      split; [cbn [render]; rewrite Hr; reflexivity|].
      constructor; [|exact Hok].
      destruct (Ascii.eqb c "{"); [discriminate | reflexivity].
Qed.

Lemma drop_append s rest : JS.drop (String.length s) (s +:+ rest) = rest.
Proof. induction s as [|c s IH]; [destruct rest; reflexivity | exact IH]. Qed.

(** A match of the pattern is replaced and passed over. *)
Lemma replaceLit_hit a pb rep rest :
  replaceLit (String a pb) rep 0 (String a pb +:+ rest)
  = rep +:+ replaceLit (String a pb) rep 0 rest.
Proof.
  change (String a pb +:+ rest) with (String a (pb +:+ rest)).
  cbn [replaceLit].
  change (String a (pb +:+ rest)) with (String a pb +:+ rest).
  rewrite prefix_append, replaceLit_skip.
  change (String.length (String a pb) - 1)%nat with (String.length pb - 0)%nat.
  rewrite Nat.sub_0_r, drop_append. reflexivity.
Qed.

(** Another placeholder is copied. *)
Lemma replaceLit_miss f g rep rest :
  Field_eqb g f = false ->
  replaceLit (token f) rep 0 (token g +:+ rest)
  = token g +:+ replaceLit (token f) rep 0 rest.
Proof.
  intros Hne.
  assert (Hpre : String.prefix (token f) (token g +:+ rest) = false)
    by (destruct f, g; try discriminate; reflexivity).
  change (token g +:+ rest) with (String "{" ((fieldName g +:+ "}") +:+ rest)) in *.
  cbn [replaceLit]. rewrite Hpre.
  unfold token at 1. rewrite replaceLit_copy by (destruct g; reflexivity).
  reflexivity.
Qed.

(** One replacement of the chain fills the holes of one field. *)
Lemma replaceLit_pass f rep (filled : Field -> option string) segs :
  filled f = None ->
  (forall g v, filled g = Some v -> noBrace v = true) ->
  Forall (fun seg => match seg with
                     | Text c => Ascii.eqb c "{" = false
                     | Hole _ => True
                     end) segs ->
  replaceLit (token f) rep 0 (render filled segs)
  = render (fun g => if Field_eqb g f then Some rep else filled g) segs.
Proof.
  intros Hf Hplain Hok. induction Hok as [|seg segs Hseg _ IH]; [reflexivity|].
  destruct seg as [c|g]; cbn [render].
  - unfold token at 1. cbn [replaceLit].
    rewrite (prefix_brace_mismatch (fieldName f +:+ "}") c _ Hseg).
    f_equal. exact IH.
  - destruct (Field_eqb g f) eqn:Hgf.
    + assert (g = f) by (destruct g, f; try discriminate; reflexivity). subst g.
      rewrite Hf. cbn [default from_option id].
      unfold token at 1 2. rewrite replaceLit_hit. f_equal. exact IH.
    + destruct (filled g) as [v|] eqn:Hg; cbn [default from_option id].
      * unfold token at 1. rewrite replaceLit_copy by (eapply Hplain; exact Hg).
        f_equal. exact IH.
      * rewrite replaceLit_miss by exact Hgf. f_equal. exact IH.
Qed.

Lemma render_ext (v1 v2 : Field -> option string) segs :
  (forall f, v1 f = v2 f) -> render v1 segs = render v2 segs.
Proof.
  intros H. induction segs as [|[c|f] segs IH]; cbn [render];
    [reflexivity | rewrite IH; reflexivity | rewrite IH, H; reflexivity].
Qed.

(** The chain of five replacements, run on a well-braced template with
    plain values, gives what the one-pass reading gives. *)
Lemma substitute_message sid uid uname stamp link template :
  plain sid = true -> plain uid = true -> plain uname = true ->
  plain stamp = true -> plain link = true ->
  wellBraced placeholders template = true ->
  Background.substitute sid uid uname stamp link template
  = render (fun f => Some match f with
                          | FSessionId => sid
                          | FUserId => uid
                          | FUsername => uname
                          | FTimestamp => stamp
                          | FUrl => link
                          end) (segments 0 template).
Proof.
  intros H1 H2 H3 H4 H5 Hwb.
  destruct (segments_wellBraced _ template (Nat.le_refl _) Hwb) as [Hspell Hok].
  unfold plain in *.
  apply andb_prop in H1 as [B1 D1]. apply andb_prop in H2 as [B2 D2].
  apply andb_prop in H3 as [B3 D3]. apply andb_prop in H4 as [B4 D4].
  apply andb_prop in H5 as [B5 D5].
  unfold Background.substitute, JS.replaceAll.
  rewrite !replaceScan_literal by assumption.
  rewrite <- Hspell at 1.
  rewrite (replaceLit_pass FSessionId sid _ _ eq_refl) by (discriminate || exact Hok).
  rewrite (replaceLit_pass FUserId uid _ _ eq_refl);
    [|intros [] v; cbn; intros [=]; subst; assumption | exact Hok].
  rewrite (replaceLit_pass FUsername uname _ _ eq_refl);
    [|intros [] v; cbn; intros [=]; subst; assumption | exact Hok].
  rewrite (replaceLit_pass FTimestamp stamp _ _ eq_refl);
    [|intros [] v; cbn; intros [=]; subst; assumption | exact Hok].
  rewrite (replaceLit_pass FUrl link _ _ eq_refl);
    [|intros [] v; cbn; intros [=]; subst; assumption | exact Hok].
  apply render_ext. intros []; reflexivity.
Qed.

(** ** The two copies of [formatTelegramMessage] *)

Lemma default_templates_wellBraced :
  wellBraced placeholders Background.DEFAULT_TEMPLATE = true
  /\ wellBraced placeholders ConsentSurface.DEFAULT_TEMPLATE = true.
Proof. split; vm_compute; reflexivity. Qed.

Lemma plain_orElse o d : plainO o = true -> plain d = true -> plain (JS.orElse o d) = true.
Proof.
  intros Ho Hd. destruct o as [s|]; cbn; [|exact Hd].
  destruct (JS.truthy s); [exact Ho | exact Hd].
Qed.

Lemma orElse_idem o d : JS.truthy d = true -> JS.orElse (Some (JS.orElse o d)) d = JS.orElse o d.
Proof.
  intros Hd. destruct o as [s|]; cbn.
  - destruct (JS.truthy s) eqn:Hs; [rewrite Hs | rewrite Hd]; reflexivity.
  - rewrite Hd. reflexivity.
Qed.

(** C5, as the code formats.  When every opening brace of the template
    opens one of the five placeholders, as in the default templates, and
    no substituted value (a field that is present, the rendered time, the
    address of the page) contains an opening brace or a dollar sign, the
    message is the template with every placeholder replaced by the text
    of its field, and so contains none of the five placeholders.  The
    text of a missing or empty [sessionId], [userId] or [username] is the
    literal [Not found]; that of a missing or empty [url] is [Unknown] for
    the Coordinator and the address of the page for the Consent Surface.
    An empty template stands for the default one. *)
Theorem formatTelegramMessage_resolves_placeholders locale here d template :
  plainO (sessionId d) = true ->
  plainO (userId d) = true ->
  plainO (username d) = true ->
  plainO (url d) = true ->
  plain (locale (extractedAt d)) = true ->
  plain here = true ->
  wellBraced placeholders template = true ->
  (Background.formatTelegramMessage locale d template
   = message locale "Unknown" d
       (if JS.truthy template then template else Background.DEFAULT_TEMPLATE)
   /\ ConsentSurface.formatTelegramMessage locale here d (Some template)
      = message locale here d
          (if JS.truthy template then template else ConsentSurface.DEFAULT_TEMPLATE)
   /\ ConsentSurface.formatTelegramMessage locale here d None
      = message locale here d ConsentSurface.DEFAULT_TEMPLATE
   /\ render (fun _ => None) (segments 0 template) = template)
  /\ resolved (Background.formatTelegramMessage locale d template) = true
  /\ resolved (ConsentSurface.formatTelegramMessage locale here d (Some template)) = true
  /\ resolved (ConsentSurface.formatTelegramMessage locale here d None) = true
  /\ Background.formatTelegramMessage locale d template
     = Background.formatTelegramMessage locale (filled "Unknown" d) template
  /\ (JS.truthy here = true ->
      ConsentSurface.formatTelegramMessage locale here d (Some template)
      = ConsentSurface.formatTelegramMessage locale here (filled here d) (Some template)).
Proof.
  intros Hsid Huid Hname Hurl Hstamp Hhere Hwb.
  destruct default_templates_wellBraced as [Hbg Hcs].
  assert (Hnf : plain "Not found" = true) by reflexivity.
  assert (Hun : plain "Unknown" = true) by reflexivity.
  split; [split; [|split; [|split]] | split; [|split; [|split; [|split]]]].
  - unfold Background.formatTelegramMessage, message.
    rewrite substitute_message;
      [reflexivity | apply plain_orElse; assumption | apply plain_orElse; assumption
      | apply plain_orElse; assumption | exact Hstamp
      | apply plain_orElse; assumption |].
    destruct (JS.truthy template); [exact Hwb | exact Hbg].
  - unfold ConsentSurface.formatTelegramMessage, message.
    cbn [JS.truthyO default from_option id].
    rewrite substitute_message;
      [reflexivity | apply plain_orElse; assumption | apply plain_orElse; assumption
      | apply plain_orElse; assumption | exact Hstamp
      | apply plain_orElse; assumption |].
    destruct (JS.truthy template); [exact Hwb | exact Hcs].
  - unfold ConsentSurface.formatTelegramMessage, message. cbn [JS.truthyO].
    rewrite substitute_message;
      [reflexivity | apply plain_orElse; assumption | apply plain_orElse; assumption
      | apply plain_orElse; assumption | exact Hstamp
      | apply plain_orElse; assumption | exact Hcs].
  - apply (segments_wellBraced _ template (Nat.le_refl _) Hwb).
  - unfold Background.formatTelegramMessage.
    apply substitute_resolved;
      [apply plain_orElse; assumption | apply plain_orElse; assumption
      | apply plain_orElse; assumption | exact Hstamp
      | apply plain_orElse; assumption |].
    destruct (JS.truthy template); [exact Hwb | exact Hbg].
  - unfold ConsentSurface.formatTelegramMessage.
    apply substitute_resolved;
      [apply plain_orElse; assumption | apply plain_orElse; assumption
      | apply plain_orElse; assumption | exact Hstamp
      | apply plain_orElse; assumption |].
    cbn [JS.truthyO default]. destruct (JS.truthy template); [exact Hwb | exact Hcs].
  - unfold ConsentSurface.formatTelegramMessage. cbn [JS.truthyO].
    apply substitute_resolved;
      [apply plain_orElse; assumption | apply plain_orElse; assumption
      | apply plain_orElse; assumption | exact Hstamp
      | apply plain_orElse; assumption | exact Hcs].
  - unfold Background.formatTelegramMessage, filled. cbn [sessionId userId username url extractedAt].
    rewrite !orElse_idem by reflexivity. reflexivity.
  - intros Ht. unfold ConsentSurface.formatTelegramMessage, filled.
    cbn [sessionId userId username url extractedAt].
    rewrite !orElse_idem by (reflexivity || exact Ht). reflexivity.
Qed.

(** C5 at an artifact without identity fields and address. *)
Lemma formatTelegramMessage_resolves_placeholders_witness :
  let locale := Examples.localTime in
  let here := "chrome-extension://abcdefgh/consent.html" in
  let d := Examples.bareArtifact in
  (plainO (sessionId d) = true /\ plainO (userId d) = true /\ plainO (username d) = true
   /\ plainO (url d) = true /\ plain (locale (extractedAt d)) = true /\ plain here = true
   /\ wellBraced placeholders "{userId}|{username}|{url}" = true)
  /\ ((Background.formatTelegramMessage locale d "{userId}|{username}|{url}"
       = message locale "Unknown" d
           (if JS.truthy "{userId}|{username}|{url}" then "{userId}|{username}|{url}" else Background.DEFAULT_TEMPLATE)
       /\ ConsentSurface.formatTelegramMessage locale here d (Some "{userId}|{username}|{url}")
          = message locale here d
              (if JS.truthy "{userId}|{username}|{url}" then "{userId}|{username}|{url}" else ConsentSurface.DEFAULT_TEMPLATE)
       /\ ConsentSurface.formatTelegramMessage locale here d None
          = message locale here d ConsentSurface.DEFAULT_TEMPLATE
       /\ render (fun _ => None) (segments 0 "{userId}|{username}|{url}") = "{userId}|{username}|{url}")
      /\ resolved (Background.formatTelegramMessage locale d "{userId}|{username}|{url}") = true
      /\ resolved (ConsentSurface.formatTelegramMessage locale here d (Some "{userId}|{username}|{url}")) = true
      /\ resolved (ConsentSurface.formatTelegramMessage locale here d None) = true
      /\ Background.formatTelegramMessage locale d "{userId}|{username}|{url}"
         = Background.formatTelegramMessage locale (filled "Unknown" d) "{userId}|{username}|{url}"
      /\ (JS.truthy here = true ->
          ConsentSurface.formatTelegramMessage locale here d (Some "{userId}|{username}|{url}")
          = ConsentSurface.formatTelegramMessage locale here (filled here d) (Some "{userId}|{username}|{url}"))).
Proof.
  cbv zeta. split; [repeat split|].
  apply (formatTelegramMessage_resolves_placeholders
           Examples.localTime "chrome-extension://abcdefgh/consent.html"
           Examples.bareArtifact "{userId}|{username}|{url}"); reflexivity.
Defined.

(** How the missing fields come out. *)
Example missing_fields_rendering :
  Background.formatTelegramMessage Examples.localTime Examples.bareArtifact
    "{userId}|{username}|{url}|{timestamp}"
  = "Not found|Not found|Unknown|1/1/2025, 10:00:00 AM"
  /\ message Examples.localTime "Unknown" Examples.bareArtifact
       "{userId}|{username}|{url}|{timestamp}"
     = "Not found|Not found|Unknown|1/1/2025, 10:00:00 AM"
  /\ segments 0 "a{url}{x"
     = [Text "a"; Hole FUrl; Text "{"; Text "x"].
Proof. repeat split; vm_compute; reflexivity. Qed.

(** C5 as first stated fails twice over.  A missing [url] is rendered as
    [Unknown], not as [Not found]; and a value that itself spells a
    placeholder, or uses the replacement pattern [$&], leaves a
    placeholder in the message formatted with the default template. *)
Lemma formatTelegramMessage_leaves_placeholder :
  Background.formatTelegramMessage Examples.localTime Examples.bareArtifact "{url}"
    = "Unknown"
  /\ resolved (Background.formatTelegramMessage Examples.localTime
                 Examples.artifactWithBracedUrl "") = false
  /\ JS.includes "{userId}"
       (Background.formatTelegramMessage Examples.localTime
          Examples.artifactWithBracedUrl "") = true
  /\ Background.formatTelegramMessage Examples.localTime
       Examples.artifactWithDollarName "{username}" = "{username}".
Proof. repeat split; vm_compute; reflexivity. Qed.

End TemplateProofs.

(* ===================================================================== *)
(** * Further properties of the Coordinator                               *)
(* ===================================================================== *)

Module CoordinatorFacts.
Import Background.
Import BackgroundProofs.

#[local] Arguments Nat.ltb : simpl never.
#[local] Arguments take : simpl never.
#[local] Arguments putAll : simpl never.
#[local] Arguments removeAll : simpl never.
#[local] Arguments formatTelegramMessage : simpl never.
#[local] Arguments String.append : simpl never.

(** ** The session sweep *)

(** [performSessionCleanup] keeps the active sessions detected no earlier
    than one hour before the sweep and the history entries detected
    strictly later than that: a session detected exactly one hour ago stays
    active while its history entry is dropped.  The activity log is left
    alone, and the call returns normally whether or not the swept history
    can be persisted. *)
Theorem performSessionCleanup_keeps_recent e w :
  let w' := exec performSessionCleanup e w in
  let horizon := now e - SESSION_CLEANUP_INTERVAL in
  SESSION_CLEANUP_INTERVAL = 3600000
  /\ (forall key,
        activeSessions w' !! key
        = match activeSessions w !! key with
          | Some s => if s_detectedAt s <? horizon then None else Some s
          | None => None
          end)
  /\ sessionHistory w' = filter (fun x => horizon < h_detectedAt x) (sessionHistory w)
  /\ activityLogs w' = activityLogs w
  /\ writes (trace w')
     = match storageRejects e (draws w) with
       | None => [[SESSION_HISTORY]]
       | Some _ => [[ERROR_LOGS]; [SESSION_HISTORY]]
       end ++ writes (trace w)
  /\ result performSessionCleanup e w = Done tt.
Proof.
  cbv zeta. split; [reflexivity|].
  unfold performSessionCleanup, storageSet. unfold_monad. cbn.
  destruct (storageRejects e (draws w)) as [msg|] eqn:Hst; cbn.
  - unfold logError, generateUniqueId, storageSet. unfold_monad. cbn.
    case_ltb; cbn; destruct (storageRejects e (S (S (draws w)))); cbn.
    all: split; [intros key; apply deleteWhere_lookup|].
    all: split; [reflexivity|]; split; [reflexivity|]; split; reflexivity.
  - split; [intros key; apply deleteWhere_lookup|].
    split; [reflexivity|]. split; [reflexivity|]. split; reflexivity.
Qed.

(** ** Marking a history entry *)

Lemma markFirst_find sid processed at_ (h : list HistoryEntry) :
  markFirst sid processed at_ h
  = match list_find (fun x => h_sessionId x = Some sid) h with
    | Some (i, entry) => Some (<[i := markProcessed processed at_ entry]> h)
    | None => None
    end.
Proof.
  induction h as [|x h IH]; [reflexivity|].
  cbn [markFirst list_find]. destruct (decide (h_sessionId x = Some sid)); [reflexivity|].
  rewrite IH. destruct (list_find _ h) as [[i entry]|]; reflexivity.
Qed.

(** [updateSessionHistory(sessionId, status)] touches the first entry
    recorded for the session id, the newest one, and no other: the entry
    gets [processed] set (to whether the status is ['processed']) and a
    [processedAt] stamp, older entries of the same session stay as they
    were, and the history keeps its length and the session id at every
    position.  When no entry carries the session id nothing at all
    happens: no write is issued.  The call never throws. *)
Theorem updateSessionHistory_marks_first e w sid status :
  let w' := exec (updateSessionHistory sid status) e w in
  match list_find (fun x => h_sessionId x = Some sid) (sessionHistory w) with
  | Some (i, entry) =>
      sessionHistory w'
      = <[i := markProcessed (String.eqb status "processed") (now e) entry]>
          (sessionHistory w)
      /\ writes (trace w')
         = match storageRejects e (draws w) with
           | None => [[SESSION_HISTORY]]
           | Some _ => [[ERROR_LOGS]; [SESSION_HISTORY]]
           end ++ writes (trace w)
  | None => w' = w
  end
  /\ length (sessionHistory w') = length (sessionHistory w)
  /\ h_sessionId <$> sessionHistory w' = h_sessionId <$> sessionHistory w
  /\ activeSessions w' = activeSessions w
  /\ result (updateSessionHistory sid status) e w = Done tt.
Proof.
  cbv zeta.
  unfold updateSessionHistory, storageSet. unfold_monad. cbn.
  rewrite markFirst_find.
  destruct (list_find _ (sessionHistory w)) as [[i entry]|] eqn:Hfind; cbn.
  - apply list_find_Some in Hfind as (Hi & Hsid & _).
    assert (Hids : h_sessionId
                     <$> <[i := markProcessed (String.eqb status "processed") (now e) entry]>
                           (sessionHistory w)
                   = h_sessionId <$> sessionHistory w).
    { rewrite list_fmap_insert. apply list_insert_id.
      rewrite list_lookup_fmap, Hi. reflexivity. }
    destruct (storageRejects e (draws w)) as [msg|] eqn:Hst; cbn.
    + unfold logError, generateUniqueId, storageSet. unfold_monad. cbn.
      case_ltb; cbn; destruct (storageRejects e (S (S (draws w)))); cbn.
      all: split; [split; reflexivity|].
      all: split; [apply length_insert|].
      all: split; [exact Hids|]; split; reflexivity.
    + split; [split; reflexivity|].
      split; [apply length_insert|]. split; [exact Hids|]. split; reflexivity.
  - repeat split; destruct w; reflexivity.
Qed.

(** ** Clearing a session *)

(** [clearSessionData(sessionId)] of the Coordinator removes the active
    sessions recorded for that session id, in whatever tab, and no other;
    it removes the pending artifact and its request time from the store.
    The history and the activity log are left alone.  When the removal
    from the store is rejected the failure is logged and the call still
    returns normally. *)
Theorem clearSessionData_frame e w sid :
  let w' := exec (clearSessionData sid) e w in
  (forall key,
      activeSessions w' !! key
      = match activeSessions w !! key with
        | Some s =>
            if bool_decide (sessionId (s_sessionData s) = Some sid) then None else Some s
        | None => None
        end)
  /\ sessionHistory w' = sessionHistory w
  /\ activityLogs w' = activityLogs w
  /\ match storageRejects e (draws w) with
     | None =>
         storage w' = removeAll ["pendingSessionData"; "consentRequestTime"] (storage w)
         /\ errorLogs w' = errorLogs w
     | Some msg =>
         errorLogs w'
         = take MAX_LOG_ENTRIES
             (errorEntryOf e (tick w) "session_clear_error" (mkError msg) :: errorLogs w)
     end
  /\ result (clearSessionData sid) e w = Done tt.
Proof.
  cbv zeta. unfold clearSessionData, storageRemove. unfold_monad. cbn.
  destruct (storageRejects e (draws w)) as [msg|] eqn:Hst; cbn.
  - unfold logError, generateUniqueId, storageSet. unfold_monad. cbn.
    case_ltb; cbn; destruct (storageRejects e (S (S (draws w)))); cbn.
    all: split; [intros key; apply deleteWhere_lookup|].
    all: split; [reflexivity|]; split; [reflexivity|]; split; [|reflexivity].
    all: rewrite <- (take_cap MAX_LOG_ENTRIES); unfold errorEntryOf;
      cbn [length]; rewrite Hcap; reflexivity.
  - split; [intros key; apply deleteWhere_lookup|].
    split; [reflexivity|]. split; [reflexivity|]. split; [split|]; reflexivity.
Qed.

(** ** The caps of the two logs *)

Lemma logActivity_log e w activity data :
  activityLogs (exec (logActivity activity data) e w)
  = take MAX_LOG_ENTRIES (activityEntryOf e w activity data :: activityLogs w).
Proof.
  rewrite <- (take_cap MAX_LOG_ENTRIES).
  unfold logActivity, generateUniqueId, storageSet, loggingEnabled, activityEntryOf.
  unfold_monad. cbn. cbn [length]. case_ltb; cbn;
    destruct (extensionSettings w) as [s|]; cbn;
    try destruct (logActivities (privacy s)); cbn;
    try destruct (storageRejects e (S (draws w))); reflexivity.
Qed.

Lemma logError_log e w ty err :
  errorLogs (exec (logError ty err) e w)
  = take MAX_LOG_ENTRIES (errorEntryOf e w ty err :: errorLogs w).
Proof.
  rewrite <- (take_cap MAX_LOG_ENTRIES).
  unfold logError, generateUniqueId, storageSet, errorEntryOf.
  unfold_monad. cbn. cbn [length]. case_ltb; cbn;
    destruct (storageRejects e (S (draws w))); reflexivity.
Qed.

Lemma logActivity_rest e w activity data :
  errorLogs (exec (logActivity activity data) e w) = errorLogs w
  /\ errorCount (exec (logActivity activity data) e w) = errorCount w
  /\ sessionHistory (exec (logActivity activity data) e w) = sessionHistory w
  /\ activeSessions (exec (logActivity activity data) e w) = activeSessions w
  /\ result (logActivity activity data) e w = Done tt.
Proof.
  unfold logActivity, generateUniqueId, storageSet, loggingEnabled.
  unfold_monad. cbn. case_ltb; cbn;
    destruct (extensionSettings w) as [s|]; cbn;
    try destruct (logActivities (privacy s)); cbn;
    try destruct (storageRejects e (S (draws w))); cbn;
    (split; [reflexivity|]); (split; [reflexivity|]); (split; [reflexivity|]);
    split; reflexivity.
Qed.

Lemma logError_rest e w ty err :
  activityLogs (exec (logError ty err) e w) = activityLogs w
  /\ errorCount (exec (logError ty err) e w) = errorCount w + 1
  /\ sessionHistory (exec (logError ty err) e w) = sessionHistory w
  /\ activeSessions (exec (logError ty err) e w) = activeSessions w
  /\ result (logError ty err) e w = Done tt.
Proof.
  unfold logError, generateUniqueId, storageSet.
  unfold_monad. cbn. case_ltb; cbn;
    destruct (storageRejects e (S (draws w))); cbn;
    (split; [reflexivity|]); (split; [reflexivity|]); (split; [reflexivity|]);
    split; reflexivity.
Qed.

(** Both logs are kept newest first and never grow beyond 1000 entries:
    after [logActivity] the activity log is the new entry followed by the
    old ones, cut to the cap, and likewise the error log after [logError],
    which also counts the error.  Neither call touches the other log, the
    history or the active sessions, and neither throws, even when the
    store rejects the write. *)
Theorem logs_capped_newest_first e w activity data ty err :
  let wa := exec (logActivity activity data) e w in
  let we := exec (logError ty err) e w in
  MAX_LOG_ENTRIES = 1000%nat
  /\ activityLogs wa
     = take MAX_LOG_ENTRIES (activityEntryOf e w activity data :: activityLogs w)
  /\ (length (activityLogs wa) <= MAX_LOG_ENTRIES)%nat
  /\ errorLogs wa = errorLogs w
  /\ errorCount wa = errorCount w
  /\ errorLogs we = take MAX_LOG_ENTRIES (errorEntryOf e w ty err :: errorLogs w)
  /\ (length (errorLogs we) <= MAX_LOG_ENTRIES)%nat
  /\ activityLogs we = activityLogs w
  /\ errorCount we = errorCount w + 1
  /\ sessionHistory wa = sessionHistory w /\ sessionHistory we = sessionHistory w
  /\ activeSessions wa = activeSessions w /\ activeSessions we = activeSessions w
  /\ result (logActivity activity data) e w = Done tt
  /\ result (logError ty err) e w = Done tt.
Proof.
  cbv zeta. split; [reflexivity|].
  pose proof (logActivity_log e w activity data) as Ha.
  pose proof (logError_log e w ty err) as He.
  destruct (logActivity_rest e w activity data) as (H1 & H2 & H3 & H4 & H5).
  destruct (logError_rest e w ty err) as (G1 & G2 & G3 & G4 & G5).
  split; [exact Ha|]. split; [rewrite Ha, length_take; lia|].
  split; [exact H1|]. split; [exact H2|]. split; [exact He|].
  split; [rewrite He, length_take; lia|].
  split; [exact G1|]. split; [exact G2|]. split; [exact H3|]. split; [exact G3|].
  split; [exact H4|]. split; [exact G4|]. split; [exact H5 | exact G5].
Qed.

(** ** Detection events *)

Lemma addToSessionHistory_keeps d t :
  preserves (fun w => (activeSessions w, activityLogs w)) (addToSessionHistory d t).
Proof. unfold addToSessionHistory. preserves_tac. Qed.

Lemma total_addToSessionHistory d t : total (addToSessionHistory d t).
Proof. apply total_tryCatch. intros. apply total_logError. Qed.

#[local] Arguments addToSessionHistory : simpl never.
#[local] Arguments logActivity : simpl never.
#[local] Arguments logError : simpl never.
#[local] Arguments updateSessionHistory : simpl never.
#[local] Arguments clearSessionData : simpl never.

(** A detection reported by a tab is recorded three times over: as the
    active session of that tab and session id (replacing an earlier one
    under the same key), as the newest entry of the history, which carries
    the complete session id, and in the activity log, which carries only
    its first ten characters.  A report without a session id is recorded
    in the first two and then fails on the log entry.  Nothing of this
    throws. *)
Theorem handleSessionDetected_records e w d t :
  let w' := exec (handleSessionDetected (Some d) (mkSender (Some t))) e w in
  activeSessions w'
  = <[sessionKey t d := mkActive d t (now e) false]> (activeSessions w)
  /\ sessionHistory w'
     = take MAX_SESSION_HISTORY (historyEntryOf e w d t :: sessionHistory w)
  /\ h_sessionId (historyEntryOf e w d t) = sessionId d
  /\ match sessionId d with
     | Some sid =>
         exists id,
           activityLogs w'
           = take MAX_LOG_ENTRIES
               (mkActivity id (now e) "session_detected"
                  [("sessionId", JStr (redact sid));
                   ("userId", optStr (userId d));
                   ("username", optStr (username d));
                   ("url", optStr (url d));
                   ("tabId", JNum t);
                   ("timestamp", JNum (now e))]
                  :: activityLogs w)
     | None => activityLogs w' = activityLogs w
     end
  /\ result (handleSessionDetected (Some d) (mkSender (Some t))) e w = Done tt.
Proof.
  cbv zeta. unfold handleSessionDetected. cbn [tab].
  set (w1 := set_activeSessions
               (<[sessionKey t d := mkActive d t (now e) false]> (activeSessions w)) w).
  destruct (run_total (addToSessionHistory d t) e w1 (total_addToSessionHistory d t))
    as [[] Hrun].
  pose proof (addToSessionHistory_keeps d t e w1) as Hkeep.
  injection Hkeep as Hact Hlog.
  pose proof (addToSessionHistory_history e w1 d t) as Hhist.
  set (w2 := exec (addToSessionHistory d t) e w1) in *.
  unfold exec, result, tryCatch, bind, ask, modify. fold w1. rewrite Hrun.
  destruct (sessionId d) as [sid|] eqn:Hsid.
  - match goal with
    | |- context [logActivity ?a ?dat e w2] =>
        destruct (run_total (logActivity a dat) e w2 (total_logActivity a dat)) as [[] Hrun2];
        pose proof (logActivity_log e w2 a dat) as Hl;
        destruct (logActivity_rest e w2 a dat) as (_ & _ & Hh & Ha & _);
        rewrite Hrun2
    end.
    cbn [fst snd].
    split; [rewrite Ha; exact Hact|]. split; [rewrite Hh; exact Hhist|].
    split; [exact Hsid|]. split; [|reflexivity].
    eexists. rewrite Hl, Hlog. reflexivity.
  - unfold throw.
    match goal with
    | |- context [logError ?a ?x e w2] =>
        destruct (run_total (logError a x) e w2 (total_logError a x)) as [[] Hrun2];
        destruct (logError_rest e w2 a x) as (Hl & _ & Hh & Ha & _)
    end.
    cbn [fst snd]. rewrite Hrun2. cbn [fst snd].
    split; [rewrite Ha; exact Hact|]. split; [rewrite Hh; exact Hhist|].
    split; [exact Hsid|]. split; [rewrite Hl; exact Hlog | reflexivity].
Qed.

(** A report that lacks the sender's tab or the data is not recorded
    anywhere: the [TypeError] of the first property read is caught, counted
    and written to the error log, and the call returns normally. *)
Theorem handleSessionDetected_malformed e w data sender :
  tab sender = None \/ data = None ->
  let w' := exec (handleSessionDetected data sender) e w in
  activeSessions w' = activeSessions w
  /\ sessionHistory w' = sessionHistory w
  /\ activityLogs w' = activityLogs w
  /\ errorCount w' = errorCount w + 1
  /\ (exists msg,
        errorLogs w'
        = take MAX_LOG_ENTRIES
            (errorEntryOf e w "session_detection_error" (mkError msg) :: errorLogs w))
  /\ result (handleSessionDetected data sender) e w = Done tt.
Proof.
  intros H. cbv zeta.
  assert (exists msg, handleSessionDetected data sender e w
                      = logError "session_detection_error" (mkError msg) e w) as [msg Hrun].
  { unfold handleSessionDetected.
    destruct (tab sender) as [t|]; [destruct data as [d|]|].
    - destruct H; discriminate.
    - eexists; reflexivity.
    - eexists; reflexivity. }
  unfold exec, result. rewrite Hrun.
  destruct (logError_rest e w "session_detection_error" (mkError msg))
    as (Hl & Hc & Hh & Ha & Hr).
  pose proof (logError_log e w "session_detection_error" (mkError msg)) as He.
  split; [exact Ha|]. split; [exact Hh|]. split; [exact Hl|]. split; [exact Hc|].
  split; [exists msg; exact He | exact Hr].
Qed.

(** The same at a report that came from no tab. *)
Lemma handleSessionDetected_malformed_witness :
  let e := Examples.hostUp in
  let w := Examples.coordinator Examples.settingsOn in
  let sender := mkSender None in
  let w' := exec (handleSessionDetected (Some Examples.artifact) sender) e w in
  (tab sender = None \/ Some Examples.artifact = None)
  /\ activeSessions w' = activeSessions w
  /\ sessionHistory w' = sessionHistory w
  /\ activityLogs w' = activityLogs w
  /\ errorCount w' = errorCount w + 1
  /\ (exists msg,
        errorLogs w'
        = take MAX_LOG_ENTRIES
            (errorEntryOf e w "session_detection_error" (mkError msg) :: errorLogs w))
  /\ result (handleSessionDetected (Some Examples.artifact) sender) e w = Done tt.
Proof.
  cbv zeta. split; [left; reflexivity|].
  apply (handleSessionDetected_malformed Examples.hostUp
           (Examples.coordinator Examples.settingsOn) (Some Examples.artifact)
           (mkSender None)).
  left; reflexivity.
Defined.

(** ** A delivery the sink accepts *)

Lemma updateSessionHistory_rest e w sid status :
  sessionHistory (exec (updateSessionHistory sid status) e w)
  = default (sessionHistory w)
      (markFirst sid (String.eqb status "processed") (now e) (sessionHistory w))
  /\ activeSessions (exec (updateSessionHistory sid status) e w) = activeSessions w
  /\ activityLogs (exec (updateSessionHistory sid status) e w) = activityLogs w.
Proof.
  unfold updateSessionHistory, storageSet. unfold_monad. cbn.
  destruct (markFirst _ _ _ _) as [h|]; cbn; [|repeat split].
  destruct (storageRejects e (draws w)) as [msg|]; cbn; [|repeat split].
  unfold logError, generateUniqueId, storageSet. unfold_monad. cbn.
  case_ltb; cbn; destruct (storageRejects e (S (S (draws w)))); cbn;
    (split; [reflexivity|]; split; reflexivity).
Qed.

Lemma clearSessionData_rest e w sid :
  activeSessions (exec (clearSessionData sid) e w)
  = deleteWhere (fun session => bool_decide (sessionId (s_sessionData session) = Some sid))
                (activeSessions w)
  /\ sessionHistory (exec (clearSessionData sid) e w) = sessionHistory w
  /\ activityLogs (exec (clearSessionData sid) e w) = activityLogs w.
Proof.
  unfold clearSessionData, storageRemove. unfold_monad. cbn.
  destruct (storageRejects e (draws w)) as [msg|]; cbn;
    [|split; [reflexivity|]; split; reflexivity].
  unfold logError, generateUniqueId, storageSet. unfold_monad. cbn.
  case_ltb; cbn; destruct (storageRejects e (S (S (draws w)))); cbn;
    (split; [reflexivity|]; split; reflexivity).
Qed.

(** When the sink accepts the message, the delivery request is answered
    [{ success: true, messageId }] once, and the tab it came from is told
    the same; exactly one request was made; the newest history entry of
    the session is marked processed at the time of the call; the activity
    log gains a ['session_processed'] entry that carries only the first
    ten characters of the session id; and the active sessions of that
    session id are dropped when [autoClearData] is set and kept otherwise.
    A store that rejects the book-keeping writes changes none of this. *)
Theorem handleProcessSessionData_delivered e w msg sender d s mid :
  msg_sessionData msg = Some d ->
  validateSessionData (Some d) = true ->
  extensionSettings w = Some s ->
  configured (telegram s) = true ->
  sinkReply e s d = ApiOk mid ->
  let w' := exec (handleProcessSessionData msg sender) e w in
  exists sid,
    sessionId d = Some sid
    /\ sends (trace w') = (sends (trace w) + 1)%nat
    /\ responses (trace w') = RespOk mid :: responses (trace w)
    /\ tabNotices (trace w')
       = match tab sender with
         | Some id => (id, RespOk mid) :: tabNotices (trace w)
         | None => tabNotices (trace w)
         end
    /\ sessionHistory w'
       = default (sessionHistory w) (markFirst sid true (now e) (sessionHistory w))
    /\ (exists id,
          activityLogs w'
          = take MAX_LOG_ENTRIES
              (mkActivity id (now e) "session_processed"
                 [("sessionId", JStr (redact sid));
                  ("consentType", optStr (msg_consentType msg));
                  ("telegramMessageId", JNum mid);
                  ("timestamp", JNum (now e))]
                 :: activityLogs w))
    /\ (forall key,
          activeSessions w' !! key
          = match activeSessions w !! key with
            | Some a =>
                if autoClearData (privacy s)
                   && bool_decide (sessionId (s_sessionData a) = Some sid)
                then None else Some a
            | None => None
            end)
    /\ result (handleProcessSessionData msg sender) e w = Done tt.
Proof.
  intros Hd Hv Hs Hc Hok. cbv zeta.
  destruct (sessionId d) as [sid|] eqn:Hsid;
    [|unfold validateSessionData in Hv; rewrite Hsid in Hv; discriminate].
  exists sid. split; [reflexivity|].
  assert (exists w4,
             handleProcessSessionData msg sender e w
             = (Done tt,
                match tab sender with
                | Some id => emit (TabsSendMessage id (RespOk mid))
                                  (emit (SendResponse (RespOk mid)) w4)
                | None => emit (SendResponse (RespOk mid)) w4
                end)
             /\ quietView w4 = ((sends (trace w) + 1)%nat, responses (trace w),
                                tabNotices (trace w), Some s)
             /\ sessionHistory w4
                = default (sessionHistory w) (markFirst sid true (now e) (sessionHistory w))
             /\ (exists id,
                   activityLogs w4
                   = take MAX_LOG_ENTRIES
                       (mkActivity id (now e) "session_processed"
                          [("sessionId", JStr (redact sid));
                           ("consentType", optStr (msg_consentType msg));
                           ("telegramMessageId", JNum mid);
                           ("timestamp", JNum (now e))]
                          :: activityLogs w))
             /\ forall key,
                  activeSessions w4 !! key
                  = match activeSessions w !! key with
                    | Some a =>
                        if autoClearData (privacy s)
                           && bool_decide (sessionId (s_sessionData a) = Some sid)
                        then None else Some a
                    | None => None
                    end) as (w4 & Hrun & Hq & Hh & Hl & Ha).
  { unfold handleProcessSessionData. rewrite Hd, Hv. cbn [negb].
    unfold tryCatch.
    rewrite (run_bind _ _ _ _ _ _ (settingsOrThrow_some _ e w s Hs)).
    rewrite Hc. cbn [negb].
    rewrite (run_bind _ _ _ _ _ _ (sendToTelegram_configured e w s d Hs Hc)).
    rewrite Hok, Hsid. cbn [default from_option id].
    set (w1 := emit _ w).
    assert (Hq1 : quietView w1 = ((sends (trace w) + 1)%nat, responses (trace w),
                                  tabNotices (trace w), Some s)).
    { unfold quietView, w1, sends. cbn. rewrite Hs. do 3 f_equal. lia. }
    assert (Hw1 : sessionHistory w1 = sessionHistory w
                  /\ activeSessions w1 = activeSessions w
                  /\ activityLogs w1 = activityLogs w) by (repeat split).
    destruct Hw1 as (Hh1 & Ha1 & Hl1).
    clearbody w1.
    unfold bind at 1, ask at 1. cbn [fst snd].
    (* the activity entry *)
    match goal with
    | |- context [bind (logActivity ?a ?dat) ?k e w1] =>
        destruct (run_total (logActivity a dat) e w1 (total_logActivity a dat))
          as [[] Hrun2];
        pose proof (logActivity_log e w1 a dat) as Hl2;
        destruct (logActivity_rest e w1 a dat) as (_ & _ & Hh2 & Ha2 & _);
        pose proof (quiet_logActivity a dat e w1) as Hq2;
        rewrite (run_bind _ _ _ _ _ _ Hrun2);
        set (w2 := exec (logActivity a dat) e w1) in *
    end.
    clearbody w2.
    (* the history entry *)
    destruct (run_total (updateSessionHistory sid "processed") e w2
                (total_updateSessionHistory _ _)) as [[] Hrun3].
    destruct (updateSessionHistory_rest e w2 sid "processed") as (Hh3 & Ha3 & Hl3).
    pose proof (quiet_updateSessionHistory sid "processed" e w2) as Hq3.
    rewrite (run_bind _ _ _ _ _ _ Hrun3).
    set (w3 := exec (updateSessionHistory sid "processed") e w2) in *.
    clearbody w3.
    assert (Hs3 : extensionSettings w3 = Some s).
    { rewrite Hq2, Hq1 in Hq3. unfold quietView in Hq3. congruence. }
    rewrite (run_bind _ _ _ _ _ _ (settingsOrThrow_some _ e w3 s Hs3)).
    (* the active sessions *)
    assert (exists w4,
               when (autoClearData (privacy s)) (clearSessionData sid) e w3 = (Done tt, w4)
               /\ quietView w4 = quietView w3
               /\ sessionHistory w4 = sessionHistory w3
               /\ activityLogs w4 = activityLogs w3
               /\ forall key,
                    activeSessions w4 !! key
                    = match activeSessions w3 !! key with
                      | Some a =>
                          if autoClearData (privacy s)
                             && bool_decide (sessionId (s_sessionData a) = Some sid)
                          then None else Some a
                      | None => None
                      end) as (w4 & Hrun4 & Hq4 & Hh4 & Hl4 & Ha4).
    { destruct (autoClearData (privacy s)); cbn [when andb].
      - destruct (run_total (clearSessionData sid) e w3 (total_clearSessionData _))
          as [[] Hrun4].
        destruct (clearSessionData_rest e w3 sid) as (Ha4 & Hh4 & Hl4).
        eexists. split; [exact Hrun4|].
        split; [apply quiet_clearSessionData|]. split; [exact Hh4|]. split; [exact Hl4|].
        intros key. rewrite Ha4. apply deleteWhere_lookup.
      - exists w3. split; [reflexivity|]. do 3 (split; [reflexivity|]).
        intros key. destruct (activeSessions w3 !! key); reflexivity. }
    rewrite (run_bind _ _ _ _ _ _ Hrun4).
    exists w4.
    split; [unfold sendResponse, notifyTab; unfold_monad; destruct (tab sender); reflexivity|].
    split; [rewrite Hq4, Hq3, Hq2; exact Hq1|].
    split; [rewrite Hh4, Hh3, Hh2, Hh1; reflexivity|].
    split; [eexists; rewrite Hl4, Hl3, Hl2, Hl1; reflexivity|].
    intros key. rewrite Ha4, Ha3, Ha2, Ha1. reflexivity. }
  unfold quietView in Hq. injection Hq as Hsends Hresp Hnot _.
  unfold exec, result. rewrite Hrun. cbn [fst snd].
  split; [rewrite <- Hsends; destruct (tab sender); reflexivity|].
  split; [rewrite <- Hresp; destruct (tab sender); reflexivity|].
  split; [rewrite <- Hnot; destruct (tab sender); reflexivity|].
  split; [rewrite <- Hh; destruct (tab sender); reflexivity|].
  split; [destruct Hl as [id Hl]; exists id; rewrite <- Hl;
          destruct (tab sender); reflexivity|].
  split; [|reflexivity].
  intros key. rewrite <- Ha. destruct (tab sender); reflexivity.
Qed.

(** The same at a request the sink answers with message 77. *)
Lemma handleProcessSessionData_delivered_witness :
  let e := Examples.hostUp in
  let w := Examples.coordinator Examples.settingsOn in
  let msg := Examples.request Examples.artifact in
  let w' := exec (handleProcessSessionData msg Examples.fromTab) e w in
  (msg_sessionData msg = Some Examples.artifact
   /\ validateSessionData (Some Examples.artifact) = true
   /\ extensionSettings w = Some Examples.settingsOn
   /\ configured (telegram Examples.settingsOn) = true
   /\ sinkReply e Examples.settingsOn Examples.artifact = ApiOk 77)
  /\ exists sid,
       sessionId Examples.artifact = Some sid
       /\ sends (trace w') = (sends (trace w) + 1)%nat
       /\ responses (trace w') = RespOk 77 :: responses (trace w)
       /\ tabNotices (trace w')
          = match tab Examples.fromTab with
            | Some id => (id, RespOk 77) :: tabNotices (trace w)
            | None => tabNotices (trace w)
            end
       /\ sessionHistory w'
          = default (sessionHistory w) (markFirst sid true (now e) (sessionHistory w))
       /\ (exists id,
             activityLogs w'
             = take MAX_LOG_ENTRIES
                 (mkActivity id (now e) "session_processed"
                    [("sessionId", JStr (redact sid));
                     ("consentType", optStr (msg_consentType msg));
                     ("telegramMessageId", JNum 77);
                     ("timestamp", JNum (now e))]
                    :: activityLogs w))
       /\ (forall key,
             activeSessions w' !! key
             = match activeSessions w !! key with
               | Some a =>
                   if autoClearData (privacy Examples.settingsOn)
                      && bool_decide (sessionId (s_sessionData a) = Some sid)
                   then None else Some a
               | None => None
               end)
       /\ result (handleProcessSessionData msg Examples.fromTab) e w = Done tt.
Proof.
  cbv zeta. split; [repeat split|].
  apply (handleProcessSessionData_delivered Examples.hostUp
           (Examples.coordinator Examples.settingsOn)
           (Examples.request Examples.artifact) Examples.fromTab
           Examples.artifact Examples.settingsOn 77); reflexivity.
Defined.

(** ** The request to the sink *)

(** [sendToTelegram] never throws: missing settings, an unconfigured sink,
    a network failure and a refusal by the sink all come back as
    [{ success: false, error }].  It reports a success exactly when the
    sink is configured and accepts the message, and it makes a request
    exactly when the sink is configured. *)
Theorem sendToTelegram_reports_failures e w d :
  exists r,
    result (sendToTelegram d) e w = Done r
    /\ (forall mid,
          r = Success mid
          <-> exists s, extensionSettings w = Some s
                        /\ configured (telegram s) = true
                        /\ sinkReply e s d = ApiOk mid)
    /\ sends (trace (exec (sendToTelegram d) e w))
       = (sends (trace w)
          + match extensionSettings w with
            | Some s => if configured (telegram s) then 1 else 0
            | None => 0
            end)%nat.
Proof.
  destruct (extensionSettings w) as [s|] eqn:Hs;
    [destruct (configured (telegram s)) eqn:Hc|].
  - unfold result, exec. rewrite (sendToTelegram_configured e w s d Hs Hc).
    eexists. split; [reflexivity|]. split.
    + intros mid. split.
      * intros H. exists s. split; [reflexivity|]. split; [exact Hc|].
        destruct (sinkReply e s d); try discriminate. injection H as ->. reflexivity.
      * intros (s' & Hs' & _ & Hok). injection Hs' as <-. rewrite Hok. reflexivity.
    + unfold sends. cbn. lia.
  - unfold result, exec, sendToTelegram, destructureSettings. unfold_monad.
    rewrite Hs. cbn. rewrite Hc. cbn.
    eexists. split; [reflexivity|]. split; [|lia].
    intros mid. split; [discriminate|].
    intros (s' & Hs' & Hc' & _). injection Hs' as <-. congruence.
  - unfold result, exec, sendToTelegram, destructureSettings. unfold_monad.
    rewrite Hs. cbn.
    eexists. split; [reflexivity|]. split; [|lia].
    intros mid. split; [discriminate|].
    intros (s' & Hs' & _). discriminate.
Qed.

End CoordinatorFacts.
(* ===================================================================== *)
(** * Further properties of the Detector                                  *)
(* ===================================================================== *)

Module DetectorFacts.
Import Detector.
Import DetectorProofs.

#[local] Arguments putAll : simpl never.
#[local] Arguments removeAll : simpl never.
#[local] Arguments Z.ltb : simpl never.
#[local] Arguments Z.sub : simpl never.

Ltac conjuncts :=
  repeat match goal with |- _ /\ _ => split end;
  first [reflexivity | assumption].

(** ** Automatic delivery *)

(** [processAutomaticConsent] sends exactly one delivery request, for the
    artifact held and of type ['automatic'], and opens no consent page.
    Whether the request is rejected or the artifact lacks a session id for
    the log entry, the call returns normally with [isProcessing] reset, and
    leaves the artifact, the remembered choice and the prompt flag as they
    were. *)
Theorem processAutomaticConsent_one_delivery e w :
  let w' := exec processAutomaticConsent e w in
  deliveries (trace w') = (sessionData w, "automatic") :: deliveries (trace w)
  /\ pageRequests (trace w') = pageRequests (trace w)
  /\ windowOpens (trace w') = windowOpens (trace w)
  /\ isProcessing w' = false
  /\ sessionData w' = sessionData w
  /\ userChoice w' = userChoice w
  /\ consentRequested w' = consentRequested w
  /\ lastConsentRequest w' = lastConsentRequest w
  /\ storage w' = storage w
  /\ result processAutomaticConsent e w = Done tt.
Proof.
  cbv zeta.
  unfold processAutomaticConsent, redactedSessionId, logActivity, reportError,
    showNotification, sendMessage.
  unfold_monad. cbn.
  repeat (destruct_inner; cbn); conjuncts.
Qed.

(** ** Asking for consent *)

Lemma requestUserConsent_stamp e w :
  lastConsentRequest (exec requestUserConsent e w) = now e
  /\ extensionSettings (exec requestUserConsent e w) = extensionSettings w
  /\ isProcessing (exec requestUserConsent e w) = isProcessing w.
Proof.
  unfold requestUserConsent, redactedSessionId, logActivity, reportError,
    showNotification, sendMessage, storageSet.
  unfold_monad. cbn.
  repeat (destruct_inner; cbn); repeat split.
Qed.

(** [requestUserConsent] stamps the time of the request whatever follows.
    When the store rejects the pending artifact, no consent page is asked
    for and the prompt flag is reset.  Otherwise the artifact and the time
    are stored, the Coordinator is asked once to open the consent page,
    and the page is opened directly exactly when that request is rejected;
    the prompt flag stays set unless the artifact has no session id for the
    log entry.  No delivery request is ever sent, and the call returns
    normally. *)
Theorem requestUserConsent_outcome e w :
  let w' := exec requestUserConsent e w in
  lastConsentRequest w' = now e
  /\ sessionData w' = sessionData w
  /\ userChoice w' = userChoice w
  /\ isProcessing w' = isProcessing w
  /\ deliveries (trace w') = deliveries (trace w)
  /\ match storageRejects e (draws w) with
     | Some _ =>
         consentRequested w' = false
         /\ storage w' = storage w
         /\ pageRequests (trace w') = pageRequests (trace w)
         /\ windowOpens (trace w') = windowOpens (trace w)
     | None =>
         consentRequested w' = hasSessionId w
         /\ storage w'
            = putAll [("pendingSessionData", SvSession (sessionData w));
                      ("consentRequestTime", SvNum (now e))] (storage w)
         /\ pageRequests (trace w') = (consentUrl e, sessionData w) :: pageRequests (trace w)
         /\ windowOpens (trace w')
            = match sendRejects e (S (draws w)) with
              | Some _ => [consentUrl e]
              | None => []
              end ++ windowOpens (trace w)
     end
  /\ result requestUserConsent e w = Done tt.
Proof.
  cbv zeta.
  unfold requestUserConsent, redactedSessionId, logActivity, reportError,
    showNotification, sendMessage, storageSet, hasSessionId.
  unfold_monad. cbn.
  destruct (storageRejects e (draws w)) eqn:Hst; cbn.
  - repeat (destruct_inner; cbn); conjuncts.
  - destruct (sendRejects e (S (draws w))) eqn:Hsend; cbn;
      destruct (sessionData w) as [d|] eqn:Hd; cbn;
      try (destruct (sessionId d) eqn:Hsid; cbn);
      repeat (destruct_inner; cbn); conjuncts.
Qed.

(** After a request for consent, an evaluation that comes less than five
    minutes later does nothing at all, whether or not the request got as
    far as opening the page. *)
Theorem requestUserConsent_then_cooldown e e' w :
  now e' - now e < CONSENT_COOLDOWN_DURATION ->
  exec evaluateConsentRequest e' (exec requestUserConsent e w)
  = exec requestUserConsent e w
  /\ result evaluateConsentRequest e' (exec requestUserConsent e w) = Done tt.
Proof.
  intros Hlt.
  destruct (requestUserConsent_stamp e w) as (Hstamp & _ & _).
  set (w1 := exec requestUserConsent e w) in *. clearbody w1.
  assert (Hc : (now e' - lastConsentRequest w1 <? CONSENT_COOLDOWN_DURATION) = true)
    by (rewrite Hstamp; apply Z.ltb_lt; exact Hlt).
  split.
  - rewrite evaluateConsentRequest_decision, Hc.
    destruct (negb (shouldRequestConsent w1)); reflexivity.
  - unfold result, evaluateConsentRequest, tryCatch, bind, get, ask, ret.
    destruct (negb (shouldRequestConsent w1)); [reflexivity|]. cbn. rewrite Hc. reflexivity.
Qed.

(** The same with an evaluation one minute after the request. *)
Lemma requestUserConsent_then_cooldown_witness :
  let e := Examples.detectorHost in
  let e' := Examples.detectorHostLater in
  let w := Examples.detectorAfterRelogin in
  now e' - now e < CONSENT_COOLDOWN_DURATION
  /\ exec evaluateConsentRequest e' (exec requestUserConsent e w)
     = exec requestUserConsent e w
  /\ result evaluateConsentRequest e' (exec requestUserConsent e w) = Done tt.
Proof.
  cbv zeta. split; [reflexivity|].
  apply (requestUserConsent_then_cooldown Examples.detectorHost Examples.detectorHostLater
           Examples.detectorAfterRelogin).
  reflexivity.
Defined.

(** ** The decision *)

Lemma requestUserConsent_deliveries e w :
  deliveries (trace (snd (requestUserConsent e w))) = deliveries (trace w).
Proof.
  unfold requestUserConsent, redactedSessionId, logActivity, reportError,
    showNotification, sendMessage, storageSet.
  unfold_monad. cbn.
  repeat (destruct_inner; cbn); reflexivity.
Qed.

Lemma reportError_returns ty err e w : fst (reportError ty err e w) = Done tt.
Proof.
  unfold reportError, sendMessage, tryCatch, ret.
  destruct (sendRejects e (draws w)); reflexivity.
Qed.

Lemma evaluateConsentRequest_returns e w : result evaluateConsentRequest e w = Done tt.
Proof.
  unfold result, evaluateConsentRequest. unfold tryCatch at 1.
  match goal with |- context [let (_, _) := ?m e w in _] => destruct (m e w) as [[[]|err] w1] end.
  - reflexivity.
  - apply reportError_returns.
Qed.

(** One evaluation either does nothing, or sends a delivery request under
    a remembered grant, or asks for consent: it never both delivers and
    asks.  It does nothing at all while the settings are missing, the bot
    token or the chat destination is empty, confirmation is switched off,
    a delivery is under way, a prompt is pending, or the last prompt is
    less than five minutes old.  It always returns normally. *)
Theorem evaluateConsentRequest_one_outcome e w :
  let w' := exec evaluateConsentRequest e w in
  (if shouldRequestConsent w
      && negb (now e - lastConsentRequest w <? CONSENT_COOLDOWN_DURATION)
   then deliveries (trace w') = deliveries (trace w)
        \/ (pageRequests (trace w') = pageRequests (trace w)
            /\ windowOpens (trace w') = windowOpens (trace w))
   else w' = w)
  /\ result evaluateConsentRequest e w = Done tt.
Proof.
  cbv zeta. split; [|apply evaluateConsentRequest_returns].
  rewrite evaluateConsentRequest_decision.
  destruct (shouldRequestConsent w); cbn [negb andb]; [|reflexivity].
  destruct (now e - lastConsentRequest w <? CONSENT_COOLDOWN_DURATION);
    cbn [negb]; [reflexivity|].
  destruct (rememberedAt w) as [[choice t]|].
  - destruct (now e - t <? SESSION_REMEMBER_DURATION).
    + destruct (String.eqb (consent choice) "granted").
      * right. apply (proj2 (processAutomaticConsent_outbox e w)).
      * left. reflexivity.
    + left. apply requestUserConsent_deliveries.
  - left. apply requestUserConsent_deliveries.
Qed.

(** ** The outcome of a delivery *)

(** [handleConsentProcessed] always ends with [isProcessing] and the prompt
    flag reset.  After a success the grant is remembered for the artifact
    held, with the time of the call, unless [autoClearData] is set: then
    the artifact and the grant just recorded are dropped at once.  After a
    failure the remembered choice and the artifact stay as they were and
    the error is shown. *)
Theorem handleConsentProcessed_settles e w data :
  let w' := exec (handleConsentProcessed data) e w in
  isProcessing w' = false
  /\ consentRequested w' = false
  /\ lastConsentRequest w' = lastConsentRequest w
  /\ match data with
     | ProcessedOk =>
         if match extensionSettings w with Some s => autoClearData s | None => false end
         then userChoice w' = None /\ sessionData w' = None /\ sessionDetected w' = false
         else userChoice w'
              = Some (mkChoice "granted" (Some (now e)) (sessionData w ≫= sessionId))
              /\ sessionData w' = sessionData w
              /\ sessionDetected w' = sessionDetected w
     | ProcessedFail error =>
         userChoice w' = userChoice w
         /\ sessionData w' = sessionData w
         /\ notifications (trace w') = ("Error: " +:+ error, "error") :: notifications (trace w)
     end
  /\ result (handleConsentProcessed data) e w = Done tt.
Proof.
  cbv zeta.
  unfold handleConsentProcessed, clearSessionData, storageRemoveDetached, showNotification.
  unfold_monad.
  destruct data as [|error]; cbn.
  - destruct (extensionSettings w) as [s|]; [destruct (autoClearData s)|]; cbn;
      try (destruct (storageRejects e (draws w)); cbn);
      destruct (sessionData w); conjuncts.
  - conjuncts.
Qed.

Lemma handleConsentProcessed_autoClear e w s :
  extensionSettings w = Some s -> autoClearData s = true ->
  userChoice (exec (handleConsentProcessed ProcessedOk) e w) = None.
Proof.
  intros Hs Ha.
  unfold handleConsentProcessed, clearSessionData, storageRemoveDetached, showNotification.
  unfold_monad. cbn. rewrite Hs. cbn. rewrite Ha. cbn.
  destruct (storageRejects e (draws w)); reflexivity.
Qed.

(** With [autoClearData] set, a successful delivery leaves no grant
    behind: whatever the next evaluation does, it sends no delivery
    request. *)
Theorem autoClear_forgets_grant e e' w s :
  extensionSettings w = Some s -> autoClearData s = true ->
  let w1 := exec (handleConsentProcessed ProcessedOk) e w in
  rememberedAt w1 = None
  /\ deliveries (trace (exec evaluateConsentRequest e' w1)) = deliveries (trace w1).
Proof.
  intros Hs Ha. cbv zeta.
  pose proof (handleConsentProcessed_autoClear e w s Hs Ha) as Hu.
  set (w1 := exec (handleConsentProcessed ProcessedOk) e w) in *. clearbody w1.
  assert (Hr : rememberedAt w1 = None) by (unfold rememberedAt; rewrite Hu; reflexivity).
  split; [exact Hr|].
  rewrite evaluateConsentRequest_decision, Hr.
  destruct (negb (shouldRequestConsent w1)); [reflexivity|].
  destruct (now e' - lastConsentRequest w1 <? CONSENT_COOLDOWN_DURATION); [reflexivity|].
  apply requestUserConsent_deliveries.
Qed.

Lemma autoClear_forgets_grant_witness :
  let e := Examples.detectorHost in
  let e' := Examples.detectorHostLater in
  let w := Examples.detectorDelivering in
  let w1 := exec (handleConsentProcessed ProcessedOk) e w in
  (extensionSettings w = Some Examples.detectorSettingsAutoClear
   /\ autoClearData Examples.detectorSettingsAutoClear = true)
  /\ rememberedAt w1 = None
  /\ deliveries (trace (exec evaluateConsentRequest e' w1)) = deliveries (trace w1).
Proof.
  cbv zeta. split; [split; reflexivity|].
  apply (autoClear_forgets_grant Examples.detectorHost Examples.detectorHostLater
           Examples.detectorDelivering Examples.detectorSettingsAutoClear); reflexivity.
Defined.

End DetectorFacts.
(* ===================================================================== *)
(** * Further properties of the Consent Surface                           *)
(* ===================================================================== *)

Module ConsentFacts.
Import ConsentSurface.
Import ConsentProofs.

Ltac conjuncts :=
  repeat match goal with |- _ /\ _ => split end;
  first [reflexivity | assumption].

(** ** The cookie scan *)

(** The first cookie named [sessionid] decides the outcome of the scan:
    cookies before it that carry another name are passed over, and nothing
    after it is looked at, not even a second [sessionid]. *)
Theorem findSessionCookie_first_wins (pre post : list string) (entry : string) :
  Forall (fun x => fst (nameValue x) <> "sessionid") pre ->
  fst (nameValue entry) = "sessionid" ->
  findSessionCookie (pre ++ entry :: post) = snd (nameValue entry).
Proof.
  intros Hpre Hname. induction Hpre as [|x pre Hx _ IH]; cbn [app findSessionCookie].
  - destruct (nameValue entry) as [name value]. cbn in Hname. subst name. reflexivity.
  - destruct (nameValue x) as [name value]. cbn in Hx.
    destruct (String.eqb_spec name "sessionid") as [->|_]; [contradiction|]. exact IH.
Qed.

Lemma findSessionCookie_first_wins_witness :
  (Forall (fun x => fst (nameValue x) <> "sessionid") ["csrftoken=tok"]
   /\ fst (nameValue " sessionid=") = "sessionid")
  /\ findSessionCookie (["csrftoken=tok"] ++ " sessionid=" :: [" sessionid=abc123"])
     = snd (nameValue " sessionid=").
Proof.
  assert (H1 : Forall (fun x => fst (nameValue x) <> "sessionid") ["csrftoken=tok"])
    by (constructor; [discriminate | constructor]).
  assert (H2 : fst (nameValue " sessionid=") = "sessionid") by reflexivity.
  split; [split; assumption|].
  apply (findSessionCookie_first_wins ["csrftoken=tok"] [" sessionid=abc123"]
           " sessionid=" H1 H2).
Defined.

(** No piece of a split text holds the separator. *)
Lemma split_no_separator sep s :
  Forall (fun x => ~ In sep (list_ascii_of_string x)) (JS.split sep s).
Proof.
  induction s as [|c tl IH]; cbn [JS.split].
  - constructor; [intros [] | constructor].
  - destruct (Ascii.eqb_spec c sep) as [->|Hne].
    + constructor; [intros [] | exact IH].
    + destruct (JS.split sep tl) as [|hd rest].
      * constructor; [|constructor]. cbn. intros [H|[]]. apply Hne. exact H.
      * inversion IH as [|? ? Hhd Hrest]; subst.
        constructor; [|exact Hrest]. cbn. intros [H|H]; [apply Hne; exact H | apply Hhd; exact H].
Qed.

Lemma nameValue_no_equals entry v :
  snd (nameValue entry) = Some v -> ~ In "="%char (list_ascii_of_string v).
Proof.
  unfold nameValue. pose proof (split_no_separator "=" (JS.trim entry)) as H.
  destruct (JS.split "=" (JS.trim entry)) as [|name [|value rest]]; cbn; try discriminate.
  intros [= <-]. inversion H as [|? ? _ H2]; subst. inversion H2; subst. assumption.
Qed.

Lemma findSessionCookie_no_equals l v :
  findSessionCookie l = Some v -> ~ In "="%char (list_ascii_of_string v).
Proof.
  induction l as [|entry rest IH]; cbn [findSessionCookie]; [discriminate|].
  pose proof (nameValue_no_equals entry) as Hnv.
  destruct (nameValue entry) as [name value]. cbn in Hnv.
  destruct (String.eqb name "sessionid"); [apply Hnv | exact IH].
Qed.

(** ** The extraction *)

(** [extractInstagramSessionData] never throws and leaves the state of the
    page alone.  The artifact it returns carries a non-empty session id,
    which is the value of the first [sessionid] cookie up to its first
    equals sign, the address of the page and the time of the extraction;
    it returns [null] exactly when that cookie is missing or empty, however
    much else the page gives away.  The preview extraction stores the
    artifact when there is one, changes nothing otherwise, and does not
    throw either. *)
Theorem extractInstagramSessionData_artifact e w :
  extractInstagramSessionData e w = (Done (freshArtifact e), w)
  /\ match freshArtifact e with
     | Some d =>
         exists sid,
           sessionId d = Some sid
           /\ sid <> ""
           /\ findSessionCookie (JS.split ";" (cookie (page e))) = Some sid
           /\ ~ In "="%char (list_ascii_of_string sid)
           /\ extractedAt d = Some (toISOString e (now e))
           /\ url d = Some (href (page e))
     | None => JS.truthyO (findSessionCookie (JS.split ";" (cookie (page e)))) = false
     end
  /\ extractSessionDataForPreview e w
     = (Done tt, match freshArtifact e with
                 | Some d => set_sessionData (Some d) w
                 | None => w
                 end).
Proof.
  split; [apply extractInstagramSessionData_run|].
  split.
  - unfold freshArtifact, extractInstagramSessionData. unfold_monad.
    destruct (scanScripts _ _ _) as [uid uname0].
    destruct (findSessionCookie (JS.split ";" (cookie (page e)))) as [sid|] eqn:Hc;
      cbn; [|reflexivity].
    destruct (JS.truthy sid) eqn:Ht; cbn; [|reflexivity].
    exists sid. split; [reflexivity|].
    split; [intros ->; discriminate|]. split; [reflexivity|].
    split; [exact (findSessionCookie_no_equals _ _ Hc)|]. split; reflexivity.
  - unfold extractSessionDataForPreview. unfold tryCatch at 1.
    unfold bind at 1. rewrite extractInstagramSessionData_run.
    destruct (freshArtifact e); reflexivity.
Qed.

(** ** The outcome of an approval *)

#[local] Arguments extractInstagramSessionData : simpl never.
#[local] Arguments formatTelegramMessage : simpl never.
#[local] Arguments String.append : simpl never.

(** An approval that is not ignored ends on exactly one screen.  It ends
    on the success screen, in step [completed], when a credential was
    extracted and the sink accepted the message; the preview is dropped
    then if [autoClearData] is set.  Otherwise it ends on the error screen,
    in step [error], with the message of the failure, and the preview is
    kept.  Either way [isProcessing] is reset, the loading overlay is
    hidden last, and the call returns normally. *)
Theorem handleConsentAction_outcome e w :
  isProcessing w = false ->
  let w' := exec handleConsentAction e w in
  isProcessing w' = false
  /\ head (trace w') = Some (LoadingOverlay None)
  /\ extensionSettings w' = extensionSettings w
  /\ match approvalFailure e w with
     | None =>
         currentStep w' = Completed
         /\ successScreens (trace w')
            = "Your Instagram session data has been successfully sent to your Telegram bot!"
                :: successScreens (trace w)
         /\ errorScreens (trace w') = errorScreens (trace w)
         /\ sessionData w'
            = if match extensionSettings w with
                 | Some s => autoClearData s
                 | None => false
                 end
              then None else sessionData w
     | Some reason =>
         currentStep w' = Failed
         /\ errorScreens (trace w')
            = ("Error processing your request: " +:+ reason) :: errorScreens (trace w)
         /\ successScreens (trace w') = successScreens (trace w)
         /\ sessionData w' = sessionData w
     end
  /\ result handleConsentAction e w = Done tt.
Proof.
  intros Hp. cbv zeta.
  unfold handleConsentAction, sendDataToTelegram, settingsOrThrow, destructureSettings,
    logUserAction,
    clearLocalData, updateUIState, showLoadingOverlay, approvalFailure, requestFor.
  unfold_monad. rewrite Hp. cbn.
  destruct (extensionSettings w) as [s|] eqn:Hs; cbn.
  - destruct (logActivities s) eqn:Hl; cbn;
      rewrite extractInstagramSessionData_run; cbn;
      (destruct (freshArtifact e) as [d|]; cbn; rewrite ?Hs, ?Hl; cbn;
       [|conjuncts]);
      (destruct (negb (JS.truthyO (botToken (telegramSettings s)))
                 || negb (JS.truthyO (chatId (telegramSettings s)))); cbn;
       rewrite ?Hs, ?Hl; cbn; [conjuncts|]);
      (destruct (sink e _ _ _); cbn; rewrite ?Hs, ?Hl; cbn;
       try conjuncts);
      destruct (autoClearData s); cbn; rewrite ?Hs, ?Hl; cbn;
      conjuncts.
  - rewrite extractInstagramSessionData_run; cbn.
    destruct (freshArtifact e) as [d|]; cbn; settle Hs Hs;
      conjuncts.
Qed.

(** The same at an approval on the page of the second credential. *)
Lemma handleConsentAction_outcome_witness :
  let e := Examples.consentHost Examples.pageAtApproval in
  let w := Examples.consentPageWithPreview in
  let w' := exec handleConsentAction e w in
  isProcessing w = false
  /\ isProcessing w' = false
  /\ head (trace w') = Some (LoadingOverlay None)
  /\ extensionSettings w' = extensionSettings w
  /\ match approvalFailure e w with
     | None =>
         currentStep w' = Completed
         /\ successScreens (trace w')
            = "Your Instagram session data has been successfully sent to your Telegram bot!"
                :: successScreens (trace w)
         /\ errorScreens (trace w') = errorScreens (trace w)
         /\ sessionData w'
            = if match extensionSettings w with
                 | Some s => autoClearData s
                 | None => false
                 end
              then None else sessionData w
     | Some reason =>
         currentStep w' = Failed
         /\ errorScreens (trace w')
            = ("Error processing your request: " +:+ reason) :: errorScreens (trace w)
         /\ successScreens (trace w') = successScreens (trace w)
         /\ sessionData w' = sessionData w
     end
  /\ result handleConsentAction e w = Done tt.
Proof.
  cbv zeta. split; [reflexivity|].
  apply (handleConsentAction_outcome (Examples.consentHost Examples.pageAtApproval)
           Examples.consentPageWithPreview).
  reflexivity.
Defined.

(** ** Retrying *)

(** The retry button clears [isProcessing] before it approves again, so a
    retry is never ignored: it extracts and sends like a first approval,
    even when an approval is still being processed. *)
Theorem handleErrorRetry_overrides_busy e w :
  fetches (trace (exec handleErrorRetry e w))
  = match freshArtifact e with
    | Some d =>
        match requestFor e w d with
        | Some r => r :: fetches (trace w)
        | None => fetches (trace w)
        end
    | None => fetches (trace w)
    end.
Proof.
  set (w0 := emit (StatusIndicator Configured)
               (set_currentStep Configured (set_isProcessing false w))).
  assert (Hrun : exec handleErrorRetry e w = exec handleConsentAction e w0) by reflexivity.
  rewrite Hrun. apply (handleConsentAction_fetches e w0). reflexivity.
Qed.

(** ** The three validators *)

(** The three copies of [validateSessionData] are ordered: what the
    content script accepts the service worker accepts, and what the service
    worker accepts the consent page accepts.  They ask for a session id of
    at least 20, 20 and 10 characters, and the content script alone looks
    at the characters. *)
Theorem validateSessionData_chain (d : option SessionData) :
  implb (Detector.validateSessionData d) (Background.validateSessionData d) = true
  /\ implb (Background.validateSessionData d) (validateSessionData d) = true.
Proof.
  unfold Detector.validateSessionData, Background.validateSessionData,
    validateSessionData, Detector.SESSION_ID_MIN_LENGTH.
  destruct d as [d|]; [|split; reflexivity].
  destruct (negb (JS.truthyO (sessionId d)) || negb (JS.truthyO (extractedAt d)));
    [split; reflexivity|].
  destruct (sessionId d) as [sid|]; [|split; reflexivity].
  destruct (Nat.ltb_spec (String.length sid) 20) as [Hlt|Hge]; cbn [negb implb].
  - split; reflexivity.
  - split; [destruct (forallb _ _); reflexivity|].
    destruct (Nat.ltb_spec (String.length sid) 10) as [Hlt|_]; [lia | reflexivity].
Qed.

(** ** Truncation *)

(** [truncateText] returns a text of at most [maxLength] code units as it
    is.  A longer text keeps its first [maxLength] code units, and what
    follows them is three full stops and nothing else: the result is
    then three code units longer than the bound, and may be longer than
    the text was.  Truncating again changes nothing. *)
Theorem truncateText_length_idempotent (text : list N) (maxLength : nat) :
  length (truncateText text maxLength)
  = (if (length text <=? maxLength)%nat then length text else maxLength + 3)%nat
  /\ take maxLength (truncateText text maxLength) = take maxLength text
  /\ drop maxLength (truncateText text maxLength)
     = (if (length text <=? maxLength)%nat then [] else [46; 46; 46]%N)
  /\ truncateText (truncateText text maxLength) maxLength = truncateText text maxLength.
Proof.
  destruct (length text <=? maxLength)%nat eqn:Hb.
  - assert (Hv : truncateText text maxLength = text)
      by (unfold truncateText; rewrite Hb, orb_true_r; reflexivity).
    apply Nat.leb_le in Hb.
    rewrite !Hv. split; [reflexivity|]. split; [reflexivity|].
    split; [apply drop_ge; exact Hb | reflexivity].
  - apply Nat.leb_gt in Hb.
    assert (Hv : truncateText text maxLength = take maxLength text ++ [46; 46; 46]%N).
    { unfold truncateText. destruct text as [|c text]; [cbn in Hb; lia|].
      destruct (Nat.leb_spec (length (c :: text)) maxLength); [lia | reflexivity]. }
    assert (Hlen : length (take maxLength text) = maxLength)
      by (rewrite length_take; lia).
    rewrite !Hv.
    split; [rewrite length_app, Hlen; reflexivity|].
    split; [rewrite take_app_le by lia; apply take_idemp |].
    split; [rewrite drop_app_length' by (symmetry; exact Hlen); reflexivity|].
    unfold truncateText.
    destruct (take maxLength text ++ [46; 46; 46]%N) as [|c rest] eqn:Happ;
      [apply (f_equal length) in Happ; rewrite length_app in Happ; cbn in Happ; lia|].
    rewrite <- Happ.
    destruct (Nat.leb_spec (length (take maxLength text ++ [46; 46; 46]%N)) maxLength)
      as [Hle|_]; [rewrite length_app, Hlen in Hle; cbn in Hle; lia|].
    cbn [orb]. rewrite take_app_le by lia. rewrite take_idemp. reflexivity.
Qed.

End ConsentFacts.
(* ===================================================================== *)
(** * Further properties of the message templates and the popup           *)
(* ===================================================================== *)

Module TemplateFacts.
Import Template.
Import TemplateProofs.

#[local] Arguments String.append : simpl nomatch.

(** A text without an opening brace holds no match of a placeholder. *)
Lemma replaceScan_noBrace pat rep s :
  isToken pat = true -> noBrace s = true ->
  forall before, JS.replaceScan pat rep before 0 s = s.
Proof.
  intros Hp. destruct pat as [|p0 pb]; [discriminate|].
  cbn in Hp. apply andb_prop in Hp as [Hp0 _]. apply Ascii.eqb_eq in Hp0. subst p0.
  induction s as [|c tl IH]; intros Hs before; [reflexivity|].
  unfold noBrace in Hs. cbn in Hs. apply andb_prop in Hs as [Hc Htl].
  apply negb_true_iff in Hc.
  cbn [JS.replaceScan]. rewrite (prefix_brace_mismatch pb c tl Hc).
  f_equal. apply IH. exact Htl.
Qed.

Lemma substitute_noBrace sid uid uname stamp link template :
  noBrace template = true ->
  Background.substitute sid uid uname stamp link template = template.
Proof.
  intros H. unfold Background.substitute, JS.replaceAll.
  rewrite (replaceScan_noBrace "{sessionId}" sid template eq_refl H).
  rewrite (replaceScan_noBrace "{userId}" uid template eq_refl H).
  rewrite (replaceScan_noBrace "{username}" uname template eq_refl H).
  rewrite (replaceScan_noBrace "{timestamp}" stamp template eq_refl H).
  apply (replaceScan_noBrace "{url}" link template eq_refl H).
Qed.

(** A template that is not empty and holds no opening brace is the message,
    letter for letter, whatever the artifact: no value of the artifact,
    not even one that holds a replacement pattern, finds its way in.  This
    holds for the service worker and for the consent page. *)
Theorem formatTelegramMessage_verbatim locale here d template :
  template <> "" ->
  noBrace template = true ->
  Background.formatTelegramMessage locale d template = template
  /\ ConsentSurface.formatTelegramMessage locale here d (Some template) = template.
Proof.
  intros Hne Hnb.
  assert (Ht : JS.truthy template = true) by (destruct template; [contradiction | reflexivity]).
  unfold Background.formatTelegramMessage, ConsentSurface.formatTelegramMessage.
  cbn [JS.truthyO default from_option id]. rewrite Ht.
  split; apply substitute_noBrace; exact Hnb.
Qed.

Lemma formatTelegramMessage_verbatim_witness :
  let template := "New session received" in
  (template <> "" /\ noBrace template = true)
  /\ Background.formatTelegramMessage Examples.localTime Examples.artifactWithDollarName
       template = template
  /\ ConsentSurface.formatTelegramMessage Examples.localTime
       "chrome-extension://abcdefgh/consent.html" Examples.artifactWithDollarName
       (Some template) = template.
Proof.
  cbv zeta. split; [split; [discriminate | reflexivity]|].
  apply (formatTelegramMessage_verbatim Examples.localTime
           "chrome-extension://abcdefgh/consent.html" Examples.artifactWithDollarName
           "New session received"); [discriminate | reflexivity].
Defined.

(** The service worker and the consent page format the same message from
    the same template whenever the artifact carries an address; they can
    part only on a missing address, which the one renders as [Unknown] and
    the other as the address of the consent page. *)
Theorem formatTelegramMessage_agree locale here d template :
  template <> "" ->
  JS.truthyO (url d) = true ->
  ConsentSurface.formatTelegramMessage locale here d (Some template)
  = Background.formatTelegramMessage locale d template.
Proof.
  intros Hne Hu.
  assert (Ht : JS.truthy template = true) by (destruct template; [contradiction | reflexivity]).
  unfold Background.formatTelegramMessage, ConsentSurface.formatTelegramMessage.
  cbn [JS.truthyO default from_option id]. rewrite Ht. f_equal.
  destruct (url d) as [u|]; [|discriminate]. cbn in Hu. cbn. rewrite Hu. reflexivity.
Qed.

Lemma formatTelegramMessage_agree_witness :
  let template := "id={sessionId} at {url}" in
  (template <> "" /\ JS.truthyO (url Examples.artifact) = true)
  /\ ConsentSurface.formatTelegramMessage Examples.localTime
       "chrome-extension://abcdefgh/consent.html" Examples.artifact (Some template)
     = Background.formatTelegramMessage Examples.localTime Examples.artifact template.
Proof.
  cbv zeta. split; [split; [discriminate | reflexivity]|].
  apply (formatTelegramMessage_agree Examples.localTime
           "chrome-extension://abcdefgh/consent.html" Examples.artifact
           "id={sessionId} at {url}"); [discriminate | reflexivity].
Defined.

(** ** Durations in the popup *)

(** For a duration among the safe integers, [formatDuration] shows whole
    seconds below one minute, minutes and seconds below one hour, and
    hours and minutes from there on, dropping the seconds.  A negative
    duration is shown in seconds, however long. *)
Theorem formatDuration_units (d : Z) :
  Z.abs d <= Popup.MAX_SAFE_INTEGER ->
  Popup.formatDuration d
  = Some (if d <? 60000 then pretty (d / 1000) +:+ "s"
          else if d <? 3600000
               then pretty (d / 60000) +:+ "m " +:+ pretty ((d / 1000) mod 60) +:+ "s"
               else pretty (d / 3600000) +:+ "h " +:+ pretty ((d / 60000) mod 60) +:+ "m").
Proof.
  intros Hsafe. unfold Popup.formatDuration. cbv zeta.
  destruct (Z.leb_spec (Z.abs d) Popup.MAX_SAFE_INTEGER) as [_|Hgt]; [|lia].
  f_equal.
  assert (Hm : d / 1000 / 60 = d / 60000) by (rewrite Z.div_div by lia; reflexivity).
  assert (Hh : d / 1000 / 60 / 60 = d / 3600000)
    by (rewrite Hm, Z.div_div by lia; reflexivity).
  rewrite Hh, Hm.
  destruct (Z.ltb_spec d 60000) as [Hlt|Hge].
  - assert (d / 60000 <= 0) by (apply Z.lt_succ_r, Z.div_lt_upper_bound; lia).
    assert (d / 3600000 <= 0) by (apply Z.lt_succ_r, Z.div_lt_upper_bound; lia).
    destruct (Z.ltb_spec 0 (d / 3600000)); [lia|].
    destruct (Z.ltb_spec 0 (d / 60000)); [lia | reflexivity].
  - assert (0 < d / 60000) by (apply Z.div_str_pos; lia).
    destruct (Z.ltb_spec d 3600000) as [Hlt|Hge2].
    + assert (d / 3600000 <= 0) by (apply Z.lt_succ_r, Z.div_lt_upper_bound; lia).
      destruct (Z.ltb_spec 0 (d / 3600000)); [lia|].
      destruct (Z.ltb_spec 0 (d / 60000)); [|lia].
      rewrite Z.rem_mod_nonneg by (try apply Z.div_pos; lia). reflexivity.
    + assert (0 < d / 3600000) by (apply Z.div_str_pos; lia).
      destruct (Z.ltb_spec 0 (d / 3600000)); [|lia].
      rewrite Z.rem_mod_nonneg by lia. reflexivity.
Qed.

(** The same at ninety-one minutes and five seconds. *)
Lemma formatDuration_units_witness :
  Z.abs 5465000 <= Popup.MAX_SAFE_INTEGER
  /\ Popup.formatDuration 5465000
     = Some (if 5465000 <? 60000 then pretty (5465000 / 1000) +:+ "s"
             else if 5465000 <? 3600000
                  then pretty (5465000 / 60000) +:+ "m "
                       +:+ pretty ((5465000 / 1000) mod 60) +:+ "s"
                  else pretty (5465000 / 3600000) +:+ "h "
                       +:+ pretty ((5465000 / 60000) mod 60) +:+ "m").
Proof.
  assert (H : Z.abs 5465000 <= Popup.MAX_SAFE_INTEGER) by (vm_compute; discriminate).
  split; [exact H | apply (formatDuration_units 5465000 H)].
Defined.

End TemplateFacts.
